(** * evilgitfs: a shallow embedding of [evilgitfs.py]

    The file follows the layout of the Python module: the nested-dict
    helpers of the directory tree, [split_path_all], the [LRU] class, the
    git functions run by the worker pool, and the [Passthrough] FUSE
    operations.  Python values are modelled as the code has them:

    - a [str] is the Rocq [string] of its UTF-8 bytes.  The only characters
      the code inspects are ['/'] and ['~'], both ASCII, so the tests
      [startswith("/")], [path[-1] == '~'] and the slice [path[1:]] agree
      on code points and on bytes, and [bytes(path, 'utf-8')] is the byte
      list of the string;
    - [int] is [Z];
    - a [dict] used as a map is a [gmap]; the [OrderedDict] behind [LRU] is
      an association list, oldest entry first;
    - an exception is a value of [exn]; code that mutates and may raise is
      a function [state -> result * state], so that what was mutated before
      the [raise] stays mutated. *)

From Stdlib Require Import ZArith Ascii String List Lia.
From stdpp Require Import gmap strings list fin_maps pretty.

Set Warnings "-register-all".

Open Scope string_scope.
Open Scope Z_scope.

(** ** Exceptions and the result of a call *)

Inductive exn : Type :=
| KeyError
| AttributeError
| IndexError
| TypeError
| ValueError
| NameError
| UnboundLocalError
| StopIteration
| FuseOSError (errno : Z)
| OSError (errno : Z).

Definition ENOENT : Z := 2.

Inductive result (A : Type) : Type :=
| Ok (a : A)
| Raise (e : exn).
Arguments Ok {A} a.
Arguments Raise {A} e.

Definition is_ok {A} (r : result A) : bool :=
  match r with Ok _ => true | Raise _ => false end.

(** A computation over a mutable state [S] that may raise. *)
Definition M (S A : Type) : Type := S -> result A * S.

Definition ret {S A} (a : A) : M S A := fun s => (Ok a, s).
Definition raise {S A} (e : exn) : M S A := fun s => (Raise e, s).
Definition bind {S A B} (c : M S A) (k : A -> M S B) : M S B :=
  fun s => match c s with
           | (Ok a, s') => k a s'
           | (Raise e, s') => (Raise e, s')
           end.
Definition get_state {S} : M S S := fun s => (Ok s, s).
Definition put_state {S} (s : S) : M S unit := fun _ => (Ok tt, s).
Definition lift {S A} (r : result A) : M S A := fun s => (r, s).

Notation "x <~ c ;; k" := (bind c (fun x => k))
  (at level 100, c at next level, right associativity).
Notation "c ;;; k" := (bind c (fun _ => k))
  (at level 100, right associativity).

(** ** Strings as Python uses them *)

Definition slash : ascii := "/"%char.
Definition tilde : ascii := "~"%char.

(** [s.startswith("/")] *)
Definition startswith_slash (s : string) : bool :=
  match s with
  | String c _ => if Ascii.eqb c slash then true else false
  | EmptyString => false
  end.

(** [s[1:]] *)
Definition drop_first (s : string) : string :=
  match s with
  | String _ r => r
  | EmptyString => EmptyString
  end.

(** [s[:-1]] *)
Fixpoint drop_last (s : string) : string :=
  match s with
  | EmptyString => EmptyString
  | String c r => match r with
                  | EmptyString => EmptyString
                  | String _ _ => String c (drop_last r)
                  end
  end.

(** [s[-1]], which raises [IndexError] on the empty string *)
Fixpoint last_char (s : string) : result ascii :=
  match s with
  | EmptyString => Raise IndexError
  | String c r => match r with
                  | EmptyString => Ok c
                  | String _ _ => last_char r
                  end
  end.

(** The idiom [if path.startswith("/"): path = path[1:]]. *)
Definition strip_slash (path : string) : string :=
  if startswith_slash path then drop_first path else path.

(** *** [os.path.split] and [os.path.join] (posixpath) *)

(** [p[:i], p[i:]] for [i = p.rfind('/') + 1]; [None] when [p] has no
    separator (then [i = 0]). *)
Fixpoint cut_at_last_sep (p : string) : option (string * string) :=
  match p with
  | EmptyString => None
  | String c r =>
      match cut_at_last_sep r with
      | Some (h, t) => Some (String c h, t)
      | None => if Ascii.eqb c slash
                then Some (String c EmptyString, r)
                else None
      end
  end.

(** [head == sep * len(head)] *)
Fixpoint all_sep (s : string) : bool :=
  match s with
  | EmptyString => true
  | String c r => Ascii.eqb c slash && all_sep r
  end.

(** [head.rstrip(sep)] *)
Fixpoint rstrip_sep (s : string) : string :=
  match s with
  | EmptyString => EmptyString
  | String c r =>
      match rstrip_sep r with
      | EmptyString => if Ascii.eqb c slash then EmptyString
                       else String c EmptyString
      | r' => String c r'
      end
  end.

Definition os_path_split (p : string) : string * string :=
  match cut_at_last_sep p with
  | None => (EmptyString, p)
  | Some (head, tail) =>
      if all_sep head then (head, tail) else (rstrip_sep head, tail)
  end.

(** [os.path.join(a, b)] for two components. *)
Definition os_path_join (a b : string) : string :=
  if startswith_slash b then b
  else match a with
       | EmptyString => b
       | _ => match last_char a with
              | Ok c => if Ascii.eqb c slash then a ++ b
                        else a ++ "/" ++ b
              | Raise _ => b
              end
       end.

(** ** The directory tree: nested dicts

    [dir_structure] is a dict whose values are ints (file sizes) or dicts
    (directories).  [rename] can also store [None] as a value, so [None]
    is a value of its own. *)

Inductive value : Type :=
| VNone
| VInt (n : Z)
| VDict (d : gmap string value).

(** [isinstance(v, dict)], [isinstance(v, int)], [v is None] *)
Definition is_dict (v : value) : bool :=
  match v with VDict _ => true | _ => false end.
Definition is_int (v : value) : bool :=
  match v with VInt _ => true | _ => false end.
Definition is_None (v : value) : bool :=
  match v with VNone => true | _ => false end.

(** [d.get(k, None)] on a dict *)
Definition dict_get (d : gmap string value) (k : string) : value :=
  default VNone (d !! k).

(** [getFromDict(dataDict, mapList)]: the loop stops at the first [None]. *)
Fixpoint getFromDict (dataDict : value) (mapList : list string)
  : result value :=
  match mapList with
  | [] => Ok dataDict
  | k :: rest =>
      match dataDict with
      | VDict d =>
          match dict_get d k with
          | VNone => Ok VNone
          | v => getFromDict v rest
          end
      | _ => Raise AttributeError
      end
  end.

(** [_delfirst(dataDict, mapList)]: walks [mapList[:-1]] with [.get] and
    deletes [mapList[-1]] from the dict it reaches.  The Python code
    mutates that dict in place; here the path to it is rebuilt. *)
Fixpoint _delfirst (dataDict : value) (mapList : list string)
  : result value :=
  match mapList with
  | [] => Raise IndexError
  | k :: rest =>
      match rest with
      | [] =>
          match dataDict with
          | VDict d =>
              match d !! k with
              | Some _ => Ok (VDict (delete k d))
              | None => Raise KeyError
              end
          | _ => Raise TypeError
          end
      | _ :: _ =>
          match dataDict with
          | VDict d =>
              match _delfirst (dict_get d k) rest with
              | Ok sub => Ok (VDict (<[k := sub]> d))
              | Raise e => Raise e
              end
          | _ => Raise AttributeError
          end
      end
  end.

(** [mapList[:-j]] for [j >= 1] *)
Definition slice_to_neg {A} (j : nat) (l : list A) : list A :=
  take (length l - j)%nat l.

(** The walk [for k in keys: dataDict = dataDict.get(k, None)]. *)
Fixpoint walk_get (dataDict : value) (keys : list string) : result value :=
  match keys with
  | [] => Ok dataDict
  | k :: rest =>
      match dataDict with
      | VDict d => walk_get (dict_get d k) rest
      | _ => Raise AttributeError
      end
  end.

(** [_delsecond(dataDict, mapList, j)]: is the dict at [mapList[:-j]]
    empty? *)
Definition _delsecond (dataDict : value) (mapList : list string) (j : nat)
  : result bool :=
  match walk_get dataDict (slice_to_neg j mapList) with
  | Ok (VDict d) => Ok (bool_decide (size d = 0%nat))
  | Ok _ => Raise TypeError
  | Raise e => Raise e
  end.

Definition tree_step (f : value -> result value) : M value unit :=
  fun t => match f t with
           | Ok t' => (Ok tt, t')
           | Raise e => (Raise e, t)
           end.

(** The loop [for j in range(1, len(mapList))] of [deleteFromDict]. *)
Fixpoint delete_empty_loop (js : list nat) (mapList : list string)
  : M value unit :=
  match js with
  | [] => ret tt
  | j :: js' =>
      del <~ (fun t => (_delsecond t mapList j, t)) ;;
      if del : bool
      then tree_step (fun t => _delfirst t (slice_to_neg j mapList)) ;;;
           delete_empty_loop js' mapList
      else ret tt
  end.

(** [deleteFromDict(dataDict, mapList, delete_empty_recursive)] *)
Definition deleteFromDict (mapList : list string)
    (delete_empty_recursive : bool) : M value bool :=
  tree_step (fun t => _delfirst t mapList) ;;;
  (if delete_empty_recursive
   then delete_empty_loop (seq 1 (length mapList - 1)) mapList
   else ret tt) ;;;
  ret true.

(** [nested_set(dic, keys, value)]: [setdefault(key, {})] along
    [keys[:-1]], then the assignment.  A raise can only happen on the part
    of the path that already exists, before any dict is created, so the
    tree is unchanged when the result is [Raise]. *)
Fixpoint nested_set (dic : value) (keys : list string) (v : value)
  : result value :=
  match keys with
  | [] => Raise IndexError
  | k :: rest =>
      match rest with
      | [] =>
          match dic with
          | VDict d => Ok (VDict (<[k := v]> d))
          | _ => Raise TypeError
          end
      | _ :: _ =>
          match dic with
          | VDict d =>
              let sub := match d !! k with
                         | Some s => s
                         | None => VDict ∅
                         end in
              match nested_set sub rest v with
              | Ok sub' => Ok (VDict (<[k := sub']> d))
              | Raise e => Raise e
              end
          | _ => Raise AttributeError
          end
      end
  end.

(** ** [split_path_all] *)

(** The [while folder != ""] loop.  [fuel] bounds the number of
    iterations; [split_path_all] gives it more than the loop can use
    (lemma [split_loop_fuel]). *)
Fixpoint split_loop (fuel : nat) (path : string) (folders : list string)
  : list string :=
  match fuel with
  | O => folders
  | S fuel' =>
      let '(path', folder) := os_path_split path in
      match folder with
      | EmptyString =>
          match path' with
          | EmptyString => folders
          | _ => folders ++ [path']
          end
      | _ => split_loop fuel' path' (folders ++ [folder])
      end
  end.

Definition split_path_all (path : string) : string * list string :=
  let path := strip_slash path in
  let partial := path in
  let folders := split_loop (S (String.length path)) path [] in
  (partial, rev folders).

(** ** [hashlib.sha1]

    SHA-1 (FIPS 180-4) over a list of bytes, with 32-bit words as [Z] and
    the wrap-around written out.  It stands for the library call
    [hashlib.sha1(b).hexdigest()]. *)

Module SHA1.

Definition w32 (x : Z) : Z := x mod 2 ^ 32.
Definition add32 (x y : Z) : Z := w32 (x + y).
Definition rotl (n x : Z) : Z :=
  w32 (Z.lor (Z.shiftl x n) (Z.shiftr x (32 - n))).
Definition not32 (x : Z) : Z := 2 ^ 32 - 1 - x.

(** Big-endian bytes of [x] on [n] bytes. *)
Fixpoint be_bytes (n : nat) (x : Z) : list Z :=
  match n with
  | O => []
  | S n' => be_bytes n' (x / 256) ++ [x mod 256]
  end.

(** The message, the byte [0x80], zeros up to 56 modulo 64, and the bit
    length on 8 bytes. *)
Definition pad (msg : list Z) : list Z :=
  let len := Z.of_nat (length msg) in
  let zeros := Z.to_nat ((55 - len) mod 64) in
  msg ++ [128] ++ repeat 0 zeros ++ be_bytes 8 (8 * len).

Fixpoint words_of_bytes (fuel : nat) (bs : list Z) : list Z :=
  match fuel, bs with
  | S fuel', b0 :: b1 :: b2 :: b3 :: rest =>
      (((b0 * 256 + b1) * 256 + b2) * 256 + b3) :: words_of_bytes fuel' rest
  | _, _ => []
  end.

Fixpoint chunks (fuel : nat) (ws : list Z) : list (list Z) :=
  match fuel, ws with
  | S fuel', _ :: _ => take 16 ws :: chunks fuel' (drop 16 ws)
  | _, _ => []
  end.

(** The message schedule, most recent word first. *)
Fixpoint schedule (n : nat) (rev_w : list Z) : list Z :=
  match n with
  | O => rev_w
  | S n' =>
      let x := Z.lxor (Z.lxor (nth 2 rev_w 0) (nth 7 rev_w 0))
                      (Z.lxor (nth 13 rev_w 0) (nth 15 rev_w 0)) in
      schedule n' (rotl 1 x :: rev_w)
  end.

Definition state : Type := Z * Z * Z * Z * Z.

Definition round (i : nat) (st : state) (w : Z) : state :=
  let '(a, b, c, d, e) := st in
  let '(f, k) :=
    if (i <? 20)%nat
    then (Z.lor (Z.land b c) (Z.land (not32 b) d), 0x5A827999)
    else if (i <? 40)%nat
    then (Z.lxor (Z.lxor b c) d, 0x6ED9EBA1)
    else if (i <? 60)%nat
    then (Z.lor (Z.lor (Z.land b c) (Z.land b d)) (Z.land c d), 0x8F1BBCDC)
    else (Z.lxor (Z.lxor b c) d, 0xCA62C1D6) in
  let temp := add32 (add32 (add32 (add32 (rotl 5 a) f) e) k) w in
  (temp, a, rotl 30 b, c, d).

Fixpoint rounds (i : nat) (st : state) (ws : list Z) : state :=
  match ws with
  | [] => st
  | w :: ws' => rounds (S i) (round i st w) ws'
  end.

Definition compress (h : state) (chunk : list Z) : state :=
  let ws := rev (schedule 64 (rev chunk)) in
  let '(h0, h1, h2, h3, h4) := h in
  let '(a, b, c, d, e) := rounds 0 h ws in
  (add32 h0 a, add32 h1 b, add32 h2 c, add32 h3 d, add32 h4 e).

Definition init : state :=
  (0x67452301, 0xEFCDAB89, 0x98BADCFE, 0x10325476, 0xC3D2E1F0).

Definition digest (msg : list Z) : state :=
  let bs := pad msg in
  let ws := words_of_bytes (length bs) bs in
  fold_left compress (chunks (length ws) ws) init.

Definition hex_digit (d : Z) : ascii :=
  if d <? 10 then ascii_of_nat (Z.to_nat (48 + d))
  else ascii_of_nat (Z.to_nat (87 + d)).

Fixpoint hex (n : nat) (x : Z) : string :=
  match n with
  | O => EmptyString
  | S n' => hex n' (x / 16) ++ String (hex_digit (x mod 16)) EmptyString
  end.

Definition hexdigest (msg : list Z) : string :=
  let '(h0, h1, h2, h3, h4) := digest msg in
  hex 8 h0 ++ hex 8 h1 ++ hex 8 h2 ++ hex 8 h3 ++ hex 8 h4.

End SHA1.

(** [bytes(path, 'utf-8')] *)
Definition utf8_bytes (s : string) : list Z :=
  map (fun c => Z.of_nat (nat_of_ascii c)) (list_ascii_of_string s).

(** [hashlib.sha1(bytes(path, 'utf-8')).hexdigest()[:-1]], the expression
    that names a path's branch wherever the code needs one. *)
Definition path_hash_of (path : string) : string :=
  drop_last (SHA1.hexdigest (utf8_bytes path)).

(** ** What lies outside the program

    The local file system, the [git] subprocesses and the remote are not
    part of the program.  They are a state [D] with the operations the
    code calls on it; each may raise.  Theorems are stated for every such
    [D], and the examples run on the small instance [Disk] below. *)

Record stat_result : Type := {
  st_atime : Z; st_ctime : Z; st_gid : Z; st_mode : Z;
  st_mtime : Z; st_nlink : Z; st_size : Z; st_uid : Z }.

(** The shell commands the git functions run, one constructor per command
    line of the source. *)
Inductive shell : Type :=
| GitPushDelete (path_hash : string)
    (** [git push origin --delete {path_hash}] *)
| SedDelete (path_hash : string)
    (** [sed -i '/{path_hash}/d' {filelist_path}] *)
| GitFetch (path_hash : string)
    (** [git fetch origin {path_hash}] *)
| GitPushRename (path_hash_old path_hash_new : string)
    (** [git push origin origin/{old}:refs/heads/{new} :{old}] *)
| SedCut (path_hash : string)
    (** [sed -i -e '/{path_hash}/{w /dev/stdout' -e 'd}' {filelist_path}] *)
| GitPull (path_hash : string)
    (** [git pull origin {path_hash}] *)
| GitCheckoutNew (path_hash : string)
    (** [git checkout -b {path_hash}] *)
| GitAddCommitPush (dirty_filepath path_hash : string)
    (** [git add {dirty_filepath} && git commit -m 'a' && git push -u origin {path_hash}] *)
| GitCheckoutMaster
    (** [git checkout master] *)
| GitFetchRef (path_hash : string)
    (** [git fetch origin {path_hash}:{path_hash}] *)
| GitCheckoutFile (path_hash path_file : string)
    (** [git checkout {path_hash} -- {path_file}] *)
| GitCommitFilelist
    (** [git commit -a -m "update filelist"] *)
| GitPullMaster
    (** [git pull origin master] *)
| SedConflictMarkers
    (** [sed -i -e '/^<<<<<<</d' -e '/^=======/d' -e '/^>>>>>>>/d' {filelist_path}] *)
| GitCommitMerge
    (** [git commit -a -m "merge conflict"] *)
| GitPushMaster
    (** [git push -u origin master] *).

Class OS (D : Type) : Type := {
  os_remove : string -> M D unit;
  os_rename : string -> string -> M D unit;
  os_open : string -> Z -> option Z -> M D Z;
  os_close : Z -> M D unit;
  os_lseek : Z -> Z -> M D unit;
  os_read : Z -> Z -> M D (list Z);
  os_write : Z -> list Z -> M D Z;
  os_lstat : string -> M D stat_result;
  os_stat : string -> M D stat_result;
  os_path_exists : string -> M D bool;
  os_mkdir : string -> M D unit;
  (** [os.walk(top)], as the list of [(root, dirs, files)] it yields *)
  os_walk : string -> M D (list (string * list string * list string));
  (** [open(full_path, 'a').close()] *)
  touch : string -> M D unit;
  (** [shutil.copy(src, dst)] *)
  shutil_copy : string -> string -> M D unit;
  (** [subprocess.run(cmd, ...)]: the captured standard output *)
  subprocess_run : shell -> M D string;
  (** appending the row [[path, path_hash, filesize]] to [filelist.txt] *)
  csv_writerow : string -> string -> string -> M D unit;
  (** the rows [csv.reader] yields for [filelist.txt] *)
  csv_read : M D (list (list string));
  (** [pre_git_ops] and [post_git_ops]: the scratch directory of the
      current worker thread, made on first use and remade when large *)
  pre_git_ops : string -> M D string;
  post_git_ops : string -> M D unit }.

(** ** [class LRU(OrderedDict)] *)

Module OD.
(** The [OrderedDict] itself: keys are unique, the oldest entry is first. *)

Definition t : Type := list (string * Z).

Fixpoint lookup (key : string) (od : t) : option Z :=
  match od with
  | [] => None
  | (k, v) :: rest => if String.eqb k key then Some v else lookup key rest
  end.

Definition contains (key : string) (od : t) : bool :=
  match lookup key od with Some _ => true | None => false end.

Fixpoint remove (key : string) (od : t) : t :=
  match od with
  | [] => []
  | (k, v) :: rest =>
      if String.eqb k key then rest else (k, v) :: remove key rest
  end.

(** [move_to_end(key)] of an existing key *)
Definition move_to_end (key : string) (od : t) : t :=
  match lookup key od with
  | Some v => (remove key od ++ [(key, v)])%list
  | None => od
  end.

(** [dict.__setitem__]: an existing key keeps its place. *)
Fixpoint set (key : string) (value : Z) (od : t) : t :=
  match od with
  | [] => [(key, value)]
  | (k, v) :: rest =>
      if String.eqb k key then (k, value) :: rest
      else (k, v) :: set key value rest
  end.

Definition keys (od : t) : list string := map fst od.
Definition values (od : t) : list Z := map snd od.

End OD.

Record LRU : Type := {
  maxsize : Z;
  filesize_counter : Z;
  data_dir : string;
  items : OD.t }.

Definition set_counter (c : Z) (self : LRU) : LRU :=
  {| maxsize := maxsize self; filesize_counter := c;
     data_dir := data_dir self; items := items self |}.
Definition set_items (od : OD.t) (self : LRU) : LRU :=
  {| maxsize := maxsize self; filesize_counter := filesize_counter self;
     data_dir := data_dir self; items := od |}.

(** [LRU(data_dir, maxsize)]: [maxsize] is given in GB and stored as
    [maxsize * 1e9].  The product is exact in floating point for every
    [int] that [--cache-size] can sensibly hold, and Python compares an
    [int] with a [float] by value, so the bound is the integer
    [maxsize * 10^9]. *)
Definition LRU_init (data_dir : string) (maxsize_gb : Z) : LRU :=
  {| maxsize := maxsize_gb * 10 ^ 9; filesize_counter := 0;
     data_dir := data_dir; items := [] |}.

(** [dict.get(key, None)], which [LRU] inherits unchanged: it does not go
    through [__getitem__] and records no access. *)
Definition LRU_get (key : string) (self : LRU) : option Z :=
  OD.lookup key (items self).

(** [__getitem__] *)
Definition LRU_getitem (key : string) : M LRU Z :=
  fun self =>
    match OD.lookup key (items self) with
    | None => (Raise KeyError, self)
    | Some value => (Ok value, set_items (OD.move_to_end key (items self)) self)
    end.

(** [__delitem__] *)
Definition LRU_delitem (key : string) : M LRU unit :=
  v <~ LRU_getitem key ;;
  (fun self => (Ok tt, set_counter (filesize_counter self - v) self)) ;;;
  (fun self => (Ok tt, set_items (OD.remove key (items self)) self)).

Section LRU_setitem.
Context {D : Type} `{OS D}.

Definition on_lru {A} (c : M LRU A) : M (LRU * D) A :=
  fun s => let '(r, l) := c (fst s) in (r, (l, snd s)).
Definition on_disk {A} (c : M D A) : M (LRU * D) A :=
  fun s => let '(r, d) := c (snd s) in (r, (fst s, d)).

(** One turn of the eviction loop, after [oldest = next(iter(self))]:
    [self.filesize_counter -= self[oldest]], [del self[oldest]] and
    [os.remove(os.path.join(self.data_dir, oldest))]. *)
Definition evict_oldest (oldest : string) : M (LRU * D) unit :=
  v <~ on_lru (LRU_getitem oldest) ;;
  on_lru (fun self =>
    (Ok tt, set_counter (filesize_counter self - v) self)) ;;;
  on_lru (LRU_delitem oldest) ;;;
  (fun s => on_disk (os_remove (os_path_join (data_dir (fst s)) oldest)) s).

(** The loop [while self.filesize_counter > self.maxsize].  Every turn
    that does not leave the loop deletes one entry, so [fuel] above the
    number of entries is never used up (lemma [evict_loop_fuel]). *)
Fixpoint evict_loop (fuel : nat) : M (LRU * D) unit :=
  match fuel with
  | O => ret tt
  | S fuel' =>
      fun s =>
        let self := fst s in
        if filesize_counter self >? maxsize self then
          if (length (items self) =? 1)%nat then (Ok tt, s)
          else
            match items self with
            | [] => (Raise StopIteration, s)
            | (oldest, _) :: _ =>
                (evict_oldest oldest ;;; evict_loop fuel') s
            end
        else (Ok tt, s)
  end.

(** [__setitem__] *)
Definition LRU_setitem (key : string) (value : Z) : M (LRU * D) unit :=
  on_lru (fun self =>
    (Ok tt, if OD.contains key (items self)
            then set_items (OD.move_to_end key (items self)) self
            else self)) ;;;
  on_lru (fun self => (Ok tt, set_items (OD.set key value (items self)) self)) ;;;
  on_lru (fun self =>
    (Ok tt, set_counter (filesize_counter self + value) self)) ;;;
  (fun s => evict_loop (S (length (items (fst s)))) s).

End LRU_setitem.

(** ** More of Python's [str] *)

(** [needle in haystack] *)
Fixpoint is_prefix (p s : string) : bool :=
  match p, s with
  | EmptyString, _ => true
  | String a p', String b s' => Ascii.eqb a b && is_prefix p' s'
  | String _ _, EmptyString => false
  end.

Fixpoint str_contains (needle haystack : string) : bool :=
  is_prefix needle haystack ||
  match haystack with
  | EmptyString => false
  | String _ rest => str_contains needle rest
  end.

(** [s.replace(old, '')] for a non-empty [old]: the occurrences of [old]
    are removed from left to right.  [fuel] is the length of [s]. *)
Fixpoint str_remove_all (fuel : nat) (old s : string) : string :=
  match fuel with
  | O => s
  | S fuel' =>
      if is_prefix old s
      then str_remove_all fuel' old
             (string_of_list_ascii
                (drop (String.length old) (list_ascii_of_string s)))
      else match s with
           | EmptyString => EmptyString
           | String c rest => String c (str_remove_all fuel' old rest)
           end
  end.

Definition str_replace_empty (old s : string) : string :=
  match old with
  | EmptyString => s
  | _ => str_remove_all (String.length s) old s
  end.

Definition is_space (c : ascii) : bool :=
  let n := nat_of_ascii c in
  ((n =? 32) || ((9 <=? n) && (n <=? 13)))%nat.

Fixpoint lstrip (s : string) : string :=
  match s with
  | String c r => if is_space c then lstrip r else s
  | EmptyString => EmptyString
  end.

Fixpoint rstrip (s : string) : string :=
  match s with
  | EmptyString => EmptyString
  | String c r =>
      match rstrip r with
      | EmptyString => if is_space c then EmptyString
                       else String c EmptyString
      | r' => String c r'
      end
  end.

(** [s.strip()] *)
Definition str_strip (s : string) : string := rstrip (lstrip s).

(** [s.split(' ')[-1]]: what follows the last space. *)
Fixpoint after_last_space (s : string) : string :=
  match s with
  | EmptyString => EmptyString
  | String c r =>
      if str_contains " " r then after_last_space r
      else if Ascii.eqb c " "%char then r
      else s
  end.

(** [int(s)] for a decimal literal with an optional sign; anything else
    is a [ValueError]. *)
Fixpoint digits_value (acc : Z) (s : string) : result Z :=
  match s with
  | EmptyString => Ok acc
  | String c r =>
      let n := nat_of_ascii c in
      if ((48 <=? n) && (n <=? 57))%nat
      then digits_value (10 * acc + Z.of_nat (n - 48)) r
      else Raise ValueError
  end.

Definition py_int (s : string) : result Z :=
  match str_strip s with
  | EmptyString => Raise ValueError
  | String c r =>
      if Ascii.eqb c "-"%char
      then match r with
           | EmptyString => Raise ValueError
           | _ => match digits_value 0 r with
                  | Ok n => Ok (- n)
                  | Raise e => Raise e
                  end
           end
      else if Ascii.eqb c "+"%char
      then match r with
           | EmptyString => Raise ValueError
           | _ => digits_value 0 r
           end
      else digits_value 0 (String c r)
  end.

(** ** Module globals and the process state *)

(** The names bound at module level when the program runs as a script:
    imports, functions and classes, and the assignments under
    [if __name__ == '__main__'].  A name read inside a function that is
    neither local to it nor in this list is a [NameError]. *)
Definition module_globals : list string :=
  [ "os"; "sys"; "errno"; "csv"; "logging"; "shutil"; "subprocess";
    "hashlib"; "time"; "threading"; "urlparse"; "glob";
    "ThreadPoolExecutor"; "argparse"; "OrderedDict"; "namedtuple";
    "defaultdict"; "Path"; "FUSE"; "FuseOSError"; "Operations"; "ENOENT";
    "getFromDict"; "deleteFromDict"; "_delfirst"; "_delsecond";
    "nested_set"; "split_path_all"; "LRU"; "git_remove_from_remote";
    "git_rename_branch"; "git_commit_to_remote";
    "git_retrieve_from_remote"; "pre_git_ops"; "post_git_ops";
    "git_sync_filelist"; "Passthrough"; "main"; "sync_loop";
    "description"; "parser"; "args"; "git_token"; "token"; "username";
    "gitrepo"; "cache_size"; "sync_freq"; "max_workers"; "evilgitfs_dir";
    "mount_dir"; "lru_file_cache"; "dir_structure"; "retrieve_queue";
    "remote_file_size"; "executor"; "sync_filelist"; "gitrepo_parsed" ].

Definition load_global {S} (name : string) : M S unit :=
  if existsb (String.eqb name) module_globals then ret tt
  else raise NameError.

(** What [executor.submit] was given. *)
Inductive task : Type :=
| T_git_remove_from_remote (path_hash : string)
| T_git_rename_branch (path_old path_new : string)
    (destination_file_exists : bool)
| T_git_commit_to_remote (path_hash full_path filename path : string)
| T_git_retrieve_from_remote (path_hash path_file : string).

Section Program.
Context {D : Type} `{OS D}.

(** The globals [dir_structure], [lru_file_cache], [retrieve_queue] and
    [remote_file_size], the [actions] of the [Passthrough] object, the
    calls made to [executor.submit] and to [subprocess.run] so far, and
    the outside. *)
Record world : Type := {
  evilgitfs_dir : string;
  dir_structure : value;
  lru_file_cache : LRU;
  retrieve_queue : gset string;
  remote_file_size : Z;
  actions : gmap string (gset string);
  submitted : list task;
  shell_log : list shell;
  outside : D }.

Definition with_dir_structure (t : value) (w : world) : world :=
  {| evilgitfs_dir := evilgitfs_dir w; dir_structure := t;
     lru_file_cache := lru_file_cache w;
     retrieve_queue := retrieve_queue w;
     remote_file_size := remote_file_size w; actions := actions w;
     submitted := submitted w; shell_log := shell_log w;
     outside := outside w |}.
Definition with_lru (l : LRU) (w : world) : world :=
  {| evilgitfs_dir := evilgitfs_dir w; dir_structure := dir_structure w;
     lru_file_cache := l; retrieve_queue := retrieve_queue w;
     remote_file_size := remote_file_size w; actions := actions w;
     submitted := submitted w; shell_log := shell_log w;
     outside := outside w |}.
Definition with_retrieve_queue (q : gset string) (w : world) : world :=
  {| evilgitfs_dir := evilgitfs_dir w; dir_structure := dir_structure w;
     lru_file_cache := lru_file_cache w; retrieve_queue := q;
     remote_file_size := remote_file_size w; actions := actions w;
     submitted := submitted w; shell_log := shell_log w;
     outside := outside w |}.
Definition with_actions (a : gmap string (gset string)) (w : world)
  : world :=
  {| evilgitfs_dir := evilgitfs_dir w; dir_structure := dir_structure w;
     lru_file_cache := lru_file_cache w;
     retrieve_queue := retrieve_queue w;
     remote_file_size := remote_file_size w; actions := a;
     submitted := submitted w; shell_log := shell_log w;
     outside := outside w |}.
Definition with_submitted (l : list task) (w : world) : world :=
  {| evilgitfs_dir := evilgitfs_dir w; dir_structure := dir_structure w;
     lru_file_cache := lru_file_cache w;
     retrieve_queue := retrieve_queue w;
     remote_file_size := remote_file_size w; actions := actions w;
     submitted := l; shell_log := shell_log w; outside := outside w |}.
Definition with_shell_log (l : list shell) (w : world) : world :=
  {| evilgitfs_dir := evilgitfs_dir w; dir_structure := dir_structure w;
     lru_file_cache := lru_file_cache w;
     retrieve_queue := retrieve_queue w;
     remote_file_size := remote_file_size w; actions := actions w;
     submitted := submitted w; shell_log := l; outside := outside w |}.
Definition with_outside (d : D) (w : world) : world :=
  {| evilgitfs_dir := evilgitfs_dir w; dir_structure := dir_structure w;
     lru_file_cache := lru_file_cache w;
     retrieve_queue := retrieve_queue w;
     remote_file_size := remote_file_size w; actions := actions w;
     submitted := submitted w; shell_log := shell_log w; outside := d |}.

(** Running a computation of the outside, of the tree, of the LRU. *)
Definition sys {A} (c : M D A) : M world A :=
  fun w => let '(r, d) := c (outside w) in (r, with_outside d w).

Definition on_tree {A} (c : M value A) : M world A :=
  fun w => let '(r, t) := c (dir_structure w) in (r, with_dir_structure t w).

Definition on_cache {A} (c : M (LRU * D) A) : M world A :=
  fun w =>
    let '(r, (l, d)) := c (lru_file_cache w, outside w) in
    (r, with_outside d (with_lru l w)).

(** [subprocess.run(cmd, ...)] *)
Definition run (cmd : shell) : M world string :=
  (fun w => (Ok tt, with_shell_log (shell_log w ++ [cmd]) w)) ;;;
  sys (subprocess_run cmd).

(** [executor.submit(...)], without waiting for the result *)
Definition submit (t : task) : M world unit :=
  fun w => (Ok tt, with_submitted (submitted w ++ [t]) w).

(** ** Git functions *)

(** [git_remove_from_remote(evilgitfs_dir, path_hash)] *)
Definition git_remove_from_remote (path_hash : string) : M world bool :=
  dirtydir <~ (fun w => sys (pre_git_ops (evilgitfs_dir w)) w) ;;
  run (GitPushDelete path_hash) ;;;
  run (SedDelete path_hash) ;;;
  (fun w => sys (post_git_ops (evilgitfs_dir w)) w) ;;;
  ret true.

(** [git_rename_branch(evilgitfs_dir, path_old, path_new,
    destination_file_exists, remove_from_remote_func)] *)
Definition git_rename_branch (path_old path_new : string)
    (destination_file_exists : bool)
    (remove_from_remote_func : string -> bool -> M world bool)
  : M world bool :=
  dirtydir <~ (fun w => sys (pre_git_ops (evilgitfs_dir w)) w) ;;
  let path_hash_old := path_hash_of path_old in
  let path_hash_new := path_hash_of path_new in
  (if destination_file_exists
   then remove_from_remote_func path_old true
   else ret true) ;;;
  run (GitFetch path_hash_old) ;;;
  run (GitPushRename path_hash_old path_hash_new) ;;;
  stdout <~ run (SedCut path_hash_old) ;;
  let filesize := after_last_space (str_strip stdout) in
  sys (csv_writerow path_new path_hash_new filesize) ;;;
  (fun w => sys (post_git_ops (evilgitfs_dir w)) w) ;;;
  ret true.

(** [git_commit_to_remote(evilgitfs_dir, path_hash, full_path, filename,
    path)] *)
Definition git_commit_to_remote (path_hash full_path filename path : string)
  : M world bool :=
  dirtydir <~ (fun w => sys (pre_git_ops (evilgitfs_dir w)) w) ;;
  let dirty_filepath := os_path_join dirtydir filename in
  run (GitPull path_hash) ;;;
  run (GitCheckoutNew path_hash) ;;;
  sys (shutil_copy full_path dirty_filepath) ;;;
  run (GitAddCommitPush dirty_filepath path_hash) ;;;
  st <~ sys (os_stat full_path) ;;
  sys (csv_writerow path path_hash (pretty (st_size st))) ;;;
  run GitCheckoutMaster ;;;
  (fun w => sys (post_git_ops (evilgitfs_dir w)) w) ;;;
  ret true.

(** [git_retrieve_from_remote(evilgitfs_dir, path_hash, path_file)].  The
    call of [shutil.move] reads [full_path], which is neither a parameter
    nor a local of the function. *)
Definition git_retrieve_from_remote (path_hash path_file : string)
  : M world bool :=
  dirtydir <~ (fun w => sys (pre_git_ops (evilgitfs_dir w)) w) ;;
  run (GitFetchRef path_hash) ;;;
  run (GitCheckoutFile path_hash path_file) ;;;
  load_global "full_path" ;;;
  (fun w => sys (post_git_ops (evilgitfs_dir w)) w) ;;;
  ret true.

(** The body of [for filepath, branchname, filesize in f] in
    [git_sync_filelist].  [remote_file_size] is assigned in the function
    without a [global] statement, so it is a local there, and it is read
    before it is bound. *)
Fixpoint sync_reload_rows (rows : list (list string)) : M world unit :=
  match rows with
  | [] => ret tt
  | row :: rows' =>
      match row with
      | [filepath; branchname; filesize] =>
          let '(partial, all_paths) := split_path_all filepath in
          size <~ lift (py_int filesize) ;;
          on_tree (tree_step (fun t => nested_set t all_paths (VInt size))) ;;;
          (raise UnboundLocalError : M world unit) ;;;
          sync_reload_rows rows'
      | _ => raise ValueError
      end
  end.

(** [git_sync_filelist(evilgitfs_dir)] *)
Definition git_sync_filelist : M world bool :=
  run GitCommitFilelist ;;;
  stdout <~ run GitPullMaster ;;
  (if str_contains "Merge conflict" stdout
   then
     run SedConflictMarkers ;;;
     load_global "pure_dir" ;;;
     rows <~ sys csv_read ;;
     sync_reload_rows rows
   else ret tt) ;;;
  run GitCommitMerge ;;;
  run GitPushMaster ;;;
  ret true.

(** ** [class Passthrough(Operations)] *)

(** [self.data_dir] *)
Definition self_data_dir (w : world) : string :=
  os_path_join (evilgitfs_dir w) "datadir".

Definition _full_path (partial : string) : M world string :=
  fun w => (Ok (os_path_join (self_data_dir w) (strip_slash partial)), w).

(** [getFromDict(dir_structure, all_paths)] *)
Definition tree_get (all_paths : list string) : M world value :=
  fun w => (getFromDict (dir_structure w) all_paths, w).

(** [lru_file_cache.get(partial, None)] *)
Definition cache_get (partial : string) : M world (option Z) :=
  fun w => (Ok (LRU_get partial (lru_file_cache w)), w).

(** The record [getattr] returns for a file or directory that is not on
    the local disk. *)
Definition mirage (mode size nlink : Z) : stat_result :=
  {| st_mode := mode; st_uid := 1001; st_nlink := nlink; st_gid := 1001;
     st_size := size; st_atime := 7226582400; st_mtime := 7226582400;
     st_ctime := 7226582400 |}.

Definition getattr (path : string) : M world stat_result :=
  full_path <~ _full_path path ;;
  let '(partial, all_paths) := split_path_all path in
  cached <~ cache_get partial ;;
  match cached with
  | Some _ => sys (os_lstat full_path)
  | None =>
      node <~ tree_get all_paths ;;
      if negb (is_None node) then
        on_disk <~ sys (os_path_exists full_path) ;;
        if on_disk : bool then sys (os_lstat full_path)
        else
          node <~ tree_get all_paths ;;
          if is_dict node then ret (mirage 16893 4096 2)
          else ret (mirage 33204 0 1)
      else raise (FuseOSError ENOENT)
  end.

(** [readdir] is a generator over the set [dirents]; the set is what it
    yields, in no particular order. *)
Definition readdir (path : string) : M world (gset string) :=
  let dirents : gset string := {[ "."; ".." ]} in
  let '(partial, all_paths) := split_path_all path in
  dir_listing <~ tree_get all_paths ;;
  if is_None dir_listing then raise (FuseOSError ENOENT)
  else
    let dirents := match dir_listing with
                   | VDict d => dirents ∪ dom d
                   | _ => dirents
                   end in
    dir_listing <~ tree_get all_paths ;;
    let dirents := match dir_listing with
                   | VDict d => dirents ∪ dom d
                   | _ => dirents
                   end in
    ret dirents.

Definition _isfile (all_paths : list string) : M world bool :=
  node <~ tree_get all_paths ;;
  if is_dict node then ret false
  else
    node <~ tree_get all_paths ;;
    if is_int node then ret true
    else raise ValueError.

(** [rename_branch(path_old, path_new, destination_file_exists)] *)
Definition rename_branch (path_old path_new : string)
    (destination_file_exists : bool) : M world bool :=
  let path_old := strip_slash path_old in
  let path_new := strip_slash path_new in
  submit (T_git_rename_branch path_old path_new destination_file_exists) ;;;
  ret true.

(** [remove_from_remote(path, block)]: with [block], [.result()] waits
    for the worker, so the task has run when the call returns. *)
Definition remove_from_remote (path : string) (block : bool)
  : M world bool :=
  let path := strip_slash path in
  let path_hash := path_hash_of path in
  let partial := strip_slash path in
  (if block
   then submit (T_git_remove_from_remote path_hash) ;;;
        git_remove_from_remote path_hash
   else submit (T_git_remove_from_remote path_hash) ;;; ret true) ;;;
  ret true.

(** [commit_to_remote(path)] *)
Definition commit_to_remote (path : string) : M world bool :=
  let path := strip_slash path in
  let path_hash := path_hash_of path in
  full_path <~ _full_path path ;;
  let '(_, filename) := os_path_split path in
  submit (T_git_commit_to_remote path_hash full_path filename path) ;;;
  ret true.

(** [_add_file_to_fs(path, create)] *)
Definition _add_file_to_fs (path : string) (create : bool) : M world unit :=
  size <~ (if create then ret 0
           else full_path <~ _full_path path ;;
                st <~ sys (os_lstat full_path) ;;
                ret (st_size st)) ;;
  let '(partial, all_paths) := split_path_all path in
  on_tree (tree_step (fun t => nested_set t all_paths (VInt size))) ;;;
  on_cache (LRU_setitem partial size).

(** The loop [for i in all_paths[:-1]] of [retrieve_from_remote]. *)
Fixpoint make_dirs (dir_traversal : string) (dirs : list string)
  : M world unit :=
  match dirs with
  | [] => ret tt
  | i :: dirs' =>
      let dir_traversal := dir_traversal ++ "/" ++ i in
      there <~ sys (os_path_exists dir_traversal) ;;
      (if there : bool then ret tt else sys (os_mkdir dir_traversal)) ;;;
      make_dirs dir_traversal dirs'
  end.

(** [retrieve_from_remote(path, full_path)] *)
Definition retrieve_from_remote (path full_path : string) : M world bool :=
  let path := strip_slash path in
  let path_hash := path_hash_of path in
  let '(partial, all_paths) := split_path_all full_path in
  let '(_, path_file) := os_path_split path in
  make_dirs "" (slice_to_neg 1 all_paths) ;;;
  sys (touch full_path) ;;;
  submit (T_git_retrieve_from_remote path_hash path_file) ;;;
  git_retrieve_from_remote path_hash path_file ;;;
  _add_file_to_fs path false ;;;
  ret true.

(** What a worker does with a task taken from the queue. *)
Definition run_task (t : task) : M world bool :=
  match t with
  | T_git_remove_from_remote path_hash => git_remove_from_remote path_hash
  | T_git_rename_branch path_old path_new destination_file_exists =>
      git_rename_branch path_old path_new destination_file_exists
        remove_from_remote
  | T_git_commit_to_remote path_hash full_path filename path =>
      git_commit_to_remote path_hash full_path filename path
  | T_git_retrieve_from_remote path_hash path_file =>
      git_retrieve_from_remote path_hash path_file
  end.

(** [self.actions[path].add(a)] on the [defaultdict(set)] *)
Definition actions_add (path a : string) : M world unit :=
  fun w =>
    (Ok tt,
     with_actions
       (<[path := default ∅ (actions w !! path) ∪ {[ a ]}]> (actions w)) w).

Definition O_WRONLY_or_O_CREAT : Z := 65.

(** [create(path, mode)] *)
Definition create (path : string) (mode : Z) : M world Z :=
  full_path <~ _full_path path ;;
  hidden <~ (if mode =? 33152 then ret true
             else c <~ lift (last_char path) ;; ret (Ascii.eqb c tilde)) ;;
  if hidden : bool
  then sys (os_open full_path O_WRONLY_or_O_CREAT (Some mode))
  else
    actions_add path "write" ;;;
    _add_file_to_fs path true ;;;
    sys (os_open full_path O_WRONLY_or_O_CREAT (Some mode)).

(** [open(path, flags)].  The wait on [retrieve_queue] polls a set that
    only another thread can change; in a sequential run it changes
    nothing. *)
Definition open (path : string) (flags : Z) : M world Z :=
  full_path <~ _full_path path ;;
  let '(partial, all_paths) := split_path_all path in
  cached <~ cache_get partial ;;
  (match cached with
   | None =>
       node <~ tree_get all_paths ;;
       if negb (is_None node) then
         (fun w => (Ok tt, with_retrieve_queue (retrieve_queue w ∪ {[ path ]}) w)) ;;;
         retrieve_from_remote path full_path ;;;
         (fun w => (Ok tt, with_retrieve_queue (retrieve_queue w ∖ {[ path ]}) w))
       else ret tt
   | Some _ => ret tt
   end) ;;;
  sys (os_open full_path flags None).

(** [read(path, length, offset, fh)] *)
Definition read (path : string) (length offset fh : Z) : M world (list Z) :=
  sys (os_lseek fh offset) ;;;
  actions_add path "read" ;;;
  sys (os_read fh length).

(** [write(path, buf, offset, fh)] *)
Definition write (path : string) (buf : list Z) (offset fh : Z) : M world Z :=
  sys (os_lseek fh offset) ;;;
  actions_add path "write" ;;;
  sys (os_write fh buf).

(** [release(path, fh)] *)
Definition release (path : string) (fh : Z) : M world unit :=
  acts <~ (fun w => (Ok (default ∅ (actions w !! path)),
                     with_actions (delete path (actions w)) w)) ;;
  (if bool_decide ("write" ∈ (acts : gset string))
   then _add_file_to_fs path false ;;; commit_to_remote path ;;; ret tt
   else ret tt) ;;;
  sys (os_close fh).

(** *** [rename] *)

(** [if lru_file_cache.get(old) is not None: lru_file_cache[new] =
    lru_file_cache.get(old); del lru_file_cache[old]] *)
Definition move_cache_entry (partial_old partial_new : string)
  : M world unit :=
  cached <~ cache_get partial_old ;;
  match cached with
  | Some size =>
      on_cache (LRU_setitem partial_new size) ;;;
      on_cache (on_lru (LRU_delitem partial_old))
  | None => ret tt
  end.

(** [nested_set(dir_structure, new, getFromDict(dir_structure, old))]
    followed by [deleteFromDict(dir_structure, old, collapse)].  When the
    moved value is a dict, Python has one dict at both places until the
    old one is deleted; the rebuilt tree has two copies for that moment. *)
Definition move_tree_entry (all_paths_old all_paths_new : list string)
    (delete_empty_recursive : bool) : M world unit :=
  node <~ tree_get all_paths_old ;;
  on_tree (tree_step (fun t => nested_set t all_paths_new node)) ;;;
  on_tree (deleteFromDict all_paths_old delete_empty_recursive) ;;;
  ret tt.

(** The loop [for file in files] of the directory branch. *)
Fixpoint rename_files (files : list string)
    (partial_old partial_new partial : string)
    (all_paths_old all_paths_new all_paths : list string) : M world unit :=
  match files with
  | [] => ret tt
  | file :: files' =>
      let partial_old_internal :=
        os_path_join (os_path_join partial_old partial) file in
      let partial_new_internal :=
        os_path_join (os_path_join partial_new partial) file in
      let all_paths_old_internal := (all_paths_old ++ all_paths ++ [file])%list in
      let all_paths_new_internal := (all_paths_new ++ all_paths ++ [file])%list in
      move_tree_entry all_paths_old_internal all_paths_new_internal true ;;;
      move_cache_entry partial_old_internal partial_new_internal ;;;
      rename_branch partial_old_internal partial_new_internal false ;;;
      rename_files files' partial_old partial_new partial
        all_paths_old all_paths_new all_paths
  end.

(** The loop [for root, dirs, files in os.walk(...)].  [all_paths_new] is
    rebound in the branch without files and keeps its new value for the
    following turns. *)
Fixpoint rename_walk (walk : list (string * list string * list string))
    (full_new partial_old partial_new : string)
    (all_paths_old all_paths_new : list string) : M world unit :=
  match walk with
  | [] => ret tt
  | (root, dirs, files) :: walk' =>
      let root := str_replace_empty full_new root in
      let '(partial, all_paths) := split_path_all root in
      match files with
      | _ :: _ =>
          rename_files files partial_old partial_new partial
            all_paths_old all_paths_new all_paths ;;;
          rename_walk walk' full_new partial_old partial_new
            all_paths_old all_paths_new
      | [] =>
          let all_paths_old_internal := (all_paths_old ++ all_paths)%list in
          let all_paths_new := all_paths in
          node <~ tree_get all_paths_old_internal ;;
          (if negb (is_None node)
           then move_tree_entry all_paths_old_internal all_paths_new false
           else ret tt) ;;;
          rename_walk walk' full_new partial_old partial_new
            all_paths_old all_paths_new
      end
  end.

(** [rename(old_path, new_path)] *)
Definition rename (old_path new_path : string) : M world unit :=
  let '(partial_old, all_paths_old) := split_path_all old_path in
  let '(partial_new, all_paths_new) := split_path_all new_path in
  old_is_file <~ _isfile all_paths_old ;;
  destination_file_exists <~
    (if old_is_file : bool then
       node <~ tree_get all_paths_old ;;
       if negb (is_None node) then
         new_is_file <~ _isfile all_paths_new ;;
         ret (if new_is_file : bool then true else false)
       else ret false
     else ret false) ;;
  full_old <~ _full_path old_path ;;
  full_new <~ _full_path new_path ;;
  sys (os_rename full_old full_new) ;;;
  old_is_file <~ _isfile all_paths_old ;;
  if old_is_file : bool then
    move_tree_entry all_paths_old all_paths_new false ;;;
    move_cache_entry partial_old partial_new ;;;
    rename_branch partial_old partial_new destination_file_exists ;;;
    ret tt
  else
    walk <~ sys (os_walk full_new) ;;
    rename_walk walk full_new partial_old partial_new
      all_paths_old all_paths_new.

End Program.

Arguments world D : clear implicits.

(** ** The remaining operations of [Passthrough], and the start-up

    The calls these make to the outside that the operations above do not
    make. *)

Class OSMore (D : Type) : Type := {
  os_unlink : string -> M D unit;
  os_rmdir : string -> M D unit;
  (** [os.mkdir(full_path, mode)] *)
  os_mkdir_mode : string -> Z -> M D unit;
  os_fsync : Z -> M D unit;
  (** [with open(full_path, 'r+') as f: f.truncate(length)] *)
  truncate_file : string -> Z -> M D unit }.

Section MoreOperations.
Context {D : Type} `{OS D} `{OSMore D}.

Definition with_remote_file_size (n : Z) (w : world D) : world D :=
  {| evilgitfs_dir := evilgitfs_dir w; dir_structure := dir_structure w;
     lru_file_cache := lru_file_cache w;
     retrieve_queue := retrieve_queue w;
     remote_file_size := n; actions := actions w;
     submitted := submitted w; shell_log := shell_log w;
     outside := outside w |}.

(** [rmdir(path)] *)
Definition rmdir (path : string) : M (world D) unit :=
  full_path <~ _full_path path ;;
  let '(partial, all_paths) := split_path_all path in
  on_tree (deleteFromDict all_paths false) ;;;
  sys (os_rmdir full_path).

(** [mkdir(path, mode)] *)
Definition mkdir (path : string) (mode : Z) : M (world D) unit :=
  full_path <~ _full_path path ;;
  there <~ sys (os_path_exists full_path) ;;
  (if there : bool then ret tt else sys (os_mkdir_mode full_path mode)) ;;;
  let '(partial, all_paths) := split_path_all path in
  on_tree (tree_step (fun t => nested_set t all_paths (VDict ∅))) ;;;
  ret tt.

(** [unlink(path)] *)
Definition unlink (path : string) : M (world D) unit :=
  let '(partial, all_paths) := split_path_all path in
  cached <~ cache_get partial ;;
  match cached with
  | Some _ =>
      on_cache (on_lru (LRU_delitem partial)) ;;;
      on_tree (deleteFromDict all_paths false) ;;;
      remove_from_remote path false ;;;
      full_path <~ _full_path path ;;
      sys (os_unlink full_path)
  | None =>
      node <~ tree_get all_paths ;;
      if negb (is_None node) then
        on_tree (deleteFromDict all_paths false) ;;;
        remove_from_remote path false ;;;
        ret tt
      else
        full_path <~ _full_path path ;;
        sys (os_unlink full_path)
  end.

(** [truncate(path, length)] *)
Definition truncate (path : string) (length : Z) : M (world D) unit :=
  full_path <~ _full_path path ;;
  sys (truncate_file full_path length).

(** [flush(path, fh)] *)
Definition flush (path : string) (fh : Z) : M (world D) unit :=
  sys (os_fsync fh).

(** [fsync(path, fdatasync, fh)] *)
Definition fsync (path : string) (fdatasync fh : Z) : M (world D) unit :=
  flush path fh.

(** *** The part of [main] that fills [dir_structure] and the LRU *)

(** The loop [for filepath, branchname, filesize in f] over the rows of
    [filelist.txt].  [main] declares [remote_file_size] global, so here
    the [+=] works. *)
Fixpoint main_load_filelist (rows : list (list string)) : M (world D) unit :=
  match rows with
  | [] => ret tt
  | row :: rows' =>
      match row with
      | [filepath; branchname; filesize] =>
          let '(partial, all_paths) := split_path_all filepath in
          size <~ lift (py_int filesize) ;;
          on_tree (tree_step (fun t => nested_set t all_paths (VInt size))) ;;;
          size <~ lift (py_int filesize) ;;
          (fun w => (Ok tt,
                     with_remote_file_size (remote_file_size w + size) w)) ;;;
          main_load_filelist rows'
      | _ => raise ValueError
      end
  end.

(** [try: body except KeyError: continue] *)
Definition except_KeyError {S} (body : M S unit) : M S unit :=
  fun s => match body s with
           | (Raise KeyError, s') => (Ok tt, s')
           | other => other
           end.

(** The loop [for file in files] that seeds the LRU.  [int(filesize)] of
    a dict is a [TypeError]. *)
Fixpoint main_seed_files (files : list string) (partial : string)
    (all_paths : list string) : M (world D) unit :=
  match files with
  | [] => ret tt
  | file :: files' =>
      except_KeyError
        (filesize <~ tree_get (all_paths ++ [file])%list ;;
         match filesize with
         | VNone => ret tt
         | VInt n => on_cache (LRU_setitem (os_path_join partial file) n)
         | VDict _ => raise TypeError
         end) ;;;
      main_seed_files files' partial all_paths
  end.

(** The loop [for root, dirs, files in os.walk(data_dir)]. *)
Fixpoint main_seed_walk (walk : list (string * list string * list string))
    (data_dir : string) : M (world D) unit :=
  match walk with
  | [] => ret tt
  | (root, dirs, files) :: walk' =>
      match files with
      | _ :: _ =>
          let root := str_replace_empty data_dir root in
          let '(partial, all_paths) := split_path_all root in
          main_seed_files files partial all_paths
      | [] => ret tt
      end ;;;
      main_seed_walk walk' data_dir
  end.

(** [main], from the reading of [filelist.txt] to the seeding of the LRU
    (what comes before is the clone or pull of [pure], what comes after
    is the mount). *)
Definition main_populate : M (world D) unit :=
  rows <~ sys csv_read ;;
  main_load_filelist rows ;;;
  walk <~ (fun w => sys (os_walk (self_data_dir w)) w) ;;
  (fun w => main_seed_walk walk (self_data_dir w) w).

End MoreOperations.

(** ** A small outside to run the program on

    Files are byte lists under their full path, descriptors remember a
    path and an offset, [git pull origin master] prints [pull_stdout], and
    [filelist.txt] is the list of its rows.  It is one possible outside,
    used by the examples; the theorems do not depend on it. *)

Module Disk.

Record t : Type := {
  files : gmap string (list Z);
  dirs : gset string;
  fds : gmap Z (string * Z);
  next_fd : Z;
  pull_stdout : string;
  filelist : list (list string) }.

Definition empty : t :=
  {| files := ∅; dirs := ∅; fds := ∅; next_fd := 3;
     pull_stdout := ""; filelist := [] |}.

Definition with_files (f : gmap string (list Z)) (d : t) : t :=
  {| files := f; dirs := dirs d; fds := fds d; next_fd := next_fd d;
     pull_stdout := pull_stdout d; filelist := filelist d |}.
Definition with_dirs (s : gset string) (d : t) : t :=
  {| files := files d; dirs := s; fds := fds d; next_fd := next_fd d;
     pull_stdout := pull_stdout d; filelist := filelist d |}.
Definition with_fds (f : gmap Z (string * Z)) (n : Z) (d : t) : t :=
  {| files := files d; dirs := dirs d; fds := f; next_fd := n;
     pull_stdout := pull_stdout d; filelist := filelist d |}.
Definition with_filelist (l : list (list string)) (d : t) : t :=
  {| files := files d; dirs := dirs d; fds := fds d; next_fd := next_fd d;
     pull_stdout := pull_stdout d; filelist := l |}.
Definition with_pull_stdout (s : string) (d : t) : t :=
  {| files := files d; dirs := dirs d; fds := fds d; next_fd := next_fd d;
     pull_stdout := s; filelist := filelist d |}.

Definition file_stat (content : list Z) : stat_result :=
  {| st_atime := 0; st_ctime := 0; st_gid := 1000; st_mode := 33204;
     st_mtime := 0; st_nlink := 1; st_size := Z.of_nat (length content);
     st_uid := 1000 |}.

Definition remove (p : string) : M t unit :=
  fun d => match files d !! p with
           | Some _ => (Ok tt, with_files (delete p (files d)) d)
           | None => (Raise (OSError ENOENT), d)
           end.

Definition rename (a b : string) : M t unit :=
  fun d => match files d !! a with
           | Some c => (Ok tt, with_files (<[b := c]> (delete a (files d))) d)
           | None =>
               if bool_decide (a ∈ dirs d)
               then (Ok tt, with_dirs (dirs d ∖ {[ a ]} ∪ {[ b ]}) d)
               else (Raise (OSError ENOENT), d)
           end.

Definition open (p : string) (flags : Z) (mode : option Z) : M t Z :=
  fun d =>
    let fd := next_fd d in
    match files d !! p with
    | Some _ => (Ok fd, with_fds (<[fd := (p, 0)]> (fds d)) (fd + 1) d)
    | None =>
        if Z.testbit flags 6
        then (Ok fd, with_fds (<[fd := (p, 0)]> (fds d)) (fd + 1)
                       (with_files (<[p := []]> (files d)) d))
        else (Raise (OSError ENOENT), d)
    end.

Definition close (fd : Z) : M t unit :=
  fun d => match fds d !! fd with
           | Some _ => (Ok tt, with_fds (delete fd (fds d)) (next_fd d) d)
           | None => (Raise (OSError 9), d)
           end.

Definition lseek (fd off : Z) : M t unit :=
  fun d => match fds d !! fd with
           | Some (p, _) =>
               (Ok tt, with_fds (<[fd := (p, off)]> (fds d)) (next_fd d) d)
           | None => (Raise (OSError 9), d)
           end.

Definition read (fd len : Z) : M t (list Z) :=
  fun d => match fds d !! fd with
           | Some (p, off) =>
               let c := default [] (files d !! p) in
               let bs := take (Z.to_nat len) (drop (Z.to_nat off) c) in
               (Ok bs,
                with_fds (<[fd := (p, off + Z.of_nat (length bs))]> (fds d))
                  (next_fd d) d)
           | None => (Raise (OSError 9), d)
           end.

Definition write (fd : Z) (buf : list Z) : M t Z :=
  fun d => match fds d !! fd with
           | Some (p, off) =>
               let c := default [] (files d !! p) in
               let n := Z.to_nat off in
               let c' := (take n c ++ repeat 0 (n - length c) ++ buf
                          ++ drop (n + length buf) c)%list in
               (Ok (Z.of_nat (length buf)),
                with_fds (<[fd := (p, off + Z.of_nat (length buf))]> (fds d))
                  (next_fd d) (with_files (<[p := c']> (files d)) d))
           | None => (Raise (OSError 9), d)
           end.

Definition lstat (p : string) : M t stat_result :=
  fun d => match files d !! p with
           | Some c => (Ok (file_stat c), d)
           | None => (Raise (OSError ENOENT), d)
           end.

Definition path_exists (p : string) : M t bool :=
  fun d => (Ok (bool_decide (is_Some (files d !! p))
                || bool_decide (p ∈ dirs d)), d).

Definition mkdir (p : string) : M t unit :=
  fun d => (Ok tt, with_dirs (dirs d ∪ {[ p ]}) d).

Definition walk (top : string)
  : M t (list (string * list string * list string)) :=
  fun d => (Ok [], d).

Definition touch_file (p : string) : M t unit :=
  fun d => match files d !! p with
           | Some _ => (Ok tt, d)
           | None => (Ok tt, with_files (<[p := []]> (files d)) d)
           end.

Definition copy (src dst : string) : M t unit :=
  fun d => match files d !! src with
           | Some c => (Ok tt, with_files (<[dst := c]> (files d)) d)
           | None => (Raise (OSError ENOENT), d)
           end.

Definition subprocess (cmd : shell) : M t string :=
  fun d => match cmd with
           | GitPullMaster => (Ok (pull_stdout d), d)
           | _ => (Ok "", d)
           end.

Definition writerow (a b c : string) : M t unit :=
  fun d => (Ok tt, with_filelist (filelist d ++ [[a; b; c]]) d).

Definition read_rows : M t (list (list string)) :=
  fun d => (Ok (filelist d), d).

Definition pre (evilgitfs_dir : string) : M t string :=
  fun d => (Ok (os_path_join evilgitfs_dir "dirty_fsworker_0"), d).

Definition post (evilgitfs_dir : string) : M t unit :=
  fun d => (Ok tt, d).

#[export] Instance disk_os : OS t := {
  os_remove := remove;
  os_rename := rename;
  os_open := open;
  os_close := close;
  os_lseek := lseek;
  os_read := read;
  os_write := write;
  os_lstat := lstat;
  os_stat := lstat;
  os_path_exists := path_exists;
  os_mkdir := mkdir;
  os_walk := walk;
  touch := touch_file;
  shutil_copy := copy;
  subprocess_run := subprocess;
  csv_writerow := writerow;
  csv_read := read_rows;
  pre_git_ops := pre;
  post_git_ops := post }.

(** The process right after start-up on an empty remote, with
    [--cache-size] [gb] and [--git-directory] [dir]. *)
Definition fresh (dir : string) (gb : Z) (d : t) : world t :=
  {| evilgitfs_dir := dir;
     dir_structure := VDict ∅;
     lru_file_cache := LRU_init (os_path_join dir "datadir") gb;
     retrieve_queue := ∅;
     remote_file_size := 0;
     actions := ∅;
     submitted := [];
     shell_log := [];
     outside := d |}.

End Disk.

#[global] Existing Instance Disk.disk_os.

Module DiskMore.

Definition rmdir (p : string) : M Disk.t unit :=
  fun d => if bool_decide (p ∈ Disk.dirs d)
           then (Ok tt, Disk.with_dirs (Disk.dirs d ∖ {[ p ]}) d)
           else (Raise (OSError ENOENT), d).

Definition mkdir_mode (p : string) (mode : Z) : M Disk.t unit :=
  Disk.mkdir p.

Definition fsync_fd (fd : Z) : M Disk.t unit :=
  fun d => match Disk.fds d !! fd with
           | Some _ => (Ok tt, d)
           | None => (Raise (OSError 9), d)
           end.

Definition truncate_to (p : string) (len : Z) : M Disk.t unit :=
  fun d => match Disk.files d !! p with
           | Some c =>
               let n := Z.to_nat len in
               (Ok tt,
                Disk.with_files
                  (<[p := (take n c ++ repeat 0 (n - length c))%list]>
                     (Disk.files d)) d)
           | None => (Raise (OSError ENOENT), d)
           end.

#[export] Instance disk_os_more : OSMore Disk.t := {
  os_unlink := Disk.remove;
  os_rmdir := rmdir;
  os_mkdir_mode := mkdir_mode;
  os_fsync := fsync_fd;
  truncate_file := truncate_to }.

End DiskMore.

#[global] Existing Instance DiskMore.disk_os_more.

(** ** States and inputs of the examples *)

(** The process right after start-up, on an empty remote and an empty
    cache. *)
Definition fresh_world : world Disk.t :=
  Disk.fresh "/home/u/.evilgitfs" 10 Disk.empty.

(** [create /a], write the two bytes ["hi"], [release]. *)
Definition create_write_release : M (world Disk.t) Z :=
  fh <~ create "/a" 33188 ;;
  write "/a" [104; 105] 0 fh ;;;
  release "/a" fh ;;;
  ret fh.

(** The tree [{a: 5}]. *)
Definition tree_a5 : value := VDict {[ "a" := VInt 5 ]}.

Definition world_a5 : world Disk.t :=
  with_dir_structure tree_a5 (Disk.fresh "/home/u/.evilgitfs" 10 Disk.empty).

(** The tree [{a: {b: 5}}]. *)
Definition tree_dir_with_b : value :=
  VDict {[ "a" := VDict {[ "b" := VInt 5 ]} ]}.

Definition world_dir_with_b : world Disk.t :=
  with_dir_structure tree_dir_with_b
    (Disk.fresh "/home/u/.evilgitfs" 10 Disk.empty).

(** The cache of a process started with [--cache-size 1]. *)
Definition cache_1gb : LRU := LRU_init "/home/u/.evilgitfs/datadir" 1.

(** A disk that holds the files [a], [b] and [c] of the cache. *)
Definition disk_abc : Disk.t :=
  Disk.with_files
    (<[ "/home/u/.evilgitfs/datadir/a" := [] ]>
       (<[ "/home/u/.evilgitfs/datadir/b" := [] ]>
          (<[ "/home/u/.evilgitfs/datadir/c" := [] ]> ∅)))
    Disk.empty.

(** [sum(lru.values())] *)
Definition sum_of_sizes (self : LRU) : Z :=
  fold_right Z.add 0 (OD.values (items self)).

(** A process whose tree is [{a: {b: 5, c: 7}}], with both files in the
    cache. *)
Definition world_b_and_c : world Disk.t :=
  {| evilgitfs_dir := "/home/u/.evilgitfs";
     dir_structure :=
       VDict {[ "a" := VDict (<[ "b" := VInt 5 ]> {[ "c" := VInt 7 ]}) ]};
     lru_file_cache :=
       {| maxsize := 10 * 10 ^ 9; filesize_counter := 12;
          data_dir := "/home/u/.evilgitfs/datadir";
          items := [("a/b", 5); ("a/c", 7)] |};
     retrieve_queue := ∅;
     remote_file_size := 12;
     actions := ∅;
     submitted := [];
     shell_log := [];
     outside :=
       Disk.with_files
         (<[ "/home/u/.evilgitfs/datadir/a/b" := [1; 2; 3; 4; 5] ]>
            {[ "/home/u/.evilgitfs/datadir/a/c" := [1; 2; 3; 4; 5; 6; 7] ]})
         Disk.empty |}.

(** A process whose manifest has the record of [a] and whose next pull
    of the default branch reports a conflict in the manifest. *)
Definition world_conflict : world Disk.t :=
  Disk.fresh "/home/u/.evilgitfs" 10
    (Disk.with_filelist [["a"; path_hash_of "a"; "5"]]
       (Disk.with_pull_stdout
          "CONFLICT (content): Merge conflict in filelist.txt"
          Disk.empty)).

(** The commands of [git_rename_branch] when every call succeeds. *)
Definition rename_commands (path_old path_new : string)
    (destination_file_exists : bool) : list shell :=
  (if destination_file_exists
   then [GitPushDelete (path_hash_of (strip_slash path_old));
         SedDelete (path_hash_of (strip_slash path_old))]
   else []) ++
  [GitFetch (path_hash_of path_old);
   GitPushRename (path_hash_of path_old) (path_hash_of path_new);
   SedCut (path_hash_of path_old)].

(** The tree can take a leaf at [keys]: there is a last key, and no key
    before it names a file or a [None].  The kernel adapter calls [create]
    only for a name inside a directory, so the paths it passes are of this
    kind. *)
Fixpoint accepts_leaf (dic : value) (keys : list string) : bool :=
  match keys with
  | [] => false
  | k :: rest =>
      match dic with
      | VDict d =>
          match rest with
          | [] => true
          | _ :: _ =>
              match d !! k with
              | Some sub => accepts_leaf sub rest
              | None => true
              end
          end
      | _ => false
      end
  end.

(** * Properties *)

(** ** The directory listing *)

Section Readdir.
Context {D : Type} `{OS D}.

Lemma readdir_absent (w : world D) (path : string) :
  getFromDict (dir_structure w) (snd (split_path_all path)) = Ok VNone ->
  readdir path w = (Raise (FuseOSError ENOENT), w).
Proof.
  intros Hget. unfold readdir.
  destruct (split_path_all path) as [partial all_paths]; simpl in Hget.
  unfold bind, tree_get. rewrite Hget. reflexivity.
Qed.

Lemma readdir_file (w : world D) (path : string) (size : Z) :
  getFromDict (dir_structure w) (snd (split_path_all path)) = Ok (VInt size) ->
  readdir path w = (Ok {[ "."; ".." ]}, w).
Proof.
  intros Hget. unfold readdir.
  destruct (split_path_all path) as [partial all_paths]; simpl in Hget.
  unfold bind, tree_get. rewrite Hget. cbn [is_None]. rewrite Hget.
  reflexivity.
Qed.

Lemma readdir_directory (w : world D) (path : string)
    (d : gmap string value) :
  getFromDict (dir_structure w) (snd (split_path_all path)) = Ok (VDict d) ->
  readdir path w = (Ok ({[ "."; ".." ]} ∪ dom d), w).
Proof.
  intros Hget. unfold readdir.
  destruct (split_path_all path) as [partial all_paths]; simpl in Hget.
  unfold bind, tree_get. rewrite Hget. cbn [is_None]. rewrite Hget.
  unfold ret. do 2 f_equal.
  by rewrite <- (assoc_L (∪)), (idemp_L (∪) (dom d)).
Qed.

End Readdir.

(** C7, as the claim states it, fails: [readdir] of a path whose node is a
    file does not fail with not-found, it yields ['.'] and ['..']. *)
Lemma readdir_of_a_file_does_not_fail :
  getFromDict (dir_structure world_a5) (snd (split_path_all "/a"))
    = Ok (VInt 5)
  /\ fst (readdir "/a" world_a5) <> Raise (FuseOSError ENOENT)
  /\ fst (readdir "/a" world_a5) = Ok {[ "."; ".." ]}.
Proof.
  split; [reflexivity|].
  rewrite (readdir_file world_a5 "/a" 5) by reflexivity.
  split; [discriminate | reflexivity].
Qed.

(** C7 (amended): when the tree lookup of the path is [None], [readdir]
    raises [FuseOSError(ENOENT)]; when the node is a file (an int leaf),
    [readdir] does not fail and yields exactly ['.'] and ['..']; when the
    node is a directory (a dict), it yields ['.'], ['..'] and every key of
    that dict, and nothing else.  The process state is unchanged in all
    three cases. *)
Theorem readdir_by_node_kind :
  forall (D : Type) (HOS : OS D) (w : world D) (path : string),
    let node := getFromDict (dir_structure w) (snd (split_path_all path)) in
    (node = Ok VNone ->
     readdir path w = (Raise (FuseOSError ENOENT), w)) /\
    (forall size, node = Ok (VInt size) ->
     readdir path w = (Ok {[ "."; ".." ]}, w)) /\
    (forall d, node = Ok (VDict d) ->
     readdir path w = (Ok ({[ "."; ".." ]} ∪ dom d), w)).
Proof.
  intros D HOS w path node. subst node. split; [|split].
  - apply readdir_absent.
  - intros size. apply readdir_file.
  - intros d. apply readdir_directory.
Qed.

Lemma readdir_by_node_kind_witness :
  readdir "/zz" world_a5 = (Raise (FuseOSError ENOENT), world_a5) /\
  readdir "/a" world_a5 = (Ok {[ "."; ".." ]}, world_a5) /\
  readdir "/a" world_dir_with_b
    = (Ok ({[ "."; ".." ]} ∪ dom ({[ "b" := VInt 5 ]} : gmap string value)),
       world_dir_with_b).
Proof.
  split; [|split].
  - apply (proj1 (readdir_by_node_kind _ _ world_a5 "/zz")). reflexivity.
  - apply (proj1 (proj2 (readdir_by_node_kind _ _ world_a5 "/a")) 5).
    reflexivity.
  - apply (proj2 (proj2 (readdir_by_node_kind _ _ world_dir_with_b "/a"))).
    reflexivity.
Defined.

(** ** [getattr] of an entry that is not on the local disk *)

(** C10: for a path that is in the directory tree but is neither in the
    LRU nor present at its cache path, [getattr] returns the synthetic
    record, whose [st_uid] and [st_gid] are both the constant 1001,
    whatever the outside (the invoking user, the owners of real files)
    is. *)
Theorem getattr_synthetic_owner_is_1001 :
  forall (D : Type) (HOS : OS D) (w : world D) (path : string) (node : value),
    LRU_get (fst (split_path_all path)) (lru_file_cache w) = None ->
    getFromDict (dir_structure w) (snd (split_path_all path)) = Ok node ->
    node <> VNone ->
    fst (os_path_exists
           (os_path_join (self_data_dir w) (strip_slash path)) (outside w))
      = Ok false ->
    exists st,
      fst (getattr path w) = Ok st /\ st_uid st = 1001 /\ st_gid st = 1001.
Proof.
  intros D HOS w path node Hlru Hget Hnode Hexists.
  unfold getattr, bind, _full_path, cache_get, tree_get, sys.
  destruct (split_path_all path) as [partial all_paths]; simpl in *.
  rewrite Hlru, Hget.
  destruct (os_path_exists _ (outside w)) as [r d'] eqn:Hex.
  simpl in Hexists; subst r.
  destruct node as [|n|d]; [congruence| |];
    cbn [is_None negb]; rewrite Hex;
    cbn [dir_structure with_outside]; rewrite Hget;
    eexists; repeat split; reflexivity.
Qed.

Lemma getattr_synthetic_owner_is_1001_witness :
  exists st,
    fst (getattr "/a/b" world_dir_with_b) = Ok st /\
    st_uid st = 1001 /\ st_gid st = 1001.
Proof.
  apply (getattr_synthetic_owner_is_1001 _ _ world_dir_with_b "/a/b" (VInt 5)).
  - reflexivity.
  - reflexivity.
  - discriminate.
  - reflexivity.
Defined.

(** ** The loops end before their fuel does *)

Lemma cut_at_last_sep_length (p h t : string) :
  cut_at_last_sep p = Some (h, t) ->
  (String.length h + String.length t = String.length p)%nat.
Proof.
  revert h t. induction p as [|c r IH]; intros h t; simpl; [discriminate|].
  destruct (cut_at_last_sep r) as [[h' t']|].
  - intros [= <- <-]. simpl. rewrite (IH h' t' eq_refl). reflexivity.
  - destruct (Ascii.eqb c slash); [|discriminate].
    intros [= <- <-]. reflexivity.
Qed.

Lemma rstrip_sep_length (s : string) :
  (String.length (rstrip_sep s) <= String.length s)%nat.
Proof.
  induction s as [|c r IH]; simpl; [lia|].
  destruct (rstrip_sep r); simpl in *; [|lia].
  destruct (Ascii.eqb c slash); simpl; lia.
Qed.

Lemma os_path_split_shrinks (p h t : string) :
  os_path_split p = (h, t) -> t <> EmptyString ->
  (String.length h < String.length p)%nat.
Proof.
  unfold os_path_split. intros Hsplit Ht.
  destruct (cut_at_last_sep p) as [[h' t']|] eqn:Hcut.
  - pose proof (cut_at_last_sep_length _ _ _ Hcut) as Hlen.
    pose proof (rstrip_sep_length h') as Hstrip.
    assert (String.length t' <> 0)%nat as Hpos.
    { destruct (all_sep h'); injection Hsplit as <- <-;
        destruct t'; simpl; congruence. }
    destruct (all_sep h'); injection Hsplit as <- <-; lia.
  - injection Hsplit as <- <-. destruct p; simpl; [congruence | lia].
Qed.

(** [split_path_all] gives its loop more turns than the loop can take:
    with any larger bound the result is the same. *)
Lemma split_loop_fuel (n m : nat) (path : string) (folders : list string) :
  (String.length path < n)%nat -> (String.length path < m)%nat ->
  split_loop n path folders = split_loop m path folders.
Proof.
  revert m path folders.
  induction n as [|n IH]; intros m path folders Hn Hm; [lia|].
  destruct m as [|m]; [lia|]. simpl.
  destruct (os_path_split path) as [h t] eqn:Hsplit.
  destruct t as [|c t']; [reflexivity|].
  assert (String.length h < String.length path)%nat as Hlt
    by (eapply os_path_split_shrinks; [exact Hsplit | discriminate]).
  apply IH; lia.
Qed.

(** ** The [OrderedDict] *)

Open Scope list_scope.

Module ODFacts.

Lemma lookup_None (key : string) (od : OD.t) :
  OD.lookup key od = None <-> key ∉ OD.keys od.
Proof.
  induction od as [|[k v] rest IH]; simpl.
  - split; [intros _; apply not_elem_of_nil | reflexivity].
  - rewrite not_elem_of_cons. destruct (String.eqb k key) eqn:E.
    + apply String.eqb_eq in E. split; [discriminate | intros [Hne _]; congruence].
    + apply String.eqb_neq in E. rewrite IH. split; [intros; split; congruence | tauto].
Qed.

Lemma lookup_Some_elem (key : string) (v : Z) (od : OD.t) :
  OD.lookup key od = Some v -> key ∈ OD.keys od.
Proof.
  intros Hl. destruct (decide (key ∈ OD.keys od)) as [|Hn]; [assumption|].
  apply lookup_None in Hn. congruence.
Qed.

Lemma remove_notin (key : string) (od : OD.t) :
  key ∉ OD.keys od -> OD.remove key od = od.
Proof.
  induction od as [|[k v] rest IH]; simpl; [reflexivity|].
  rewrite not_elem_of_cons. intros [Hne Hrest].
  destruct (String.eqb k key) eqn:E.
  - apply String.eqb_eq in E. congruence.
  - rewrite IH by assumption. reflexivity.
Qed.

Lemma keys_remove_subset (key x : string) (od : OD.t) :
  x ∈ OD.keys (OD.remove key od) -> x ∈ OD.keys od.
Proof.
  induction od as [|[k v] rest IH]; simpl; [trivial|].
  destruct (String.eqb k key); simpl.
  - intros Hx. apply elem_of_cons. right. exact Hx.
  - rewrite !elem_of_cons. intros [->|Hx]; [left; reflexivity | right; auto].
Qed.

Lemma NoDup_remove (key : string) (od : OD.t) :
  NoDup (OD.keys od) -> NoDup (OD.keys (OD.remove key od)).
Proof.
  induction od as [|[k v] rest IH]; simpl; [trivial|].
  rewrite NoDup_cons. intros [Hk Hrest].
  destruct (String.eqb k key); simpl; [assumption|].
  apply NoDup_cons. split; [|auto].
  intros Hin. apply Hk. eapply keys_remove_subset. exact Hin.
Qed.

Lemma remove_key_gone (key : string) (od : OD.t) :
  NoDup (OD.keys od) -> key ∉ OD.keys (OD.remove key od).
Proof.
  induction od as [|[k v] rest IH]; simpl; [intros _; apply not_elem_of_nil|].
  rewrite NoDup_cons. intros [Hk Hrest].
  destruct (String.eqb k key) eqn:E; simpl.
  - apply String.eqb_eq in E. subst k. exact Hk.
  - apply String.eqb_neq in E. rewrite not_elem_of_cons. split; [congruence | auto].
Qed.

Lemma length_remove (key : string) (v : Z) (od : OD.t) :
  OD.lookup key od = Some v ->
  S (length (OD.remove key od)) = length od.
Proof.
  induction od as [|[k v'] rest IH]; simpl; [discriminate|].
  destruct (String.eqb k key); [reflexivity|].
  intros Hl. simpl. rewrite IH by assumption. reflexivity.
Qed.

Lemma lookup_app_last (key : string) (v : Z) (od : OD.t) :
  key ∉ OD.keys od -> OD.lookup key (od ++ [(key, v)]) = Some v.
Proof.
  induction od as [|[k v'] rest IH]; simpl.
  - rewrite String.eqb_refl. reflexivity.
  - rewrite not_elem_of_cons. intros [Hne Hrest].
    destruct (String.eqb k key) eqn:E.
    + apply String.eqb_eq in E. congruence.
    + auto.
Qed.

Lemma lookup_app_is_Some (key : string) (v : Z) (od : OD.t) :
  is_Some (OD.lookup key (od ++ [(key, v)])).
Proof.
  induction od as [|[k v'] rest IH]; simpl.
  - rewrite String.eqb_refl. eauto.
  - destruct (String.eqb k key); eauto.
Qed.

Lemma set_notin (key : string) (v : Z) (od : OD.t) :
  key ∉ OD.keys od -> OD.set key v od = od ++ [(key, v)].
Proof.
  induction od as [|[k v'] rest IH]; simpl; [reflexivity|].
  rewrite not_elem_of_cons. intros [Hne Hrest].
  destruct (String.eqb k key) eqn:E.
  - apply String.eqb_eq in E. congruence.
  - rewrite IH by assumption. reflexivity.
Qed.

Lemma set_app_last (key : string) (v0 v : Z) (od : OD.t) :
  key ∉ OD.keys od ->
  OD.set key v (od ++ [(key, v0)]) = od ++ [(key, v)].
Proof.
  induction od as [|[k v'] rest IH]; simpl.
  - rewrite String.eqb_refl. reflexivity.
  - rewrite not_elem_of_cons. intros [Hne Hrest].
    destruct (String.eqb k key) eqn:E.
    + apply String.eqb_eq in E. congruence.
    + rewrite IH by assumption. reflexivity.
Qed.

Lemma remove_app_last (key : string) (v : Z) (od : OD.t) :
  key ∉ OD.keys od -> OD.remove key (od ++ [(key, v)]) = od.
Proof.
  induction od as [|[k v'] rest IH]; simpl.
  - rewrite String.eqb_refl. reflexivity.
  - rewrite not_elem_of_cons. intros [Hne Hrest].
    destruct (String.eqb k key) eqn:E.
    + apply String.eqb_eq in E. congruence.
    + rewrite IH by assumption. reflexivity.
Qed.

Lemma keys_app (a b : OD.t) : OD.keys (a ++ b) = OD.keys a ++ OD.keys b.
Proof. unfold OD.keys. apply map_app. Qed.

Lemma NoDup_snoc (key : string) (v : Z) (od : OD.t) :
  NoDup (OD.keys od) -> key ∉ OD.keys od ->
  NoDup (OD.keys (od ++ [(key, v)])).
Proof.
  intros Hnd Hk. rewrite keys_app. apply NoDup_app. split; [assumption|].
  split; [|apply NoDup_singleton].
  intros x Hx Hx'. apply list_elem_of_singleton in Hx'. subst x. auto.
Qed.

End ODFacts.

(** ** The LRU *)

Section LRUFacts.
Context {D : Type} `{OS D}.

Lemma getitem_head (m c : Z) (dd o : string) (vo : Z) (rest : OD.t) :
  LRU_getitem o {| maxsize := m; filesize_counter := c; data_dir := dd;
                   items := (o, vo) :: rest |}
  = (Ok vo, {| maxsize := m; filesize_counter := c; data_dir := dd;
               items := rest ++ [(o, vo)] |}).
Proof.
  unfold LRU_getitem, OD.move_to_end. simpl.
  rewrite String.eqb_refl. reflexivity.
Qed.

Lemma getitem_last (m c : Z) (dd o : string) (vo : Z) (rest : OD.t) :
  o ∉ OD.keys rest ->
  LRU_getitem o {| maxsize := m; filesize_counter := c; data_dir := dd;
                   items := rest ++ [(o, vo)] |}
  = (Ok vo, {| maxsize := m; filesize_counter := c; data_dir := dd;
               items := rest ++ [(o, vo)] |}).
Proof.
  intros Ho. unfold LRU_getitem, OD.move_to_end. simpl.
  rewrite (ODFacts.lookup_app_last o vo rest Ho).
  rewrite (ODFacts.remove_app_last o vo rest Ho). reflexivity.
Qed.

Lemma delitem_last (m c : Z) (dd o : string) (vo : Z) (rest : OD.t) :
  o ∉ OD.keys rest ->
  LRU_delitem o {| maxsize := m; filesize_counter := c; data_dir := dd;
                   items := rest ++ [(o, vo)] |}
  = (Ok tt, {| maxsize := m; filesize_counter := c - vo; data_dir := dd;
               items := rest |}).
Proof.
  intros Ho. unfold LRU_delitem, bind.
  rewrite (getitem_last m c dd o vo rest Ho).
  unfold set_items, set_counter. simpl.
  rewrite (ODFacts.remove_app_last o vo rest Ho). reflexivity.
Qed.

(** What one turn of the eviction loop does to a well-formed LRU whose
    oldest key is [o]: the entry is dropped, and its size is subtracted
    from the counter twice, once by the loop and once by [__delitem__]. *)
Lemma evict_oldest_head (m c : Z) (dd o : string) (vo : Z) (rest : OD.t)
    (d : D) :
  o ∉ OD.keys rest ->
  evict_oldest o ({| maxsize := m; filesize_counter := c; data_dir := dd;
                     items := (o, vo) :: rest |}, d) =
    match os_remove (os_path_join dd o) d with
    | (r, d') =>
        (r, ({| maxsize := m; filesize_counter := c - vo - vo;
                data_dir := dd; items := rest |}, d'))
    end.
Proof.
  intros Ho. unfold evict_oldest, bind, on_lru, on_disk. cbn [fst snd].
  rewrite getitem_head. unfold set_counter. cbn [fst snd maxsize
    filesize_counter data_dir items].
  rewrite (delitem_last m (c - vo) dd o vo rest Ho). cbn [fst snd data_dir].
  destruct (os_remove _ d) as [[[]|e] d']; reflexivity.
Qed.

(** The eviction loop on a well-formed LRU never drops the newest entry
    and keeps the keys distinct, whether it returns or [os.remove]
    raises. *)
Lemma evict_loop_keeps_newest (fuel : nat) :
  forall (m c : Z) (dd : string) (od : OD.t) (k : string) (v : Z) (d : D),
    NoDup (OD.keys (od ++ [(k, v)])) ->
    exists (c' : Z) (od' : OD.t) (r : result unit) (d' : D),
      evict_loop fuel
        ({| maxsize := m; filesize_counter := c; data_dir := dd;
            items := od ++ [(k, v)] |}, d)
      = (r, ({| maxsize := m; filesize_counter := c'; data_dir := dd;
                items := od' ++ [(k, v)] |}, d'))
      /\ NoDup (OD.keys (od' ++ [(k, v)])).
Proof.
  induction fuel as [|fuel IH]; intros m c dd od k v d Hnd.
  - exists c, od, (Ok tt), d. split; [reflexivity | assumption].
  - cbn [evict_loop fst snd filesize_counter maxsize items].
    destruct (c >? m);
      [|exists c, od, (Ok tt), d; split; [reflexivity | assumption]].
    destruct (Nat.eqb_spec (length (od ++ [(k, v)])) 1) as [|Hlen];
      [exists c, od, (Ok tt), d; split; [reflexivity | assumption]|].
    destruct od as [|[o vo] rest]; [simpl in Hlen; congruence|].
    cbn [app] in *. simpl in Hnd. apply NoDup_cons in Hnd as [Ho Hrest].
    unfold bind.
    rewrite (evict_oldest_head m c dd o vo (rest ++ [(k, v)]) d Ho).
    destruct (os_remove _ d) as [[[]|e] d'].
    + apply IH. exact Hrest.
    + exists (c - vo - vo), rest, (Raise e), d'.
      split; [reflexivity | exact Hrest].
Qed.

(** More fuel than entries changes nothing. *)
Lemma evict_loop_fuel (n : nat) :
  forall (n' : nat) (self : LRU) (d : D),
    NoDup (OD.keys (items self)) ->
    (length (items self) < n)%nat -> (length (items self) < n')%nat ->
    evict_loop n (self, d) = evict_loop n' (self, d).
Proof.
  induction n as [|n IH]; intros n' [m c dd od] d Hnd Hn Hn'; [lia|].
  destruct n' as [|n']; [lia|].
  cbn [evict_loop fst snd filesize_counter maxsize items] in *.
  destruct (c >? m); [|reflexivity].
  destruct (length od =? 1)%nat; [reflexivity|].
  destruct od as [|[o vo] rest]; [reflexivity|].
  simpl in Hnd, Hn, Hn'. apply NoDup_cons in Hnd as [Ho Hrest].
  unfold bind. rewrite (evict_oldest_head m c dd o vo rest d Ho).
  destruct (os_remove _ d) as [[[]|e] d']; [|reflexivity].
  apply IH; simpl; [assumption | lia | lia].
Qed.

(** [__setitem__] on a well-formed LRU: the key goes to the end with its
    new value, the counter grows by the new value, and then the eviction
    loop runs.  The size stored before under the same key is not
    subtracted. *)
Lemma setitem_unfold (key : string) (value : Z) (self : LRU) (d : D) :
  NoDup (OD.keys (items self)) ->
  let od := OD.remove key (items self) ++ [(key, value)] in
  LRU_setitem key value (self, d) =
    evict_loop (S (length od))
      ({| maxsize := maxsize self;
          filesize_counter := filesize_counter self + value;
          data_dir := data_dir self; items := od |}, d).
Proof.
  intros Hnd od. subst od. destruct self as [m c dd it]. simpl in Hnd.
  unfold LRU_setitem, bind, on_lru, OD.contains, OD.move_to_end,
    set_items, set_counter.
  cbn [fst snd maxsize filesize_counter data_dir items].
  destruct (OD.lookup key it) as [v0|] eqn:Hl;
    cbn [fst snd maxsize filesize_counter data_dir items].
  - rewrite (ODFacts.set_app_last key v0 value (OD.remove key it))
      by (apply ODFacts.remove_key_gone; assumption).
    reflexivity.
  - apply ODFacts.lookup_None in Hl.
    rewrite (ODFacts.remove_notin key it Hl).
    rewrite (ODFacts.set_notin key value it Hl). reflexivity.
Qed.

Lemma setitem_keys_distinct (key : string) (value : Z) (od : OD.t) :
  NoDup (OD.keys od) ->
  NoDup (OD.keys (OD.remove key od ++ [(key, value)])).
Proof.
  intros Hnd. apply ODFacts.NoDup_snoc.
  - apply ODFacts.NoDup_remove. assumption.
  - apply ODFacts.remove_key_gone. assumption.
Qed.

(** [__getitem__] and [__delitem__] keep the keys distinct, so every LRU
    built from [LRU_init] has distinct keys. *)
Lemma getitem_keys_distinct (key : string) (self : LRU) :
  NoDup (OD.keys (items self)) ->
  NoDup (OD.keys (items (snd (LRU_getitem key self)))).
Proof.
  intros Hnd. unfold LRU_getitem, OD.move_to_end.
  destruct (OD.lookup key (items self)) as [v|]; cbn [snd items set_items];
    [|assumption].
  apply setitem_keys_distinct. assumption.
Qed.

Lemma delitem_keys_distinct (key : string) (self : LRU) :
  NoDup (OD.keys (items self)) ->
  NoDup (OD.keys (items (snd (LRU_delitem key self)))).
Proof.
  intros Hnd. unfold LRU_delitem, bind.
  pose proof (getitem_keys_distinct key self Hnd) as Hnd'.
  destruct (LRU_getitem key self) as [[v|e] self']; cbn [snd] in *;
    [|assumption].
  cbn [items set_items set_counter]. apply ODFacts.NoDup_remove. assumption.
Qed.

(** After [lru[key] = value] the key is in the LRU with that value, also
    when the eviction raised. *)
Lemma setitem_stores (key : string) (value : Z) (self : LRU) (d : D) :
  NoDup (OD.keys (items self)) ->
  let self' := fst (snd (LRU_setitem key value (self, d))) in
  LRU_get key self' = Some value /\ NoDup (OD.keys (items self')).
Proof.
  intros Hnd. cbv zeta. rewrite (setitem_unfold key value self d Hnd).
  pose proof (setitem_keys_distinct key value (items self) Hnd) as Hnd'.
  destruct (evict_loop_keeps_newest
              (S (length (OD.remove key (items self) ++ [(key, value)])))
              (maxsize self) (filesize_counter self + value) (data_dir self)
              (OD.remove key (items self)) key value d Hnd')
    as (c' & od' & r & d' & Heq & Hnd'').
  rewrite Heq. cbn [fst snd]. unfold LRU_get. cbn [items].
  split; [|assumption].
  apply ODFacts.lookup_app_last.
  rewrite ODFacts.keys_app in Hnd''. apply NoDup_app in Hnd'' as (_ & Hdis & _).
  intros Hin. apply (Hdis key Hin). simpl. apply list_elem_of_here.
Qed.

End LRUFacts.

(** *** Updating a key that is already there *)

Section LRUUpdate.
Context {D : Type} `{OS D}.

(** As long as the bound is not exceeded, [lru[key] = s_new] adds [s_new]
    to the counter and subtracts nothing, whether or not the key was
    there with a size [s_old]. *)
Lemma setitem_counter_adds (key : string) (s_new : Z) (self : LRU) (d : D) :
  NoDup (OD.keys (items self)) ->
  filesize_counter self + s_new <= maxsize self ->
  filesize_counter (fst (snd (LRU_setitem key s_new (self, d))))
    = filesize_counter self + s_new.
Proof.
  intros Hnd Hfit. rewrite (setitem_unfold key s_new self d Hnd).
  cbn [evict_loop fst snd filesize_counter maxsize].
  destruct (Z.gtb_spec (filesize_counter self + s_new) (maxsize self));
    [lia | reflexivity].
Qed.

End LRUUpdate.

(** C4 on the code: with [a] stored at size 5, [lru["a"] = 7] leaves the
    counter at 12, not at 5 - 5 + 7 = 7: the size stored before is not
    subtracted. *)
Theorem setitem_update_does_not_subtract_old_size :
  let s1 := snd (LRU_setitem "a" 5 (cache_1gb, disk_abc)) in
  let s2 := snd (LRU_setitem "a" 7 s1) in
  LRU_get "a" (fst s1) = Some 5 /\
  filesize_counter (fst s1) = 5 /\
  LRU_get "a" (fst s2) = Some 7 /\
  filesize_counter (fst s2) = 12 /\
  filesize_counter (fst s2) <> filesize_counter (fst s1) - 5 + 7.
Proof. vm_compute. repeat split; congruence. Qed.

(** C3 on the code: with a capacity of 1 GB, storing [a], [b] and [c] of
    600 MB each leaves [b] and [c] in the LRU, 1.2 GB in two entries.
    Evicting [a] took its size off the counter twice, so the counter says
    600 MB and nothing more is evicted. *)
Theorem lru_sum_exceeds_capacity_with_two_entries :
  let s := snd ((LRU_setitem "a" 600000000 ;;;
                 LRU_setitem "b" 600000000 ;;;
                 LRU_setitem "c" 600000000) (cache_1gb, disk_abc)) in
  items (fst s) = [("b", 600000000); ("c", 600000000)] /\
  length (items (fst s)) = 2%nat /\
  maxsize (fst s) = 1000000000 /\
  sum_of_sizes (fst s) = 1200000000 /\
  sum_of_sizes (fst s) > maxsize (fst s) /\
  filesize_counter (fst s) = 600000000.
Proof. vm_compute. repeat split; congruence. Qed.

(** C5 on the code: with a capacity of 1 GB, storing [a] and [b] of
    600 MB each evicts [a] and leaves the counter at 0 with [b] stored;
    removing [b] then takes the counter to -600000000. *)
Theorem lru_counter_goes_negative :
  let s := snd ((LRU_setitem "a" 600000000 ;;;
                 LRU_setitem "b" 600000000 ;;;
                 on_lru (LRU_delitem "b")) (cache_1gb, disk_abc)) in
  fst ((LRU_setitem "a" 600000000 ;;;
        LRU_setitem "b" 600000000 ;;;
        on_lru (LRU_delitem "b")) (cache_1gb, disk_abc)) = Ok tt /\
  items (fst s) = [] /\
  filesize_counter (fst s) = -600000000 /\
  filesize_counter (fst s) < 0.
Proof. vm_compute. repeat split; congruence. Qed.

(** ** [rename] *)

Section RenameFacts.
Context {D : Type} `{OS D}.

Lemma isfile_of_None (w : world D) (all_paths : list string) :
  getFromDict (dir_structure w) all_paths = Ok VNone ->
  _isfile all_paths w = (Raise ValueError, w).
Proof.
  intros Hget. unfold _isfile, bind, tree_get. rewrite Hget. cbn [is_dict].
  rewrite Hget. reflexivity.
Qed.

Lemma isfile_of_int (w : world D) (all_paths : list string) (size : Z) :
  getFromDict (dir_structure w) all_paths = Ok (VInt size) ->
  _isfile all_paths w = (Ok true, w).
Proof.
  intros Hget. unfold _isfile, bind, tree_get. rewrite Hget. cbn [is_dict].
  rewrite Hget. reflexivity.
Qed.

(** Renaming a file to a name that is not in the tree stops in
    [_isfile(all_paths_new)], before [os.rename] and before any update of
    the tree or the LRU. *)
Lemma rename_to_absent_destination (w : world D) (old_path new_path : string)
    (size : Z) :
  getFromDict (dir_structure w) (snd (split_path_all old_path))
    = Ok (VInt size) ->
  getFromDict (dir_structure w) (snd (split_path_all new_path)) = Ok VNone ->
  rename old_path new_path w = (Raise ValueError, w).
Proof.
  intros Hold Hnew. unfold rename.
  destruct (split_path_all old_path) as [partial_old all_paths_old].
  destruct (split_path_all new_path) as [partial_new all_paths_new].
  simpl in Hold, Hnew. unfold bind at 1.
  rewrite (isfile_of_int w all_paths_old size Hold).
  unfold bind at 1. unfold bind at 1. unfold tree_get at 1. rewrite Hold.
  cbn [is_None negb]. unfold bind at 1.
  rewrite (isfile_of_None w all_paths_new Hnew). reflexivity.
Qed.

End RenameFacts.

(** C1 on the code: after [create /a], a write of two bytes and
    [release], the tree and the LRU hold [a] with size 2 and [b] is in
    neither; [rename /a /b] then raises [ValueError] and moves nothing:
    the process state, the cache file included, is as before the call. *)
Theorem rename_to_fresh_destination_raises :
  let w := snd (create_write_release fresh_world) in
  fst (create_write_release fresh_world) = Ok 3 /\
  getFromDict (dir_structure w) ["a"] = Ok (VInt 2) /\
  LRU_get "a" (lru_file_cache w) = Some 2 /\
  getFromDict (dir_structure w) ["b"] = Ok VNone /\
  LRU_get "b" (lru_file_cache w) = None /\
  Disk.files (outside w) !! "/home/u/.evilgitfs/datadir/a" = Some [104; 105] /\
  rename "/a" "/b" w = (Raise ValueError, w).
Proof.
  cbv zeta.
  split; [vm_compute; reflexivity|].
  split; [vm_compute; reflexivity|].
  split; [vm_compute; reflexivity|].
  split; [vm_compute; reflexivity|].
  split; [vm_compute; reflexivity|].
  split; [vm_compute; reflexivity|].
  apply (rename_to_absent_destination _ "/a" "/b" 2); vm_compute; reflexivity.
Qed.

(** ** What the git functions run *)

Section GitFacts.
Context {D : Type} `{OS D}.

(** Splits on the outcome of the next call to the outside. *)
Ltac outside_call :=
  match goal with
  | |- context [let '(_, _) := ?c in _] =>
      lazymatch c with
      | context [let '(_, _) := _ in _] => fail
      | _ => destruct c as [[?|?] ?]
      end
  end.

Ltac run_through :=
  repeat (cbn [fst snd outside shell_log submitted evilgitfs_dir
                 dir_structure lru_file_cache actions
                 with_outside with_shell_log with_submitted];
          try outside_call).

(** The log grew by [l]. *)
Ltac grew_by :=
  first [ exists []; split; [symmetry; apply app_nil_r|]
        | eexists; split; [rewrite <- ?app_assoc; reflexivity|] ].

Ltac is_prefix := first [ apply prefix_nil | eexists; simpl; reflexivity ].

(** [git_remove_from_remote] runs the push that deletes the branch it is
    given and then the [sed] on the manifest, unless the outside raises
    on the way. *)
Lemma git_remove_from_remote_log (w : world D) (path_hash : string) :
  exists l,
    shell_log (snd (git_remove_from_remote path_hash w)) = shell_log w ++ l /\
    l `prefix_of` [GitPushDelete path_hash; SedDelete path_hash] /\
    submitted (snd (git_remove_from_remote path_hash w)) = submitted w.
Proof.
  unfold git_remove_from_remote, run, bind, sys, ret.
  run_through; grew_by; (split; [is_prefix | reflexivity]).
Qed.

(** [git_rename_branch], given [Passthrough.remove_from_remote] as the
    pool gives it, runs [rename_commands] in that order, up to the first
    call that raises.  With [destination_file_exists] the branch whose
    deletion comes first is the one of [path_old]. *)
Lemma git_rename_branch_log (w : world D) (path_old path_new : string)
    (destination_file_exists : bool) :
  exists l,
    shell_log
      (snd (git_rename_branch path_old path_new destination_file_exists
              remove_from_remote w))
    = shell_log w ++ l /\
    l `prefix_of` rename_commands path_old path_new destination_file_exists.
Proof.
  unfold git_rename_branch, remove_from_remote, git_remove_from_remote,
    rename_commands, submit, run, bind, sys, ret.
  destruct destination_file_exists;
    run_through; grew_by; is_prefix.
Qed.

(** When every call to the outside succeeds, all of [rename_commands]
    are run. *)
Lemma git_rename_branch_log_ok (w : world D) (path_old path_new : string)
    (destination_file_exists : bool) (r : bool) :
  fst (git_rename_branch path_old path_new destination_file_exists
         remove_from_remote w) = Ok r ->
  shell_log
    (snd (git_rename_branch path_old path_new destination_file_exists
            remove_from_remote w))
  = shell_log w ++ rename_commands path_old path_new destination_file_exists.
Proof.
  unfold git_rename_branch, remove_from_remote, git_remove_from_remote,
    rename_commands, submit, run, bind, sys, ret.
  destruct destination_file_exists;
    run_through; intros Hok; try discriminate Hok;
    rewrite <- ?app_assoc; reflexivity.
Qed.

(** [git_sync_filelist] when the pull reports a merge conflict: after the
    [sed] on the conflict markers the function reads [pure_dir], which is
    not bound, so it raises; the tree is not reloaded and neither the
    commit of the resolution nor the push is run. *)
Lemma git_sync_filelist_conflict (w : world D) (s1 stdout : string)
    (d1 d2 : D) :
  subprocess_run GitCommitFilelist (outside w) = (Ok s1, d1) ->
  subprocess_run GitPullMaster d1 = (Ok stdout, d2) ->
  str_contains "Merge conflict" stdout = true ->
  exists e,
    fst (git_sync_filelist w) = Raise e /\
    dir_structure (snd (git_sync_filelist w)) = dir_structure w /\
    shell_log (snd (git_sync_filelist w))
      = shell_log w ++ [GitCommitFilelist; GitPullMaster; SedConflictMarkers].
Proof.
  intros Hcommit Hpull Hconflict.
  unfold git_sync_filelist, run, bind, sys, ret, load_global, raise.
  cbn [fst snd outside shell_log with_outside with_shell_log].
  rewrite Hcommit. cbn [fst snd outside shell_log with_outside with_shell_log].
  rewrite Hpull. rewrite Hconflict.
  cbn [fst snd outside shell_log with_outside with_shell_log].
  destruct (subprocess_run SedConflictMarkers d2) as [[s3|e] d3];
    cbn [fst snd outside shell_log dir_structure with_outside with_shell_log
           existsb module_globals];
    eexists; (split; [reflexivity|]); (split; [reflexivity|]);
    rewrite <- ?app_assoc; reflexivity.
Qed.

End GitFacts.

(** C2 on the code: [rename /a/b /a/c] onto the existing file [/a/c]
    submits the rename task with [destination_file_exists]; the worker
    that runs it first deletes the branch of the source [a/b], not the
    branch of the destination [a/c], and then fetches and renames the
    branch it has just deleted. *)
Theorem rename_onto_existing_deletes_source_branch :
  let w := snd (rename "/a/b" "/a/c" world_b_and_c) in
  let job := T_git_rename_branch "a/b" "a/c" true in
  fst (rename "/a/b" "/a/c" world_b_and_c) = Ok tt /\
  submitted w = [job] /\
  shell_log (snd (run_task job w)) =
    [GitPushDelete (path_hash_of "a/b");
     SedDelete (path_hash_of "a/b");
     GitFetch (path_hash_of "a/b");
     GitPushRename (path_hash_of "a/b") (path_hash_of "a/c");
     SedCut (path_hash_of "a/b")] /\
  path_hash_of "a/b" <> path_hash_of "a/c".
Proof.
  cbv zeta.
  split; [vm_compute; reflexivity|].
  split; [vm_compute; reflexivity|].
  split; [vm_compute; reflexivity|].
  vm_compute. discriminate.
Qed.

(** C6 on the code: when the pull reports a merge conflict, the conflict
    markers are deleted and then [git_sync_filelist] raises [NameError]:
    the record of [a] is not loaded into the tree, and neither the commit
    of the resolution nor the push is run. *)
Theorem sync_filelist_conflict_raises_NameError :
  fst (git_sync_filelist world_conflict) = Raise NameError /\
  shell_log (snd (git_sync_filelist world_conflict))
    = [GitCommitFilelist; GitPullMaster; SedConflictMarkers] /\
  dir_structure (snd (git_sync_filelist world_conflict)) = VDict ∅ /\
  getFromDict (dir_structure (snd (git_sync_filelist world_conflict))) ["a"]
    = Ok VNone.
Proof.
  split; [vm_compute; reflexivity|].
  split; [vm_compute; reflexivity|].
  split; vm_compute; reflexivity.
Qed.

(** ** Branch names *)

Section BranchFacts.
Context {D : Type} `{OS D}.

Lemma make_dirs_submitted (dirs : list string) :
  forall (dir_traversal : string) (w : world D),
    submitted (snd (make_dirs dir_traversal dirs w)) = submitted w.
Proof.
  induction dirs as [|i dirs IH]; intros dir_traversal w; [reflexivity|].
  cbn [make_dirs]. unfold bind, sys, ret.
  destruct (os_path_exists _ (outside w)) as [[[]|e] d1]; cbn [fst snd];
    [rewrite IH; reflexivity | | reflexivity].
  cbn [outside with_outside].
  destruct (os_mkdir _ d1) as [[[]|e] d2]; cbn [fst snd];
    [rewrite IH; reflexivity | reflexivity].
Qed.

(** [git_retrieve_from_remote] never returns: after the two git commands
    it reads [full_path], which the function does not bind. *)
Lemma git_retrieve_from_remote_raises (w : world D)
    (path_hash path_file : string) :
  exists e,
    fst (git_retrieve_from_remote path_hash path_file w) = Raise e /\
    submitted (snd (git_retrieve_from_remote path_hash path_file w))
      = submitted w.
Proof.
  unfold git_retrieve_from_remote, run, bind, sys, ret, load_global, raise.
  cbn [fst snd outside with_outside with_shell_log].
  destruct (pre_git_ops _ (outside w)) as [[dirty|e] d1];
    cbn [fst snd outside with_outside with_shell_log];
    [|eexists; split; reflexivity].
  destruct (subprocess_run _ d1) as [[s1|e] d2];
    cbn [fst snd outside with_outside with_shell_log];
    [|eexists; split; reflexivity].
  destruct (subprocess_run _ d2) as [[s2|e] d3];
    cbn [fst snd outside with_outside with_shell_log];
    eexists; split; reflexivity.
Qed.

Lemma remove_from_remote_submitted (w : world D) (path : string)
    (block : bool) :
  submitted (snd (remove_from_remote path block w))
    = submitted w ++ [T_git_remove_from_remote (path_hash_of (strip_slash path))].
Proof.
  unfold remove_from_remote. destruct block.
  - unfold bind, submit, ret.
    set (w1 := with_submitted _ w).
    destruct (git_remove_from_remote_log w1 (path_hash_of (strip_slash path)))
      as (l & _ & _ & Hsub).
    destruct (git_remove_from_remote _ w1) as [[r|e] w2];
      cbn [fst snd] in *; rewrite Hsub; reflexivity.
  - reflexivity.
Qed.

Lemma retrieve_from_remote_submitted (w : world D) (path full_path : string) :
  submitted (snd (retrieve_from_remote path full_path w)) = submitted w \/
  exists path_file,
    submitted (snd (retrieve_from_remote path full_path w))
      = submitted w
        ++ [T_git_retrieve_from_remote (path_hash_of (strip_slash path))
              path_file].
Proof.
  remember (retrieve_from_remote path full_path w) as res eqn:Hres.
  unfold retrieve_from_remote in Hres.
  destruct (split_path_all full_path) as [partial all_paths].
  destruct (os_path_split (strip_slash path)) as [head path_file].
  unfold bind at 1 in Hres.
  pose proof (make_dirs_submitted (slice_to_neg 1 all_paths) "" w) as Hdirs.
  destruct (make_dirs "" (slice_to_neg 1 all_paths) w) as [[[]|e] w1];
    cbn [fst snd] in *; [|left; subst res; exact Hdirs].
  unfold bind at 1 in Hres. unfold sys at 1 in Hres.
  destruct (touch full_path (outside w1)) as [[[]|e] d2];
    [|left; subst res; exact Hdirs].
  right. exists path_file.
  unfold bind at 1 in Hres. unfold submit at 1 in Hres.
  unfold bind at 1 in Hres.
  destruct (git_retrieve_from_remote_raises
              (with_submitted
                 (submitted (with_outside d2 w1)
                  ++ [T_git_retrieve_from_remote
                        (path_hash_of (strip_slash path)) path_file])
                 (with_outside d2 w1))
              (path_hash_of (strip_slash path)) path_file) as (e & Hr & Hsub).
  destruct (git_retrieve_from_remote _ _ _) as [[r|e'] w4];
    cbn [fst snd] in *; [discriminate|].
  subst res. cbn [snd]. rewrite Hsub.
  cbn [submitted with_submitted with_outside].
  rewrite Hdirs. reflexivity.
Qed.

End BranchFacts.

(** C9: every branch identifier the program computes is the SHA-1
    hexadecimal digest of the UTF-8 bytes of the normalized path (the
    path without its leading slash) with the last hex character dropped:
    the one [remove_from_remote] gives to the delete task, the one
    [commit_to_remote] gives to the commit task, the one
    [retrieve_from_remote] gives to the retrieve task, and the two that
    [git_rename_branch] computes from the normalized paths that
    [rename_branch] gives to the rename task.  The identifier is a
    function of the normalized path, so equal paths give equal
    identifiers. *)
Theorem branch_identifier_is_truncated_sha1 :
  forall (D : Type) (HOS : OS D) (w : world D) (path : string),
    let normalized := fst (split_path_all path) in
    let branch_of := fun p => drop_last (SHA1.hexdigest (utf8_bytes p)) in
    (forall block,
       submitted (snd (remove_from_remote path block w))
         = submitted w ++ [T_git_remove_from_remote (branch_of normalized)]) /\
    (exists full_path filename,
       submitted (snd (commit_to_remote path w))
         = submitted w
           ++ [T_git_commit_to_remote (branch_of normalized) full_path
                 filename normalized]) /\
    (forall full_path,
       submitted (snd (retrieve_from_remote path full_path w)) = submitted w \/
       exists path_file,
         submitted (snd (retrieve_from_remote path full_path w))
           = submitted w
             ++ [T_git_retrieve_from_remote (branch_of normalized) path_file]) /\
    (forall new_path destination_file_exists,
       submitted (snd (rename_branch path new_path destination_file_exists w))
         = submitted w
           ++ [T_git_rename_branch normalized (fst (split_path_all new_path))
                 destination_file_exists]) /\
    (forall path_old path_new,
       exists l,
         shell_log (snd (git_rename_branch path_old path_new false
                           remove_from_remote w))
           = shell_log w ++ l /\
         l `prefix_of`
           [GitFetch (branch_of path_old);
            GitPushRename (branch_of path_old) (branch_of path_new);
            SedCut (branch_of path_old)]) /\
    (forall p q, p = q -> branch_of p = branch_of q).
Proof.
  intros D HOS w path normalized branch_of. subst normalized branch_of.
  cbn [split_path_all fst].
  split; [|split; [|split; [|split; [|split]]]].
  - intros block. apply remove_from_remote_submitted.
  - unfold commit_to_remote, bind, _full_path, submit, ret.
    destruct (os_path_split (strip_slash path)) as [head filename].
    cbn [fst snd submitted with_submitted]. eauto.
  - intros full_path. apply retrieve_from_remote_submitted.
  - intros new_path dest. reflexivity.
  - intros path_old path_new.
    apply (git_rename_branch_log w path_old path_new false).
  - intros p q ->. reflexivity.
Qed.

(** ** [create] *)

Lemma accepts_leaf_empty_dict (keys : list string) :
  keys <> [] -> accepts_leaf (VDict ∅) keys = true.
Proof.
  destruct keys as [|k [|k2 rest]]; [congruence | reflexivity |].
  intros _. simpl. rewrite lookup_empty. reflexivity.
Qed.

Lemma nested_set_deeper (d : gmap string value) (k k2 : string)
    (rest : list string) (v : value) :
  nested_set (VDict d) (k :: k2 :: rest) v =
    match nested_set (match d !! k with Some s => s | None => VDict ∅ end)
            (k2 :: rest) v with
    | Ok sub' => Ok (VDict (<[k := sub']> d))
    | Raise e => Raise e
    end.
Proof. reflexivity. Qed.

Lemma accepts_leaf_deeper (d : gmap string value) (k k2 : string)
    (rest : list string) :
  accepts_leaf (VDict d) (k :: k2 :: rest) =
    match d !! k with
    | Some sub => accepts_leaf sub (k2 :: rest)
    | None => true
    end.
Proof. reflexivity. Qed.

Lemma getFromDict_cons (d : gmap string value) (k : string)
    (rest : list string) :
  getFromDict (VDict d) (k :: rest) =
    match dict_get d k with
    | VNone => Ok VNone
    | v => getFromDict v rest
    end.
Proof. reflexivity. Qed.

Lemma nested_set_accepts (keys : list string) :
  forall (dic v : value),
    accepts_leaf dic keys = true ->
    exists d', nested_set dic keys v = Ok (VDict d').
Proof.
  induction keys as [|k rest IH]; intros dic v Hacc; [discriminate|].
  destruct dic as [| |d]; try discriminate.
  destruct rest as [|k2 rest]; [simpl; eauto|].
  rewrite nested_set_deeper. rewrite accepts_leaf_deeper in Hacc.
  destruct (d !! k) as [sub|].
  - destruct (IH sub v Hacc) as [d' ->]. eauto.
  - destruct (IH (VDict ∅) v) as [d' ->]; [|eauto].
    apply accepts_leaf_empty_dict. discriminate.
Qed.

(** What [nested_set] stored is what [getFromDict] finds. *)
Lemma getFromDict_nested_set (keys : list string) :
  forall (dic dic' v : value),
    nested_set dic keys v = Ok dic' -> v <> VNone ->
    is_dict dic' = true /\ getFromDict dic' keys = Ok v.
Proof.
  induction keys as [|k rest IH]; intros dic dic' v Hset Hv; [discriminate|].
  destruct dic as [| |d]; try (destruct rest; discriminate).
  destruct rest as [|k2 rest].
  - injection Hset as <-. split; [reflexivity|].
    cbn [getFromDict]. unfold dict_get. rewrite lookup_insert_eq. simpl.
    destruct v; [congruence | reflexivity | reflexivity].
  - rewrite nested_set_deeper in Hset.
    destruct (nested_set _ (k2 :: rest) v) as [sub'|e] eqn:Hsub;
      [|discriminate].
    injection Hset as <-. split; [reflexivity|].
    destruct (IH _ sub' v Hsub Hv) as [Hdict Hget].
    rewrite getFromDict_cons. unfold dict_get. rewrite lookup_insert_eq.
    cbn [default].
    destruct sub'; [discriminate | discriminate | exact Hget].
Qed.

Section CreateFacts.
Context {D : Type} `{OS D}.

(** [create] of an editor file: only the outside changes. *)
Lemma create_hidden (w : world D) (path : string) (mode : Z) :
  mode = 33152 \/ last_char path = Ok tilde ->
  let w' := snd (create path mode w) in
  dir_structure w' = dir_structure w /\
  lru_file_cache w' = lru_file_cache w /\
  actions w' = actions w /\
  submitted w' = submitted w /\
  shell_log w' = shell_log w.
Proof.
  intros Hhidden. cbv zeta.
  unfold create, bind, _full_path, lift, ret, sys. cbn [fst snd].
  destruct (Z.eqb_spec mode 33152) as [->|Hmode].
  - destruct (os_open _ _ _ (outside w)) as [r d']. repeat split.
  - destruct Hhidden as [?|Hlast]; [congruence|]. rewrite Hlast.
    rewrite Ascii.eqb_refl.
    destruct (os_open _ _ _ (outside w)) as [r d']. repeat split.
Qed.

(** Every other [create], for a path the tree can take: the path is
    marked with ['write'], the tree has the leaf 0 at its components and
    the LRU has the path with size 0, also when the eviction or the final
    [os.open] raised. *)
Lemma create_tracked (w : world D) (path : string) (mode : Z) (c : ascii) :
  mode <> 33152 ->
  last_char path = Ok c -> c <> tilde ->
  accepts_leaf (dir_structure w) (snd (split_path_all path)) = true ->
  NoDup (OD.keys (items (lru_file_cache w))) ->
  let w' := snd (create path mode w) in
  "write" ∈ default (∅ : gset string) (actions w' !! path) /\
  getFromDict (dir_structure w') (snd (split_path_all path)) = Ok (VInt 0) /\
  LRU_get (fst (split_path_all path)) (lru_file_cache w') = Some 0.
Proof.
  intros Hmode Hlast Hc Hacc Hnd. cbv zeta.
  unfold create, bind, _full_path, lift, ret, sys, actions_add,
    _add_file_to_fs, bind, ret, on_tree, tree_step, on_cache.
  cbn [fst snd].
  destruct (Z.eqb_spec mode 33152) as [?|_]; [congruence|].
  rewrite Hlast. destruct (Ascii.eqb_spec c tilde) as [?|_]; [congruence|].
  destruct (split_path_all path) as [partial all_paths]. cbn [fst snd] in *.
  cbn [dir_structure with_actions].
  destruct (nested_set_accepts all_paths (dir_structure w) (VInt 0) Hacc)
    as [d' Hset].
  rewrite Hset.
  destruct (getFromDict_nested_set all_paths _ _ _ Hset) as [_ Hget];
    [discriminate|].
  cbn [lru_file_cache outside with_dir_structure with_actions].
  pose proof (setitem_stores partial 0 (lru_file_cache w) (outside w) Hnd)
    as [Hstored _].
  destruct (LRU_setitem partial 0 (lru_file_cache w, outside w))
    as [r [l d1]]. cbn [fst snd] in Hstored.
  assert ("write" ∈ default (∅ : gset string)
            (<[path := default ∅ (actions w !! path) ∪ {["write"]}]>
               (actions w) !! path)) as Hwrite.
  { rewrite lookup_insert_eq. simpl. apply elem_of_union_r.
    apply elem_of_singleton. reflexivity. }
  destruct r as [[]|e]; cbn [fst snd].
  - cbn [outside with_outside].
    destruct (os_open _ _ _ d1) as [r2 d2]. cbn [snd].
    cbn [actions dir_structure lru_file_cache with_outside with_lru
           with_dir_structure with_actions].
    auto.
  - cbn [actions dir_structure lru_file_cache with_outside with_lru
           with_dir_structure with_actions].
    auto.
Qed.

End CreateFacts.

(** C8: [create] with mode 0100600 (33152) or with a path whose last
    character is ['~'] leaves the directory tree, the LRU and the
    pending-action map as they were and submits and runs nothing; every
    other [create], for a path whose components before the last do not
    name a file in the tree (as for every call the adapter makes), leaves
    the path marked pending-write and a leaf of size 0 in both the tree
    and the LRU. *)
Theorem create_editor_file_or_tracked_file :
  forall (D : Type) (HOS : OS D) (w : world D) (path : string) (mode : Z),
    let w' := snd (create path mode w) in
    (mode = 33152 \/ last_char path = Ok tilde ->
     dir_structure w' = dir_structure w /\
     lru_file_cache w' = lru_file_cache w /\
     actions w' = actions w /\
     submitted w' = submitted w /\
     shell_log w' = shell_log w) /\
    (mode <> 33152 ->
     (exists c, last_char path = Ok c /\ c <> tilde) ->
     accepts_leaf (dir_structure w) (snd (split_path_all path)) = true ->
     NoDup (OD.keys (items (lru_file_cache w))) ->
     "write" ∈ default (∅ : gset string) (actions w' !! path) /\
     getFromDict (dir_structure w') (snd (split_path_all path))
       = Ok (VInt 0) /\
     LRU_get (fst (split_path_all path)) (lru_file_cache w') = Some 0).
Proof.
  intros D HOS w path mode w'. subst w'. split.
  - apply create_hidden.
  - intros Hmode (c & Hlast & Hc). apply (create_tracked w path mode c); assumption.
Qed.

Lemma create_editor_file_or_tracked_file_witness :
  (let w' := snd (create "/notes.txt~" 33188 fresh_world) in
   dir_structure w' = dir_structure fresh_world /\
   lru_file_cache w' = lru_file_cache fresh_world /\
   actions w' = actions fresh_world /\
   submitted w' = submitted fresh_world /\
   shell_log w' = shell_log fresh_world) /\
  (let w' := snd (create "/.notes.swp" 33152 fresh_world) in
   dir_structure w' = dir_structure fresh_world /\
   lru_file_cache w' = lru_file_cache fresh_world /\
   actions w' = actions fresh_world /\
   submitted w' = submitted fresh_world /\
   shell_log w' = shell_log fresh_world) /\
  (let w' := snd (create "/d/notes.txt" 33188 fresh_world) in
   "write" ∈ default (∅ : gset string) (actions w' !! "/d/notes.txt") /\
   getFromDict (dir_structure w') ["d"; "notes.txt"] = Ok (VInt 0) /\
   LRU_get "d/notes.txt" (lru_file_cache w') = Some 0).
Proof.
  split; [|split].
  - apply (proj1 (create_editor_file_or_tracked_file _ _ fresh_world
                    "/notes.txt~" 33188)).
    right. reflexivity.
  - apply (proj1 (create_editor_file_or_tracked_file _ _ fresh_world
                    "/.notes.swp" 33152)).
    left. reflexivity.
  - apply (proj2 (create_editor_file_or_tracked_file _ _ fresh_world
                    "/d/notes.txt" 33188)).
    + discriminate.
    + exists "t"%char. split; [reflexivity | discriminate].
    + reflexivity.
    + simpl. constructor.
Defined.

Lemma branch_identifier_is_truncated_sha1_witness :
  submitted (snd (remove_from_remote "/a/b" false fresh_world))
    = [T_git_remove_from_remote "3ec69c85a4ff96830024afeef2d4e512181c8f7"] /\
  drop_last (SHA1.hexdigest (utf8_bytes "a/b"))
    = drop_last (SHA1.hexdigest (utf8_bytes "a/b")).
Proof.
  destruct (branch_identifier_is_truncated_sha1 _ _ fresh_world "/a/b")
    as (Hdelete & _ & _ & _ & _ & Hsame).
  split.
  - rewrite (Hdelete false). vm_compute. reflexivity.
  - apply Hsame. reflexivity.
Defined.

(** * Further properties of the code *)

(** ** The nested-dict helpers *)

Module TreeFacts.

Lemma dict_get_Some (d : gmap string value) (k : string) (v : value) :
  dict_get d k = v -> v <> VNone -> d !! k = Some v.
Proof.
  unfold dict_get. destruct (d !! k) as [x|]; simpl; intros <- Hv;
    [reflexivity | congruence].
Qed.

Lemma dict_get_lookup (d : gmap string value) (k : string) (x : value) :
  d !! k = Some x -> dict_get d k = x.
Proof. unfold dict_get. intros ->. reflexivity. Qed.

Lemma getFromDict_step (d : gmap string value) (k : string)
    (rest : list string) (x : value) :
  dict_get d k = x -> x <> VNone ->
  getFromDict (VDict d) (k :: rest) = getFromDict x rest.
Proof.
  intros Hget Hx. rewrite getFromDict_cons, Hget.
  destruct x; [congruence | reflexivity | reflexivity].
Qed.

Lemma getFromDict_step_None (d : gmap string value) (k : string)
    (rest : list string) :
  dict_get d k = VNone -> getFromDict (VDict d) (k :: rest) = Ok VNone.
Proof. intros Hget. rewrite getFromDict_cons, Hget. reflexivity. Qed.

(** A lookup that finds something went through dicts only. *)
Lemma getFromDict_found (dic : value) (k : string) (rest : list string)
    (v : value) :
  getFromDict dic (k :: rest) = Ok v -> v <> VNone ->
  exists d x, dic = VDict d /\ d !! k = Some x /\ x <> VNone /\
              getFromDict x rest = Ok v.
Proof.
  intros Hget Hv. destruct dic as [| |d]; try discriminate.
  rewrite getFromDict_cons in Hget.
  destruct (dict_get d k) as [|n|d'] eqn:Hk.
  - injection Hget as <-. congruence.
  - exists d, (VInt n). repeat split; try congruence.
    apply dict_get_Some; [assumption | discriminate].
  - exists d, (VDict d'). repeat split; try congruence.
    apply dict_get_Some; [assumption | discriminate].
Qed.

Lemma nested_set_result_is_dict (keys : list string) (dic v dic' : value) :
  nested_set dic keys v = Ok dic' -> is_dict dic = true /\ is_dict dic' = true.
Proof.
  destruct keys as [|k [|k2 rest]]; [discriminate| |].
  - destruct dic; try discriminate. intros [= <-]. split; reflexivity.
  - destruct dic as [| |d]; try discriminate. rewrite nested_set_deeper.
    destruct (nested_set _ _ _); [|discriminate].
    intros [= <-]. split; reflexivity.
Qed.

Lemma delfirst_deeper (d : gmap string value) (k k2 : string)
    (rest : list string) :
  _delfirst (VDict d) (k :: k2 :: rest) =
    match _delfirst (dict_get d k) (k2 :: rest) with
    | Ok sub => Ok (VDict (<[k := sub]> d))
    | Raise e => Raise e
    end.
Proof. reflexivity. Qed.

Lemma delfirst_result_is_dict (keys : list string) (dic dic' : value) :
  _delfirst dic keys = Ok dic' -> is_dict dic = true /\ is_dict dic' = true.
Proof.
  destruct keys as [|k [|k2 rest]]; [discriminate| |].
  - destruct dic as [| |d]; try discriminate. simpl.
    destruct (d !! k); [|discriminate]. intros [= <-]. split; reflexivity.
  - destruct dic as [| |d]; try discriminate. rewrite delfirst_deeper.
    destruct (_delfirst _ _); [|discriminate].
    intros [= <-]. split; reflexivity.
Qed.

(** [diverge a b]: the two key lists differ at some position that both
    have (neither is a prefix of the other). *)
Fixpoint diverge (a b : list string) : bool :=
  match a, b with
  | k :: a', k' :: b' => if String.eqb k k' then diverge a' b' else true
  | _, _ => false
  end.

Lemma diverge_sym (a : list string) :
  forall b, diverge a b = diverge b a.
Proof.
  induction a as [|k a IH]; intros [|k' b]; simpl; try reflexivity.
  rewrite (String.eqb_sym k' k). destruct (String.eqb k k'); auto.
Qed.

Lemma diverge_nonempty (a b : list string) :
  diverge a b = true -> b <> [].
Proof. destruct a, b; simpl; congruence. Qed.

Lemma nested_set_frame (keys : list string) :
  forall (dic v dic' : value) (other : list string),
    nested_set dic keys v = Ok dic' ->
    diverge keys other = true ->
    getFromDict dic' other = getFromDict dic other.
Proof.
  induction keys as [|k rest IH]; intros dic v dic' other Hset Hdiv;
    [discriminate|].
  destruct other as [|k' other']; [discriminate|].
  destruct dic as [| |d]; try (destruct rest; discriminate).
  cbn [diverge] in Hdiv.
  destruct (String.eqb_spec k k') as [<-|Hne].
  - destruct rest as [|k2 rest]; [discriminate|].
    rewrite nested_set_deeper in Hset.
    destruct (nested_set _ (k2 :: rest) v) as [sub'|e] eqn:Hsub;
      [|discriminate].
    injection Hset as <-.
    destruct (nested_set_result_is_dict _ _ _ _ Hsub) as [Hsubd Hsubd'].
    rewrite (getFromDict_step _ k other' sub');
      [|unfold dict_get; rewrite lookup_insert_eq; reflexivity
       |destruct sub'; discriminate].
    rewrite (IH _ _ _ other' Hsub Hdiv).
    destruct (d !! k) as [s|] eqn:Hk.
    + symmetry. apply getFromDict_step; [apply dict_get_lookup; exact Hk|].
      destruct s; discriminate.
    + rewrite (getFromDict_step_None d k other')
        by (unfold dict_get; rewrite Hk; reflexivity).
      destruct other' as [|k3 other'];
        [apply diverge_nonempty in Hdiv; congruence|].
      apply getFromDict_step_None. unfold dict_get. rewrite lookup_empty.
      reflexivity.
  - assert (exists x, dic' = VDict (<[k := x]> d)) as [x ->].
    { destruct rest as [|k2 rest].
      - injection Hset as <-. eauto.
      - rewrite nested_set_deeper in Hset.
        destruct (nested_set _ _ _); [|discriminate].
        injection Hset as <-. eauto. }
    rewrite !getFromDict_cons. unfold dict_get.
    rewrite lookup_insert_ne by assumption. reflexivity.
Qed.

Lemma delfirst_frame (keys : list string) :
  forall (dic dic' : value) (other : list string),
    _delfirst dic keys = Ok dic' ->
    diverge keys other = true ->
    getFromDict dic' other = getFromDict dic other.
Proof.
  induction keys as [|k rest IH]; intros dic dic' other Hdel Hdiv;
    [discriminate|].
  destruct other as [|k' other']; [discriminate|].
  destruct dic as [| |d]; try (destruct rest; discriminate).
  cbn [diverge] in Hdiv.
  destruct (String.eqb_spec k k') as [<-|Hne].
  - destruct rest as [|k2 rest]; [discriminate|].
    rewrite delfirst_deeper in Hdel.
    destruct (_delfirst _ (k2 :: rest)) as [sub'|e] eqn:Hsub; [|discriminate].
    injection Hdel as <-.
    destruct (delfirst_result_is_dict _ _ _ Hsub) as [Hsubd Hsubd'].
    rewrite (getFromDict_step _ k other' sub');
      [|unfold dict_get; rewrite lookup_insert_eq; reflexivity
       |destruct sub'; discriminate].
    rewrite (IH _ _ other' Hsub Hdiv).
    symmetry. apply getFromDict_step; [reflexivity|].
    destruct (dict_get d k); discriminate.
  - assert (exists d', dic' = VDict d' /\ d' !! k' = d !! k') as (d' & -> & Hk').
    { destruct rest as [|k2 rest].
      - simpl in Hdel. destruct (d !! k); [|discriminate].
        injection Hdel as <-. eexists. split; [reflexivity|].
        apply lookup_delete_ne. assumption.
      - rewrite delfirst_deeper in Hdel.
        destruct (_delfirst _ _); [|discriminate].
        injection Hdel as <-. eexists. split; [reflexivity|].
        apply lookup_insert_ne. assumption. }
    rewrite !getFromDict_cons. unfold dict_get. rewrite Hk'. reflexivity.
Qed.

Lemma delfirst_existing (keys : list string) :
  forall (dic v : value),
    keys <> [] ->
    getFromDict dic keys = Ok v -> v <> VNone ->
    exists dic', _delfirst dic keys = Ok dic' /\
                 getFromDict dic' keys = Ok VNone.
Proof.
  induction keys as [|k rest IH]; intros dic v Hne Hget Hv; [congruence|].
  destruct (getFromDict_found dic k rest v Hget Hv)
    as (d & x & -> & Hk & Hx & Hrest).
  destruct rest as [|k2 rest].
  - cbn [_delfirst]. rewrite Hk. eexists. split; [reflexivity|].
    apply getFromDict_step_None. unfold dict_get.
    rewrite lookup_delete_eq. reflexivity.
  - rewrite delfirst_deeper. rewrite (dict_get_lookup d k x Hk).
    destruct (IH x v ltac:(discriminate) Hrest Hv) as (sub' & Hdel & Hgone).
    rewrite Hdel. eexists. split; [reflexivity|].
    destruct (delfirst_result_is_dict _ _ _ Hdel) as [_ Hsubd].
    rewrite (getFromDict_step _ k (k2 :: rest) sub');
      [exact Hgone
      |unfold dict_get; rewrite lookup_insert_eq; reflexivity
      |destruct sub'; discriminate].
Qed.

Lemma getFromDict_below_file (prefix : list string) :
  forall (dic : value) (size : Z) (k : string) (rest : list string),
    getFromDict dic prefix = Ok (VInt size) ->
    getFromDict dic (prefix ++ k :: rest) = Raise AttributeError.
Proof.
  induction prefix as [|k0 prefix IH]; intros dic size k rest Hget.
  - injection Hget as ->. reflexivity.
  - destruct (getFromDict_found dic k0 prefix (VInt size) Hget)
      as (d & x & -> & Hk & Hx & Hrest); [discriminate|].
    rewrite <- app_comm_cons.
    rewrite (getFromDict_step d k0 _ x);
      [|apply dict_get_lookup; assumption | assumption].
    apply (IH x size). assumption.
Qed.

Lemma delfirst_missing (parent : list string) :
  forall (dic : value) (d : gmap string value) (k : string),
    getFromDict dic parent = Ok (VDict d) -> d !! k = None ->
    _delfirst dic (parent ++ [k]) = Raise KeyError.
Proof.
  induction parent as [|k0 parent IH]; intros dic d k Hget Hk.
  - injection Hget as ->. simpl. rewrite Hk. reflexivity.
  - destruct (getFromDict_found dic k0 parent (VDict d) Hget)
      as (d0 & x & -> & Hk0 & Hx & Hrest); [discriminate|].
    rewrite <- app_comm_cons.
    destruct (parent ++ [k]) as [|k2 rest] eqn:Happ;
      [destruct parent; discriminate|].
    rewrite delfirst_deeper. rewrite (dict_get_lookup d0 k0 x Hk0).
    rewrite <- Happ. rewrite (IH x d k Hrest Hk). reflexivity.
Qed.

End TreeFacts.

(** ** Paths *)

Module PathFacts.

(** ["/".join(components)] *)
Fixpoint join_components (components : list string) : string :=
  match components with
  | [] => EmptyString
  | c :: rest =>
      match rest with
      | [] => c
      | _ :: _ => (c ++ "/" ++ join_components rest)%string
      end
  end.

(** No ['/'] in [s]. *)
Fixpoint slash_free (s : string) : bool :=
  match s with
  | EmptyString => true
  | String c r => negb (Ascii.eqb c slash) && slash_free r
  end.

(** A path component: not empty and without ['/']. *)
Definition is_component (s : string) : bool :=
  match s with
  | EmptyString => false
  | String _ _ => slash_free s
  end.

Lemma length_append (a b : string) :
  String.length (a ++ b)%string = (String.length a + String.length b)%nat.
Proof. induction a as [|c a IH]; simpl; [reflexivity | rewrite IH; reflexivity]. Qed.

Lemma append_assoc (a b c : string) :
  ((a ++ b) ++ c)%string = (a ++ (b ++ c))%string.
Proof.
  induction a as [|x a IH]; [reflexivity|].
  change (String x ((a ++ b) ++ c)%string = String x (a ++ (b ++ c))%string).
  f_equal. exact IH.
Qed.

Lemma cut_slash_free (c : string) :
  slash_free c = true -> cut_at_last_sep c = None.
Proof.
  induction c as [|x c IH]; simpl; [reflexivity|].
  intros [Hx Hc]%andb_prop. rewrite (IH Hc).
  destruct (Ascii.eqb x slash); [discriminate | reflexivity].
Qed.

Lemma cut_append (a c : string) :
  slash_free c = true ->
  cut_at_last_sep (a ++ "/" ++ c)%string = Some ((a ++ "/")%string, c).
Proof.
  intros Hc. induction a as [|x a IH].
  - change (cut_at_last_sep (String slash c)
            = Some (String slash EmptyString, c)).
    cbn [cut_at_last_sep]. rewrite (cut_slash_free c Hc). reflexivity.
  - change (cut_at_last_sep (String x (a ++ "/" ++ c)%string)
            = Some (String x (a ++ "/")%string, c)).
    cbn [cut_at_last_sep]. rewrite IH. reflexivity.
Qed.

Lemma rstrip_sep_append_slash (a : string) :
  rstrip_sep (a ++ "/")%string = rstrip_sep a.
Proof.
  induction a as [|x a IH]; [reflexivity|].
  change (rstrip_sep (String x (a ++ "/")%string) = rstrip_sep (String x a)).
  cbn [rstrip_sep]. rewrite IH. reflexivity.
Qed.

Lemma rstrip_sep_component (c : string) :
  slash_free c = true -> rstrip_sep c = c.
Proof.
  induction c as [|x c IH]; simpl; [reflexivity|].
  intros [Hx Hc]%andb_prop. rewrite (IH Hc).
  destruct c; [|reflexivity].
  destruct (Ascii.eqb x slash); [discriminate | reflexivity].
Qed.

Lemma rstrip_sep_ends_with_component (b c : string) :
  is_component c = true -> rstrip_sep (b ++ c)%string = (b ++ c)%string.
Proof.
  intros Hc. induction b as [|x b IH].
  - simpl. apply rstrip_sep_component. destruct c; [discriminate | exact Hc].
  - change (rstrip_sep (String x (b ++ c)%string) = String x (b ++ c)%string).
    cbn [rstrip_sep]. rewrite IH.
    destruct (b ++ c)%string eqn:Hbc; [|reflexivity].
    destruct b, c; discriminate.
Qed.

Lemma join_snoc (init : list string) (c : string) :
  join_components (init ++ [c]) =
    match init with
    | [] => c
    | _ :: _ => (join_components init ++ "/" ++ c)%string
    end.
Proof.
  induction init as [|x init IH]; [reflexivity|].
  destruct init as [|y init]; [reflexivity|].
  change (join_components ((x :: y :: init) ++ [c]))
    with (x ++ "/" ++ join_components ((y :: init) ++ [c]))%string.
  rewrite IH.
  change (join_components (x :: y :: init))
    with (x ++ "/" ++ join_components (y :: init))%string.
  rewrite !append_assoc. reflexivity.
Qed.

(** A non-empty list of components joins to a string that starts with a
    character other than ['/'] and that [rstrip] leaves alone. *)
Lemma join_starts_clean (components : list string) :
  components <> [] -> Forall (fun c => is_component c = true) components ->
  exists x r, join_components components = String x r /\
              Ascii.eqb x slash = false.
Proof.
  intros Hne Hall. destruct components as [|c rest]; [congruence|].
  apply Forall_cons in Hall as [Hc _].
  destruct c as [|x c]; [discriminate|].
  simpl in Hc. apply andb_prop in Hc as [Hx _].
  apply negb_true_iff in Hx.
  destruct rest; simpl; eauto.
Qed.

Lemma join_ends_clean (components : list string) :
  components <> [] -> Forall (fun c => is_component c = true) components ->
  rstrip_sep (join_components components) = join_components components.
Proof.
  intros Hne Hall.
  destruct (exists_last Hne) as (init & c & ->).
  apply Forall_app in Hall as [_ Hc]. apply List.Forall_inv in Hc.
  rewrite join_snoc. destruct init.
  - apply (rstrip_sep_ends_with_component EmptyString c Hc).
  - rewrite <- append_assoc. apply rstrip_sep_ends_with_component. exact Hc.
Qed.

Lemma os_path_split_component (c : string) :
  is_component c = true -> os_path_split c = (EmptyString, c).
Proof.
  intros Hc. unfold os_path_split. rewrite cut_slash_free; [reflexivity|].
  destruct c; [discriminate | exact Hc].
Qed.

Lemma os_path_split_join (init : list string) (c : string) :
  init <> [] ->
  Forall (fun c => is_component c = true) init -> is_component c = true ->
  os_path_split (join_components init ++ "/" ++ c)%string
    = (join_components init, c).
Proof.
  intros Hne Hall Hc. unfold os_path_split.
  rewrite cut_append by (destruct c; [discriminate | exact Hc]).
  assert (all_sep (join_components init ++ "/")%string = false) as ->.
  { destruct (join_starts_clean init Hne Hall) as (x & r & -> & Hx).
    change (all_sep (String x (r ++ "/")%string) = false).
    cbn [all_sep]. rewrite Hx. reflexivity. }
  rewrite rstrip_sep_append_slash, (join_ends_clean init Hne Hall).
  reflexivity.
Qed.

Lemma split_loop_join (components : list string) :
  forall (n : nat) (folders : list string),
    Forall (fun c => is_component c = true) components ->
    (String.length (join_components components) < n)%nat ->
    split_loop n (join_components components) folders
      = folders ++ rev components.
Proof.
  induction components as [|c init IH] using rev_ind;
    intros n folders Hall Hn.
  - destruct n as [|n]; [lia|]. simpl. rewrite app_nil_r. reflexivity.
  - apply Forall_app in Hall as [Hinit Hc]. apply List.Forall_inv in Hc.
    rewrite rev_unit. destruct n as [|n]; [lia|].
    rewrite join_snoc in *. cbn [split_loop].
    destruct init as [|c0 init'].
    + rewrite (os_path_split_component c Hc).
      destruct c as [|x c]; [discriminate|].
      destruct n; simpl; reflexivity.
    + rewrite (os_path_split_join (c0 :: init') c) by (try assumption; discriminate).
      destruct c as [|x c]; [discriminate|].
      rewrite (IH n (folders ++ [String x c]) Hinit).
      * rewrite <- app_assoc. reflexivity.
      * rewrite !length_append in Hn. cbn [String.length] in Hn. lia.
Qed.

End PathFacts.

(** ** Extra properties: the tree and the paths *)

(** X1: what [nested_set] stores at a key list is what [getFromDict]
    returns for that key list afterwards (for a value other than
    [None]). *)
Theorem nested_set_getFromDict_roundtrip :
  forall (dic : value) (keys : list string) (v dic' : value),
    nested_set dic keys v = Ok dic' -> v <> VNone ->
    getFromDict dic' keys = Ok v.
Proof.
  intros dic keys v dic' Hset Hv.
  apply (getFromDict_nested_set keys dic dic' v Hset Hv).
Qed.

Lemma nested_set_getFromDict_roundtrip_witness :
  exists dic',
    nested_set tree_dir_with_b ["a"; "c"; "d"] (VInt 7) = Ok dic' /\
    getFromDict dic' ["a"; "c"; "d"] = Ok (VInt 7).
Proof.
  eexists. split; [reflexivity|].
  apply (nested_set_getFromDict_roundtrip tree_dir_with_b ["a"; "c"; "d"]
           (VInt 7)); [reflexivity | discriminate].
Defined.

(** X2: [nested_set] changes no other entry: a key list that differs from
    the one written at some position both have is looked up as
    before. *)
Theorem nested_set_keeps_other_paths :
  forall (dic : value) (keys other : list string) (v dic' : value),
    nested_set dic keys v = Ok dic' ->
    TreeFacts.diverge keys other = true ->
    getFromDict dic' other = getFromDict dic other.
Proof.
  intros dic keys other v dic' Hset Hdiv.
  apply (TreeFacts.nested_set_frame keys dic v dic' other Hset Hdiv).
Qed.

Lemma nested_set_keeps_other_paths_witness :
  exists dic',
    nested_set tree_dir_with_b ["a"; "c"] (VInt 7) = Ok dic' /\
    getFromDict dic' ["a"; "b"] = getFromDict tree_dir_with_b ["a"; "b"].
Proof.
  eexists. split; [reflexivity|].
  apply (nested_set_keeps_other_paths tree_dir_with_b ["a"; "c"] ["a"; "b"]
           (VInt 7)); reflexivity.
Defined.

Lemma deleteFromDict_existing (dic : value) (keys : list string) (v : value) :
  keys <> [] ->
  getFromDict dic keys = Ok v -> v <> VNone ->
  exists dic',
    deleteFromDict keys false dic = (Ok true, dic') /\
    getFromDict dic' keys = Ok VNone /\
    forall other, TreeFacts.diverge keys other = true ->
                  getFromDict dic' other = getFromDict dic other.
Proof.
  intros Hne Hget Hv.
  destruct (TreeFacts.delfirst_existing keys dic v Hne Hget Hv)
    as (dic' & Hdel & Hgone).
  exists dic'. split; [|split].
  - unfold deleteFromDict, bind, tree_step, ret. rewrite Hdel. reflexivity.
  - exact Hgone.
  - intros other Hdiv.
    apply (TreeFacts.delfirst_frame keys dic dic' other Hdel Hdiv).
Qed.

(** X3: [deleteFromDict] of an entry that is in the tree (a file or a
    directory, empty or not) returns [True]; afterwards the lookup of
    that key list is [None], and every key list that differs from it at
    some position both have is looked up as before. *)
Theorem deleteFromDict_removes_entry :
  forall (dic : value) (keys : list string) (v : value),
    keys <> [] ->
    getFromDict dic keys = Ok v -> v <> VNone ->
    exists dic',
      deleteFromDict keys false dic = (Ok true, dic') /\
      getFromDict dic' keys = Ok VNone /\
      forall other, TreeFacts.diverge keys other = true ->
                    getFromDict dic' other = getFromDict dic other.
Proof.
  intros dic keys v Hne Hget Hv.
  apply (deleteFromDict_existing dic keys v Hne Hget Hv).
Qed.

(** The tree [{a: {b: 5}, c: 1}]. *)
Definition tree_b_and_c : value :=
  VDict (<[ "a" := VDict {[ "b" := VInt 5 ]} ]> {[ "c" := VInt 1 ]}).

Lemma deleteFromDict_removes_entry_witness :
  exists dic',
    deleteFromDict ["a"; "b"] false tree_b_and_c = (Ok true, dic') /\
    getFromDict dic' ["a"; "b"] = Ok VNone /\
    getFromDict dic' ["c"] = getFromDict tree_b_and_c ["c"].
Proof.
  destruct (deleteFromDict_removes_entry tree_b_and_c ["a"; "b"] (VInt 5))
    as (dic' & Hdel & Hgone & Hframe);
    [discriminate | reflexivity | discriminate |].
  exists dic'. split; [exact Hdel|]. split; [exact Hgone|].
  apply Hframe. reflexivity.
Defined.

(** X4: for a path that is not in the LRU and goes through a file of the
    tree (some proper prefix of its components is a file leaf), [getattr]
    raises [AttributeError], not the not-found error, and changes
    nothing. *)
Theorem getattr_below_a_file_raises_AttributeError :
  forall (D : Type) (HOS : OS D) (w : world D) (path : string)
         (prefix : list string) (k : string) (rest : list string) (size : Z),
    LRU_get (fst (split_path_all path)) (lru_file_cache w) = None ->
    snd (split_path_all path) = prefix ++ k :: rest ->
    getFromDict (dir_structure w) prefix = Ok (VInt size) ->
    getattr path w = (Raise AttributeError, w).
Proof.
  intros D HOS w path prefix k rest size Hlru Hpath Hfile.
  unfold getattr, bind, _full_path, cache_get, tree_get.
  destruct (split_path_all path) as [partial all_paths]. cbn [fst snd] in *.
  rewrite Hlru. subst all_paths.
  rewrite (TreeFacts.getFromDict_below_file prefix _ size k rest Hfile).
  reflexivity.
Qed.

Lemma getattr_below_a_file_raises_AttributeError_witness :
  getattr "/a/b" world_a5 = (Raise AttributeError, world_a5).
Proof.
  apply (getattr_below_a_file_raises_AttributeError _ _ world_a5 "/a/b"
           ["a"] "b" [] 5); reflexivity.
Defined.

(** X5: [rmdir] of a name that is missing from its parent directory in
    the tree (a directory that exists only on the local disk) raises
    [KeyError] before [os.rmdir] is called; nothing changes. *)
Theorem rmdir_unknown_directory_raises_KeyError :
  forall (D : Type) (HOS : OS D) (HMore : OSMore D) (w : world D)
         (path : string) (parent : list string) (k : string)
         (d : gmap string value),
    snd (split_path_all path) = parent ++ [k] ->
    getFromDict (dir_structure w) parent = Ok (VDict d) ->
    d !! k = None ->
    rmdir path w = (Raise KeyError, w).
Proof.
  intros D HOS HMore w path parent k d Hpath Hparent Hk.
  unfold rmdir, bind, _full_path, on_tree, deleteFromDict, bind, tree_step.
  destruct (split_path_all path) as [partial all_paths]. cbn [fst snd] in *.
  subst all_paths.
  rewrite (TreeFacts.delfirst_missing parent _ d k Hparent Hk).
  destruct w; reflexivity.
Qed.

Lemma rmdir_unknown_directory_raises_KeyError_witness :
  rmdir "/a/old" world_dir_with_b = (Raise KeyError, world_dir_with_b).
Proof.
  apply (rmdir_unknown_directory_raises_KeyError _ _ _ world_dir_with_b
           "/a/old" ["a"] "old" {[ "b" := VInt 5 ]}); reflexivity.
Defined.

(** X6: [rmdir] takes the entry out of the tree before it calls
    [os.rmdir]: for a path that is in the tree, the lookup is [None]
    after [rmdir], also when [os.rmdir] raised, and also when the
    directory still had entries in the tree. *)
Theorem rmdir_forgets_directory_before_os_rmdir :
  forall (D : Type) (HOS : OS D) (HMore : OSMore D) (w : world D)
         (path : string) (v : value),
    snd (split_path_all path) <> [] ->
    getFromDict (dir_structure w) (snd (split_path_all path)) = Ok v ->
    v <> VNone ->
    getFromDict (dir_structure (snd (rmdir path w))) (snd (split_path_all path))
      = Ok VNone.
Proof.
  intros D HOS HMore w path v Hne Hget Hv.
  unfold rmdir, bind, _full_path, on_tree, sys.
  destruct (split_path_all path) as [partial all_paths]. cbn [fst snd] in *.
  destruct (deleteFromDict_existing _ all_paths v Hne Hget Hv)
    as (dic' & -> & Hgone & _).
  cbn [fst snd outside with_dir_structure].
  destruct (os_rmdir _ (outside w)) as [r d1]. exact Hgone.
Qed.

Lemma rmdir_forgets_directory_before_os_rmdir_witness :
  fst (rmdir "/a" world_dir_with_b) = Raise (OSError ENOENT) /\
  getFromDict (dir_structure (snd (rmdir "/a" world_dir_with_b))) ["a"]
    = Ok VNone.
Proof.
  split; [vm_compute; reflexivity|].
  apply (rmdir_forgets_directory_before_os_rmdir _ _ _ world_dir_with_b "/a"
           (VDict {[ "b" := VInt 5 ]})); [discriminate | reflexivity | discriminate].
Defined.

(** X7: for a path made of a leading ['/'] and components joined by
    ['/'], each component non-empty and without ['/'], [split_path_all]
    returns the path without the leading slash and exactly those
    components, in order. *)
Theorem split_path_all_of_joined_components :
  forall components : list string,
    Forall (fun c => PathFacts.is_component c = true) components ->
    split_path_all (String slash (PathFacts.join_components components))
      = (PathFacts.join_components components, components).
Proof.
  intros components Hall. unfold split_path_all, strip_slash.
  cbn [startswith_slash drop_first]. rewrite Ascii.eqb_refl.
  rewrite (PathFacts.split_loop_join components _ [] Hall) by lia.
  cbn [app]. rewrite rev_involutive. reflexivity.
Qed.

Lemma split_path_all_of_joined_components_witness :
  split_path_all "/docs/2024/notes.txt"
    = ("docs/2024/notes.txt", ["docs"; "2024"; "notes.txt"]).
Proof.
  apply (split_path_all_of_joined_components ["docs"; "2024"; "notes.txt"]).
  repeat constructor.
Defined.

(** ** Extra properties: the LRU *)

Section LRUMore.
Context {D : Type} `{OS D}.

(** The eviction loop drops entries from the old end only. *)
Lemma evict_loop_drops_oldest (fuel : nat) :
  forall (m c : Z) (dd : string) (od : OD.t) (k : string) (v : Z) (d : D),
    NoDup (OD.keys (od ++ [(k, v)])) ->
    exists (c' : Z) (evicted od' : OD.t) (r : result unit) (d' : D),
      od = evicted ++ od' /\
      evict_loop fuel
        ({| maxsize := m; filesize_counter := c; data_dir := dd;
            items := od ++ [(k, v)] |}, d)
      = (r, ({| maxsize := m; filesize_counter := c'; data_dir := dd;
                items := od' ++ [(k, v)] |}, d')).
Proof.
  induction fuel as [|fuel IH]; intros m c dd od k v d Hnd.
  - exists c, [], od, (Ok tt), d. split; reflexivity.
  - cbn [evict_loop fst snd filesize_counter maxsize items].
    destruct (c >? m);
      [|exists c, [], od, (Ok tt), d; split; reflexivity].
    destruct (Nat.eqb_spec (length (od ++ [(k, v)])) 1) as [|Hlen];
      [exists c, [], od, (Ok tt), d; split; reflexivity|].
    destruct od as [|[o vo] rest]; [simpl in Hlen; congruence|].
    cbn [app] in *. simpl in Hnd. apply NoDup_cons in Hnd as [Ho Hrest].
    unfold bind.
    rewrite (evict_oldest_head m c dd o vo (rest ++ [(k, v)]) d Ho).
    destruct (os_remove _ d) as [[[]|e] d'].
    + destruct (IH m (c - vo - vo) dd rest k v d' Hrest)
        as (c' & evicted & od' & r & d'' & -> & Heq).
      exists c', ((o, vo) :: evicted), od', r, d''.
      split; [reflexivity | exact Heq].
    + exists (c - vo - vo), [(o, vo)], rest, (Raise e), d'.
      split; reflexivity.
Qed.

(** When the eviction loop returns, the counter is within the bound or a
    single entry is left. *)
Lemma evict_loop_exit (fuel : nat) :
  forall (self self' : LRU) (d d' : D),
    NoDup (OD.keys (items self)) ->
    items self <> [] ->
    (length (items self) <= fuel)%nat ->
    evict_loop fuel (self, d) = (Ok tt, (self', d')) ->
    filesize_counter self' <= maxsize self' \/ length (items self') = 1%nat.
Proof.
  induction fuel as [|fuel IH]; intros [m c dd od] self' d d' Hnd Hne Hlen Hrun;
    cbn [items] in *.
  - destruct od; [congruence | simpl in Hlen; lia].
  - cbn [evict_loop fst snd filesize_counter maxsize items] in Hrun.
    destruct (Z.gtb_spec c m) as [Hgt|Hle].
    + destruct (Nat.eqb_spec (length od) 1) as [Hone|Hmany].
      * injection Hrun as <- <-. right. exact Hone.
      * destruct od as [|[o vo] rest]; [congruence|].
        simpl in Hnd. apply NoDup_cons in Hnd as [Ho Hrest].
        unfold bind in Hrun.
        rewrite (evict_oldest_head m c dd o vo rest d Ho) in Hrun.
        destruct (os_remove _ d) as [[[]|e] d1]; [|discriminate].
        apply (IH {| maxsize := m; filesize_counter := c - vo - vo;
                     data_dir := dd; items := rest |} self' d1 d');
          cbn [items];
          [assumption | | simpl in Hlen; lia | exact Hrun].
        destruct rest; [simpl in Hmany; congruence | discriminate].
    + injection Hrun as <- <-. left. cbn [filesize_counter maxsize]. lia.
Qed.

End LRUMore.

(** X8: after [lru[key] = value] a lookup of [key] gives [value], also
    when the eviction that the assignment started raised from
    [os.remove]. *)
Theorem lru_setitem_then_get :
  forall (D : Type) (HOS : OS D) (self : LRU) (d : D) (key : string)
         (value : Z),
    NoDup (OD.keys (items self)) ->
    LRU_get key (fst (snd (LRU_setitem key value (self, d)))) = Some value.
Proof.
  intros D HOS self d key value Hnd.
  apply (setitem_stores key value self d Hnd).
Qed.

(** A cache of 1 GB that holds [a], [b] and [c] of 400 MB each while its
    counter says 300 MB. *)
Definition cache_abc : LRU :=
  {| maxsize := 1 * 10 ^ 9; filesize_counter := 300000000;
     data_dir := "/home/u/.evilgitfs/datadir";
     items := [("a", 400000000); ("b", 400000000); ("c", 400000000)] |}.

Lemma lru_setitem_then_get_witness :
  LRU_get "d" (fst (snd (LRU_setitem "d" 800000000 (cache_abc, disk_abc))))
    = Some 800000000.
Proof.
  apply (lru_setitem_then_get _ _ cache_abc disk_abc "d" 800000000).
  compute_done.
Defined.

(** The operations of the LRU that change it. *)
Inductive lru_op : Type :=
| Put (key : string) (value : Z)
| GetItem (key : string)
| DelItem (key : string).

Section LRUOps.
Context {D : Type} `{OS D}.

(** The state after an operation, whether it returned or raised. *)
Definition after_op (op : lru_op) (s : LRU * D) : LRU * D :=
  match op with
  | Put key value => snd (LRU_setitem key value s)
  | GetItem key => snd (on_lru (LRU_getitem key) s)
  | DelItem key => snd (on_lru (LRU_delitem key) s)
  end.

Definition after_ops (ops : list lru_op) (s : LRU * D) : LRU * D :=
  fold_left (fun s op => after_op op s) ops s.

Lemma after_op_invariant (op : lru_op) (s : LRU * D) :
  NoDup (OD.keys (items (fst s))) ->
  NoDup (OD.keys (items (fst (after_op op s)))) /\
  maxsize (fst (after_op op s)) = maxsize (fst s) /\
  data_dir (fst (after_op op s)) = data_dir (fst s).
Proof.
  destruct s as [self d]. cbn [fst]. intros Hnd.
  destruct op as [key value|key|key]; cbn [after_op].
  - split; [apply (setitem_stores key value self d Hnd)|].
    rewrite (setitem_unfold key value self d Hnd).
    destruct (evict_loop_keeps_newest
                (S (length (OD.remove key (items self) ++ [(key, value)])))
                (maxsize self) (filesize_counter self + value) (data_dir self)
                (OD.remove key (items self)) key value d
                (setitem_keys_distinct key value (items self) Hnd))
      as (c' & od' & r & d' & -> & _).
    split; reflexivity.
  - unfold on_lru. cbn [fst snd].
    pose proof (getitem_keys_distinct key self Hnd) as Hnd'.
    unfold LRU_getitem in *.
    destruct (OD.lookup key (items self)); cbn [fst snd] in *;
      (split; [exact Hnd' | split; reflexivity]).
  - unfold on_lru. cbn [fst snd].
    pose proof (delitem_keys_distinct key self Hnd) as Hnd'.
    unfold LRU_delitem, bind, LRU_getitem in *.
    destruct (OD.lookup key (items self)); cbn [fst snd] in *;
      (split; [exact Hnd' | split; reflexivity]).
Qed.

End LRUOps.

(** X9: after any sequence of assignments, [lru[key]] reads and [del]s
    on a new [LRU], whether they returned or raised, no key is in the
    LRU twice and the bound and the directory are those it was made
    with. *)
Theorem lru_keeps_keys_distinct :
  forall (D : Type) (HOS : OS D) (ops : list lru_op) (dir : string)
         (gb : Z) (d : D),
    let self := fst (after_ops ops (LRU_init dir gb, d)) in
    NoDup (OD.keys (items self)) /\
    maxsize self = gb * 10 ^ 9 /\
    data_dir self = dir.
Proof.
  intros D HOS ops dir gb d. cbv zeta.
  assert (forall s : LRU * D,
            NoDup (OD.keys (items (fst s))) ->
            NoDup (OD.keys (items (fst (after_ops ops s)))) /\
            maxsize (fst (after_ops ops s)) = maxsize (fst s) /\
            data_dir (fst (after_ops ops s)) = data_dir (fst s)) as Hall.
  { induction ops as [|op ops IH]; intros s Hnd; [auto|].
    cbn [after_ops fold_left].
    destruct (after_op_invariant op s Hnd) as (Hnd' & Hm & Hd).
    destruct (IH (after_op op s) Hnd') as (Hnd'' & Hm' & Hd').
    unfold after_ops in *. rewrite Hm', Hd', Hm, Hd. auto. }
  apply (Hall (LRU_init dir gb, d)). simpl. constructor.
Qed.

(** X10: an assignment that leaves a single entry never evicts: on an
    empty LRU, or on an LRU whose only key is the one assigned, it
    returns, the entry is stored with the new size whatever the bound is,
    and nothing is removed from the disk. *)
Theorem lru_single_entry_is_never_evicted :
  forall (D : Type) (HOS : OS D) (self : LRU) (d : D) (key : string)
         (value : Z),
    items self = [] \/ (exists old, items self = [(key, old)]) ->
    LRU_setitem key value (self, d) =
      (Ok tt,
       ({| maxsize := maxsize self;
           filesize_counter := filesize_counter self + value;
           data_dir := data_dir self; items := [(key, value)] |}, d)).
Proof.
  intros D HOS [m c dd od] d key value Hitems. cbn [items] in Hitems.
  assert (NoDup (OD.keys od)) as Hnd.
  { destruct Hitems as [->|[old ->]]; simpl; [constructor|].
    apply NoDup_singleton. }
  rewrite (setitem_unfold key value
             {| maxsize := m; filesize_counter := c; data_dir := dd;
                items := od |} d Hnd).
  cbn [maxsize filesize_counter data_dir items].
  assert (OD.remove key od = []) as ->.
  { destruct Hitems as [->|[old ->]]; [reflexivity|].
    simpl. rewrite String.eqb_refl. reflexivity. }
  cbn [app length evict_loop fst snd filesize_counter maxsize items Nat.eqb].
  destruct (c + value >? m); reflexivity.
Qed.

Lemma lru_single_entry_is_never_evicted_witness :
  LRU_setitem "big" 5000000000 (cache_1gb, disk_abc) =
    (Ok tt,
     ({| maxsize := 1000000000; filesize_counter := 5000000000;
         data_dir := "/home/u/.evilgitfs/datadir";
         items := [("big", 5000000000)] |}, disk_abc)).
Proof.
  apply (lru_single_entry_is_never_evicted _ _ cache_1gb disk_abc "big"
           5000000000).
  left. reflexivity.
Defined.

(** X11: an assignment puts the key at the new end of the order and then
    evicts from the old end only: what is left is the order before the
    eviction without some of its oldest entries, and the assigned key is
    never among them.  When the counter plus the new size is within the
    bound, nothing is evicted and the disk is not touched. *)
Theorem lru_setitem_evicts_oldest_first :
  forall (D : Type) (HOS : OS D) (self : LRU) (d : D) (key : string)
         (value : Z),
    NoDup (OD.keys (items self)) ->
    let after := snd (LRU_setitem key value (self, d)) in
    (exists evicted kept,
       OD.remove key (items self) = evicted ++ kept /\
       items (fst after) = kept ++ [(key, value)]) /\
    (filesize_counter self + value <= maxsize self ->
     LRU_setitem key value (self, d) =
       (Ok tt,
        ({| maxsize := maxsize self;
            filesize_counter := filesize_counter self + value;
            data_dir := data_dir self;
            items := OD.remove key (items self) ++ [(key, value)] |}, d))).
Proof.
  intros D HOS self d key value Hnd. cbv zeta.
  rewrite (setitem_unfold key value self d Hnd). split.
  - destruct (evict_loop_drops_oldest
                (S (length (OD.remove key (items self) ++ [(key, value)])))
                (maxsize self) (filesize_counter self + value) (data_dir self)
                (OD.remove key (items self)) key value d
                (setitem_keys_distinct key value (items self) Hnd))
      as (c' & evicted & od' & r & d' & Hsplit & ->).
    exists evicted, od'. split; [exact Hsplit | reflexivity].
  - intros Hfit.
    cbn [evict_loop fst snd filesize_counter maxsize].
    destruct (Z.gtb_spec (filesize_counter self + value) (maxsize self));
      [lia | reflexivity].
Qed.

Lemma lru_setitem_evicts_oldest_first_witness :
  (exists evicted kept,
     OD.remove "d" (items cache_abc) = evicted ++ kept /\
     items (fst (snd (LRU_setitem "d" 800000000 (cache_abc, disk_abc))))
       = kept ++ [("d", 800000000)]) /\
  LRU_setitem "d" 100000000 (cache_abc, disk_abc) =
    (Ok tt,
     ({| maxsize := maxsize cache_abc;
         filesize_counter := filesize_counter cache_abc + 100000000;
         data_dir := data_dir cache_abc;
         items := OD.remove "d" (items cache_abc) ++ [("d", 100000000)] |},
      disk_abc)).
Proof.
  assert (NoDup (OD.keys (items cache_abc))) as Hnd by compute_done.
  split.
  - apply (proj1 (lru_setitem_evicts_oldest_first _ _ cache_abc disk_abc "d"
                    800000000 Hnd)).
  - apply (proj2 (lru_setitem_evicts_oldest_first _ _ cache_abc disk_abc "d"
                    100000000 Hnd)).
    vm_compute. discriminate.
Defined.

(** X12: when an assignment returns, the counter is within the bound or
    exactly one entry is left. *)
Theorem lru_setitem_exit_condition :
  forall (D : Type) (HOS : OS D) (self self' : LRU) (d d' : D)
         (key : string) (value : Z),
    NoDup (OD.keys (items self)) ->
    LRU_setitem key value (self, d) = (Ok tt, (self', d')) ->
    filesize_counter self' <= maxsize self' \/ length (items self') = 1%nat.
Proof.
  intros D HOS self self' d d' key value Hnd Hrun.
  rewrite (setitem_unfold key value self d Hnd) in Hrun.
  eapply evict_loop_exit; [| | |exact Hrun]; cbn [items].
  - apply setitem_keys_distinct. exact Hnd.
  - destruct (OD.remove key (items self)); discriminate.
  - lia.
Qed.

Lemma lru_setitem_exit_condition_witness :
  exists self' d',
    LRU_setitem "d" 800000000 (cache_abc, disk_abc) = (Ok tt, (self', d')) /\
    (filesize_counter self' <= maxsize self' \/ length (items self') = 1%nat).
Proof.
  eexists. eexists. split; [vm_compute; reflexivity|].
  eapply (lru_setitem_exit_condition _ _ cache_abc _ disk_abc _ "d" 800000000).
  - compute_done.
  - vm_compute. reflexivity.
Defined.

(** ** Extra properties: the file-system operations *)

Section FsFacts.
Context {D : Type} `{OS D} `{OSMore D}.

(** [del lru[key]] of a key that is there. *)
Lemma delitem_present (self : LRU) (key : string) (size : Z) :
  NoDup (OD.keys (items self)) ->
  LRU_get key self = Some size ->
  LRU_delitem key self =
    (Ok tt, {| maxsize := maxsize self;
               filesize_counter := filesize_counter self - size;
               data_dir := data_dir self;
               items := OD.remove key (items self) |}).
Proof.
  intros Hnd Hget. destruct self as [m c dd od]. unfold LRU_get in Hget.
  cbn [items maxsize filesize_counter data_dir] in *.
  unfold LRU_delitem, bind, LRU_getitem, OD.move_to_end, set_items,
    set_counter.
  cbn [items maxsize filesize_counter data_dir]. rewrite Hget.
  cbn [items maxsize filesize_counter data_dir].
  rewrite (ODFacts.remove_app_last key size (OD.remove key od))
    by (apply ODFacts.remove_key_gone; assumption).
  reflexivity.
Qed.

Lemma get_after_remove (od : OD.t) (key : string) :
  NoDup (OD.keys od) -> OD.lookup key (OD.remove key od) = None.
Proof.
  intros Hnd. apply ODFacts.lookup_None.
  apply ODFacts.remove_key_gone. assumption.
Qed.

Lemma getattr_unknown (w : world D) (path : string) :
  LRU_get (fst (split_path_all path)) (lru_file_cache w) = None ->
  getFromDict (dir_structure w) (snd (split_path_all path)) = Ok VNone ->
  getattr path w = (Raise (FuseOSError ENOENT), w).
Proof.
  intros Hlru Hget. unfold getattr, bind, _full_path, cache_get, tree_get.
  destruct (split_path_all path) as [partial all_paths]. cbn [fst snd] in *.
  rewrite Hlru, Hget. reflexivity.
Qed.

(** When [mkdir] returns, it has set an empty dict at the path and
    changed the outside, nothing else. *)
Lemma mkdir_ok (w : world D) (path : string) (mode : Z) :
  fst (mkdir path mode w) = Ok tt ->
  exists t' d',
    nested_set (dir_structure w) (snd (split_path_all path)) (VDict ∅) = Ok t' /\
    snd (mkdir path mode w) = with_dir_structure t' (with_outside d' w).
Proof.
  unfold mkdir, bind, _full_path, sys, on_tree, tree_step, ret.
  destruct (split_path_all path) as [partial all_paths]. cbn [fst snd].
  destruct (os_path_exists _ (outside w)) as [[[]|e] d1];
    cbn [fst snd outside with_outside dir_structure].
  - destruct (nested_set (dir_structure w) all_paths (VDict ∅)) as [t'|e'];
      cbn [fst snd]; [intros _; eauto | discriminate].
  - destruct (os_mkdir_mode _ _ d1) as [[[]|e] d2];
      cbn [fst snd outside with_outside dir_structure]; [|discriminate].
    destruct (nested_set (dir_structure w) all_paths (VDict ∅)) as [t'|e'];
      cbn [fst snd]; [intros _ | discriminate].
    exists t', d2. split; [reflexivity|]. destruct w; reflexivity.
  - discriminate.
Qed.

End FsFacts.

(** X13: when [mkdir] returns, the new directory is in the tree and
    empty: [readdir] of the same path yields exactly ['.'] and ['..']. *)
Theorem mkdir_then_readdir :
  forall (D : Type) (HOS : OS D) (HMore : OSMore D) (w : world D)
         (path : string) (mode : Z),
    fst (mkdir path mode w) = Ok tt ->
    readdir path (snd (mkdir path mode w))
      = (Ok {[ "."; ".." ]}, snd (mkdir path mode w)).
Proof.
  intros D HOS HMore w path mode Hok.
  destruct (mkdir_ok w path mode Hok) as (t' & d' & Hset & ->).
  rewrite (readdir_directory _ path ∅).
  - rewrite dom_empty_L, (right_id_L ∅ (∪)). reflexivity.
  - cbn [dir_structure with_dir_structure].
    apply (getFromDict_nested_set _ _ _ _ Hset). discriminate.
Qed.

Lemma mkdir_then_readdir_witness :
  readdir "/a/photos" (snd (mkdir "/a/photos" 493 world_dir_with_b))
    = (Ok {[ "."; ".." ]}, snd (mkdir "/a/photos" 493 world_dir_with_b)).
Proof.
  apply (mkdir_then_readdir _ _ _ world_dir_with_b "/a/photos" 493).
  vm_compute. reflexivity.
Defined.

(** X14: [unlink] of a file that is in the LRU and in the tree takes it
    out of both, takes its size off the counter, and submits the deletion
    of its branch, whatever [os.unlink] then does; afterwards [getattr]
    of the path fails with the not-found error. *)
Theorem unlink_cached_file :
  forall (D : Type) (HOS : OS D) (HMore : OSMore D) (w : world D)
         (path : string) (size : Z) (v : value),
    let partial := fst (split_path_all path) in
    let all_paths := snd (split_path_all path) in
    NoDup (OD.keys (items (lru_file_cache w))) ->
    LRU_get partial (lru_file_cache w) = Some size ->
    all_paths <> [] ->
    getFromDict (dir_structure w) all_paths = Ok v -> v <> VNone ->
    let w' := snd (unlink path w) in
    LRU_get partial (lru_file_cache w') = None /\
    filesize_counter (lru_file_cache w')
      = filesize_counter (lru_file_cache w) - size /\
    getFromDict (dir_structure w') all_paths = Ok VNone /\
    submitted w' = submitted w ++ [T_git_remove_from_remote (path_hash_of partial)] /\
    getattr path w' = (Raise (FuseOSError ENOENT), w').
Proof.
  intros D HOS HMore w path size v partial all_paths Hnd Hlru Hne Hget Hv.
  subst partial all_paths.
  assert (fst (split_path_all path) = strip_slash path) as Hpartial
    by reflexivity.
  destruct (deleteFromDict_existing _ _ v Hne Hget Hv)
    as (t' & Hdel & Hgone & _).
  assert (exists d',
            snd (unlink path w) =
            with_outside d'
              (with_submitted
                 (submitted w
                  ++ [T_git_remove_from_remote (path_hash_of (strip_slash path))])
                 (with_dir_structure t'
                    (with_outside (outside w)
                       (with_lru
                          {| maxsize := maxsize (lru_file_cache w);
                             filesize_counter :=
                               filesize_counter (lru_file_cache w) - size;
                             data_dir := data_dir (lru_file_cache w);
                             items := OD.remove (fst (split_path_all path))
                                        (items (lru_file_cache w)) |} w)))))
    as [d' Hw'].
  { unfold unlink, bind, cache_get, on_cache, on_lru, on_tree,
      remove_from_remote, submit, _full_path, sys, ret.
    destruct (split_path_all path) as [partial all_paths]. cbn [fst snd] in *.
    rewrite Hlru. cbn [fst snd].
    rewrite (delitem_present (lru_file_cache w) partial size Hnd Hlru).
    cbn [fst snd dir_structure with_outside with_lru]. rewrite Hdel.
    cbn [fst snd submitted outside with_dir_structure with_outside with_lru
           with_submitted].
    unfold bind.
    cbn [fst snd submitted outside with_dir_structure with_outside with_lru
           with_submitted].
    destruct (os_unlink _ (outside w)) as [r d']. cbn [snd]. eauto. }
  cbv zeta. rewrite Hw'.
  cbn [lru_file_cache dir_structure submitted with_outside with_submitted
         with_dir_structure with_lru filesize_counter].
  assert (LRU_get (fst (split_path_all path))
            {| maxsize := maxsize (lru_file_cache w);
               filesize_counter := filesize_counter (lru_file_cache w) - size;
               data_dir := data_dir (lru_file_cache w);
               items := OD.remove (fst (split_path_all path))
                          (items (lru_file_cache w)) |} = None) as Hnone
    by (apply get_after_remove; assumption).
  repeat split; try assumption; try reflexivity.
  apply getattr_unknown; assumption.
Qed.

Lemma unlink_cached_file_witness :
  let w' := snd (unlink "/a/b" world_b_and_c) in
  LRU_get "a/b" (lru_file_cache w') = None /\
  filesize_counter (lru_file_cache w')
    = filesize_counter (lru_file_cache world_b_and_c) - 5 /\
  getFromDict (dir_structure w') ["a"; "b"] = Ok VNone /\
  submitted w'
    = submitted world_b_and_c ++ [T_git_remove_from_remote (path_hash_of "a/b")] /\
  getattr "/a/b" w' = (Raise (FuseOSError ENOENT), w').
Proof.
  apply (unlink_cached_file _ _ _ world_b_and_c "/a/b" 5 (VInt 5)).
  - compute_done.
  - reflexivity.
  - discriminate.
  - reflexivity.
  - discriminate.
Defined.

(** X15: [unlink] of a file that is in the tree but not in the LRU (not
    fetched yet) returns, takes it out of the tree and submits the
    deletion of its branch, and does not touch the local disk or the
    LRU. *)
Theorem unlink_remote_only_file :
  forall (D : Type) (HOS : OS D) (HMore : OSMore D) (w : world D)
         (path : string) (v : value),
    let partial := fst (split_path_all path) in
    let all_paths := snd (split_path_all path) in
    LRU_get partial (lru_file_cache w) = None ->
    all_paths <> [] ->
    getFromDict (dir_structure w) all_paths = Ok v -> v <> VNone ->
    let w' := snd (unlink path w) in
    fst (unlink path w) = Ok tt /\
    outside w' = outside w /\
    lru_file_cache w' = lru_file_cache w /\
    getFromDict (dir_structure w') all_paths = Ok VNone /\
    submitted w' = submitted w ++ [T_git_remove_from_remote (path_hash_of partial)].
Proof.
  intros D HOS HMore w path v partial all_paths Hlru Hne Hget Hv.
  subst partial all_paths.
  destruct (deleteFromDict_existing _ _ v Hne Hget Hv)
    as (t' & Hdel & Hgone & _).
  cbv zeta.
  unfold unlink, bind, cache_get, tree_get, on_tree, remove_from_remote,
    submit, ret, bind.
  destruct (split_path_all path) as [partial all_paths] eqn:Hsplit.
  assert (partial = strip_slash path) as ->
    by (unfold split_path_all in Hsplit; congruence).
  cbn [fst snd] in *. rewrite Hlru, Hget.
  destruct v; [congruence| |]; cbn [is_None negb]; rewrite Hdel;
    cbn [fst snd outside lru_file_cache dir_structure submitted
           with_dir_structure with_submitted];
    repeat split; assumption.
Qed.

Lemma unlink_remote_only_file_witness :
  let w' := snd (unlink "/a/b" world_dir_with_b) in
  fst (unlink "/a/b" world_dir_with_b) = Ok tt /\
  outside w' = outside world_dir_with_b /\
  lru_file_cache w' = lru_file_cache world_dir_with_b /\
  getFromDict (dir_structure w') ["a"; "b"] = Ok VNone /\
  submitted w'
    = submitted world_dir_with_b
      ++ [T_git_remove_from_remote (path_hash_of "a/b")].
Proof.
  apply (unlink_remote_only_file _ _ _ world_dir_with_b "/a/b" (VInt 5)).
  - reflexivity.
  - discriminate.
  - reflexivity.
  - discriminate.
Defined.

(** X16: [release] of a path that has no pending ['write'] (it was only
    read, or not used at all) changes neither the tree nor the LRU and
    submits nothing; it closes the descriptor and forgets the pending
    actions of the path. *)
Theorem release_without_pending_write :
  forall (D : Type) (HOS : OS D) (w : world D) (path : string) (fh : Z),
    "write" ∉ default (∅ : gset string) (actions w !! path) ->
    let w' := snd (release path fh w) in
    fst (release path fh w) = fst (os_close fh (outside w)) /\
    dir_structure w' = dir_structure w /\
    lru_file_cache w' = lru_file_cache w /\
    submitted w' = submitted w /\
    actions w' !! path = None.
Proof.
  intros D HOS w path fh Hnot. cbv zeta.
  unfold release, bind, sys, ret.
  rewrite bool_decide_eq_false_2 by exact Hnot.
  cbn [fst snd outside with_actions].
  destruct (os_close fh (outside w)) as [r d'].
  cbn [fst snd dir_structure lru_file_cache submitted actions with_outside
         with_actions].
  repeat split. apply lookup_delete_eq.
Qed.

Lemma release_without_pending_write_witness :
  let w' := snd (release "/a/b" 7 world_b_and_c) in
  fst (release "/a/b" 7 world_b_and_c)
    = fst (os_close 7 (outside world_b_and_c)) /\
  dir_structure w' = dir_structure world_b_and_c /\
  lru_file_cache w' = lru_file_cache world_b_and_c /\
  submitted w' = submitted world_b_and_c /\
  actions w' !! "/a/b" = None.
Proof.
  apply (release_without_pending_write _ _ world_b_and_c "/a/b" 7).
  compute_done.
Defined.

(** X17: when [release] of a path with a pending ['write'] returns, the
    tree and the LRU hold the path with the size [os.lstat] reports for
    its cache file, one commit of the path to its branch has been
    submitted, and the pending actions of the path are forgotten. *)
Theorem release_after_write_commits :
  forall (D : Type) (HOS : OS D) (w : world D) (path : string) (fh : Z),
    let partial := fst (split_path_all path) in
    let all_paths := snd (split_path_all path) in
    let full_path := os_path_join (self_data_dir w) partial in
    "write" ∈ default (∅ : gset string) (actions w !! path) ->
    NoDup (OD.keys (items (lru_file_cache w))) ->
    fst (release path fh w) = Ok tt ->
    let w' := snd (release path fh w) in
    exists st,
      fst (os_lstat full_path (outside w)) = Ok st /\
      getFromDict (dir_structure w') all_paths = Ok (VInt (st_size st)) /\
      LRU_get partial (lru_file_cache w') = Some (st_size st) /\
      submitted w' =
        submitted w
        ++ [T_git_commit_to_remote (path_hash_of partial)
              (os_path_join (self_data_dir w) (strip_slash partial))
              (snd (os_path_split partial)) partial] /\
      actions w' !! path = None.
Proof.
  intros D HOS w path fh partial all_paths full_path Hwrite Hnd.
  subst partial all_paths full_path. cbv zeta.
  unfold release, bind, sys, ret, _add_file_to_fs, bind, _full_path, sys,
    on_tree, tree_step, on_cache, commit_to_remote, bind, _full_path,
    submit, ret.
  rewrite bool_decide_eq_true_2 by exact Hwrite.
  destruct (split_path_all path) as [partial all_paths] eqn:Hsplit.
  assert (partial = strip_slash path) as Hpartial
    by (unfold split_path_all in Hsplit; congruence).
  cbn [fst snd outside with_actions self_data_dir evilgitfs_dir].
  fold (self_data_dir w). rewrite <- Hpartial.
  destruct (os_lstat _ (outside w)) as [[st|e] d1]; cbn [fst snd];
    [|discriminate].
  cbn [dir_structure outside lru_file_cache with_outside with_actions].
  destruct (nested_set (dir_structure w) all_paths (VInt (st_size st)))
    as [t'|e] eqn:Hset; cbn [fst snd]; [|discriminate].
  cbn [dir_structure outside lru_file_cache with_dir_structure with_outside
         with_actions].
  pose proof (setitem_stores partial (st_size st) (lru_file_cache w) d1 Hnd)
    as [Hstored _].
  destruct (LRU_setitem partial (st_size st) (lru_file_cache w, d1))
    as [[[]|e] [l d2]]; cbn [fst snd] in *; [|discriminate].
  destruct (os_path_split partial) as [head filename]. cbn [fst snd].
  cbn [outside with_submitted with_outside with_lru with_dir_structure
         with_actions].
  destruct (os_close fh d2) as [r d3]. cbn [fst snd]. intros _.
  exists st.
  cbn [dir_structure lru_file_cache submitted actions evilgitfs_dir
         with_submitted with_outside with_lru with_dir_structure
         with_actions].
  split; [reflexivity|].
  split; [apply (getFromDict_nested_set _ _ _ _ Hset); discriminate|].
  split; [exact Hstored|].
  split; [reflexivity|].
  apply lookup_delete_eq.
Qed.

(** [world_b_and_c] after a write to [/a/b] through descriptor 3. *)
Definition world_b_written : world Disk.t :=
  with_actions {[ "/a/b" := {[ "write" ]} ]}
    (with_outside
       (Disk.with_fds {[ 3 := ("/home/u/.evilgitfs/datadir/a/b", 5) ]} 4
          (outside world_b_and_c))
       world_b_and_c).

Lemma release_after_write_commits_witness :
  let path := "/a/b" in
  let w := world_b_written in
  let partial := fst (split_path_all path) in
  let all_paths := snd (split_path_all path) in
  let full_path := os_path_join (self_data_dir w) partial in
  let w' := snd (release path 3 w) in
  exists st,
    fst (os_lstat full_path (outside w)) = Ok st /\
    getFromDict (dir_structure w') all_paths = Ok (VInt (st_size st)) /\
    LRU_get partial (lru_file_cache w') = Some (st_size st) /\
    submitted w' =
      submitted w
      ++ [T_git_commit_to_remote (path_hash_of partial)
            (os_path_join (self_data_dir w) (strip_slash partial))
            (snd (os_path_split partial)) partial] /\
    actions w' !! path = None.
Proof.
  apply (release_after_write_commits _ _ world_b_written "/a/b" 3).
  - compute_done.
  - compute_done.
  - vm_compute. reflexivity.
Defined.

Section RetrieveFacts.
Context {D : Type} `{OS D}.

Lemma make_dirs_outside_only (dirs : list string) :
  forall (dir_traversal : string) (w : world D),
    exists d', snd (make_dirs dir_traversal dirs w) = with_outside d' w.
Proof.
  induction dirs as [|i dirs IH]; intros dir_traversal w.
  - exists (outside w). destruct w; reflexivity.
  - cbn [make_dirs]. unfold bind, sys, ret.
    destruct (os_path_exists _ (outside w)) as [[[]|e] d1]; cbn [fst snd].
    + destruct (IH (dir_traversal ++ "/" ++ i)%string (with_outside d1 w))
        as [d' ->].
      exists d'. reflexivity.
    + cbn [outside with_outside].
      destruct (os_mkdir _ d1) as [[[]|e] d2]; cbn [fst snd].
      * destruct (IH (dir_traversal ++ "/" ++ i)%string
                    (with_outside d2 (with_outside d1 w))) as [d' ->].
        exists d'. reflexivity.
      * exists d2. reflexivity.
    + exists d1. reflexivity.
Qed.

(** [retrieve_from_remote] never returns, and what it leaves behind
    differs from what it found only in the outside, the commands run and
    the submitted tasks. *)
Lemma retrieve_from_remote_raises (w : world D) (path full_path : string) :
  exists e,
    fst (retrieve_from_remote path full_path w) = Raise e /\
    retrieve_queue (snd (retrieve_from_remote path full_path w))
      = retrieve_queue w /\
    lru_file_cache (snd (retrieve_from_remote path full_path w))
      = lru_file_cache w /\
    dir_structure (snd (retrieve_from_remote path full_path w))
      = dir_structure w.
Proof.
  remember (retrieve_from_remote path full_path w) as res eqn:Hres.
  unfold retrieve_from_remote in Hres.
  destruct (split_path_all full_path) as [partial all_paths].
  destruct (os_path_split (strip_slash path)) as [head path_file].
  unfold bind at 1 in Hres.
  destruct (make_dirs_outside_only (slice_to_neg 1 all_paths) "" w)
    as [d1 Hdirs].
  destruct (make_dirs "" (slice_to_neg 1 all_paths) w) as [[[]|e] w1];
    cbn [fst snd] in *; subst w1;
    [|subst res; exists e; repeat split].
  unfold bind at 1 in Hres. unfold sys at 1 in Hres.
  cbn [outside with_outside] in Hres.
  destruct (touch full_path d1) as [[[]|e] d2];
    [|subst res; exists e; repeat split].
  unfold bind at 1 in Hres. unfold submit at 1 in Hres.
  unfold bind at 1 in Hres.
  unfold git_retrieve_from_remote, run, bind, sys, ret, load_global, raise
    in Hres.
  cbn [fst snd outside shell_log submitted evilgitfs_dir with_outside
         with_shell_log with_submitted existsb module_globals] in Hres.
  destruct (pre_git_ops _ d2) as [[dirty|e] d3];
    cbn [fst snd outside shell_log with_outside with_shell_log] in Hres;
    [|subst res; exists e; repeat split].
  destruct (subprocess_run _ d3) as [[s1|e] d4];
    cbn [fst snd outside shell_log with_outside with_shell_log] in Hres;
    [|subst res; exists e; repeat split].
  destruct (subprocess_run _ d4) as [[s2|e] d5];
    cbn [fst snd outside shell_log with_outside with_shell_log] in Hres;
    subst res; eexists; repeat split.
Qed.

End RetrieveFacts.

(** X18: [open] of a file that is in the tree but not in the LRU never
    returns a descriptor: the retrieval it starts always raises (the git
    function reads a name that is not bound), the path stays in
    [retrieve_queue], and the file is still not in the LRU. *)
Theorem open_of_remote_only_file_raises :
  forall (D : Type) (HOS : OS D) (w : world D) (path : string) (flags : Z)
         (v : value),
    LRU_get (fst (split_path_all path)) (lru_file_cache w) = None ->
    getFromDict (dir_structure w) (snd (split_path_all path)) = Ok v ->
    v <> VNone ->
    exists e,
      fst (open path flags w) = Raise e /\
      path ∈ retrieve_queue (snd (open path flags w)) /\
      LRU_get (fst (split_path_all path))
        (lru_file_cache (snd (open path flags w))) = None.
Proof.
  intros D HOS w path flags v Hlru Hget Hv.
  remember (open path flags w) as res eqn:Hres.
  unfold open, bind, _full_path, cache_get, tree_get in Hres.
  destruct (split_path_all path) as [partial all_paths]. cbn [fst snd] in *.
  rewrite Hlru, Hget in Hres.
  assert (negb (is_None v) = true) as Hnot
    by (destruct v; [congruence | reflexivity | reflexivity]).
  rewrite Hnot in Hres.
  destruct (retrieve_from_remote_raises
              (with_retrieve_queue (retrieve_queue w ∪ {[path]}) w) path
              (os_path_join (self_data_dir w) (strip_slash path)))
    as (e & Hr & Hq & Hl & _).
  destruct (retrieve_from_remote path _ (with_retrieve_queue _ w))
    as [[r|e'] w2]; cbn [fst snd] in *; [discriminate|].
  subst res. exists e'. cbn [fst snd]. rewrite Hq, Hl.
  cbn [retrieve_queue lru_file_cache with_retrieve_queue].
  split; [reflexivity|]. split; [|exact Hlru].
  apply elem_of_union_r, elem_of_singleton. reflexivity.
Qed.

Lemma open_of_remote_only_file_raises_witness :
  exists e,
    fst (open "/a/b" 0 world_dir_with_b) = Raise e /\
    "/a/b" ∈ retrieve_queue (snd (open "/a/b" 0 world_dir_with_b)) /\
    LRU_get (fst (split_path_all "/a/b"))
      (lru_file_cache (snd (open "/a/b" 0 world_dir_with_b))) = None.
Proof.
  apply (open_of_remote_only_file_raises _ _ world_dir_with_b "/a/b" 0
           (VInt 5)).
  - reflexivity.
  - reflexivity.
  - discriminate.
Defined.

(** ** Extra properties: [rename] *)

Lemma bind_ok {S A B} (c : M S A) (k : A -> M S B) (s s' : S) (a : A) :
  c s = (Ok a, s') -> bind c k s = k a s'.
Proof. intros Hc. unfold bind. rewrite Hc. reflexivity. Qed.

Lemma bind_raise {S A B} (c : M S A) (k : A -> M S B) (s s' : S) (e : exn) :
  c s = (Raise e, s') -> bind c k s = (Raise e, s').
Proof. intros Hc. unfold bind. rewrite Hc. reflexivity. Qed.

Module ODMore.

Lemma lookup_remove_ne (k k' : string) (od : OD.t) :
  k <> k' -> OD.lookup k (OD.remove k' od) = OD.lookup k od.
Proof.
  intros Hne. induction od as [|[x v] rest IH]; simpl; [reflexivity|].
  destruct (String.eqb_spec x k') as [->|Hx]; simpl.
  - destruct (String.eqb_spec k' k); [congruence | reflexivity].
  - rewrite IH. reflexivity.
Qed.

Lemma lookup_app_ne (k k' : string) (v : Z) (od : OD.t) :
  k <> k' -> OD.lookup k (od ++ [(k', v)]) = OD.lookup k od.
Proof.
  intros Hne. induction od as [|[x v'] rest IH]; simpl.
  - destruct (String.eqb_spec k' k); [congruence | reflexivity].
  - rewrite IH. reflexivity.
Qed.

End ODMore.

Lemma accepts_leaf_existing (keys : list string) :
  forall (dic v : value),
    keys <> [] -> getFromDict dic keys = Ok v -> v <> VNone ->
    accepts_leaf dic keys = true.
Proof.
  induction keys as [|k rest IH]; intros dic v Hne Hget Hv; [congruence|].
  destruct (TreeFacts.getFromDict_found dic k rest v Hget Hv)
    as (d & x & -> & Hk & Hx & Hrest).
  destruct rest as [|k2 rest]; [reflexivity|].
  rewrite accepts_leaf_deeper, Hk. apply (IH x v); [discriminate | assumption..].
Qed.

Lemma diverge_irrefl (a : list string) : TreeFacts.diverge a a = false.
Proof.
  induction a as [|k a IH]; simpl; [reflexivity|].
  rewrite String.eqb_refl. exact IH.
Qed.

Section RenameMore.
Context {D : Type} `{OS D}.

(** Moving a file leaf onto an entry that is there. *)
Lemma move_tree_entry_onto_existing (w : world D)
    (all_paths_old all_paths_new : list string) (size : Z) (v : value) :
  getFromDict (dir_structure w) all_paths_old = Ok (VInt size) ->
  getFromDict (dir_structure w) all_paths_new = Ok v -> v <> VNone ->
  TreeFacts.diverge all_paths_old all_paths_new = true ->
  exists t',
    move_tree_entry all_paths_old all_paths_new false w
      = (Ok tt, with_dir_structure t' w) /\
    getFromDict t' all_paths_new = Ok (VInt size) /\
    getFromDict t' all_paths_old = Ok VNone.
Proof.
  intros Hold Hnew Hv Hdiv.
  assert (all_paths_new <> []) as Hnew_ne
    by (eapply TreeFacts.diverge_nonempty; exact Hdiv).
  assert (all_paths_old <> []) as Hold_ne.
  { rewrite TreeFacts.diverge_sym in Hdiv.
    eapply TreeFacts.diverge_nonempty; exact Hdiv. }
  destruct (nested_set_accepts all_paths_new (dir_structure w) (VInt size)
              (accepts_leaf_existing _ _ _ Hnew_ne Hnew Hv)) as [d1 Hset].
  assert (getFromDict (VDict d1) all_paths_old = Ok (VInt size)) as Hold1.
  { rewrite (TreeFacts.nested_set_frame all_paths_new _ _ _ all_paths_old Hset);
      [exact Hold | rewrite TreeFacts.diverge_sym; exact Hdiv]. }
  destruct (deleteFromDict_existing (VDict d1) all_paths_old (VInt size)
              Hold_ne Hold1) as (t2 & Hdel & Hgone & Hframe); [discriminate|].
  exists t2. split; [|split].
  - unfold move_tree_entry, bind, tree_get, on_tree, tree_step, ret.
    rewrite Hold. cbn [fst snd dir_structure with_dir_structure].
    rewrite Hset. cbn [fst snd dir_structure with_dir_structure].
    rewrite Hdel. cbn [fst snd]. destruct w; reflexivity.
  - rewrite (Hframe all_paths_new Hdiv).
    apply (getFromDict_nested_set _ _ _ _ Hset). discriminate.
  - exact Hgone.
Qed.

(** Moving the LRU entry when it fits without eviction. *)
Lemma move_cache_entry_present (w : world D) (partial_old partial_new : string)
    (size : Z) :
  NoDup (OD.keys (items (lru_file_cache w))) ->
  LRU_get partial_old (lru_file_cache w) = Some size ->
  partial_old <> partial_new ->
  filesize_counter (lru_file_cache w) + size <= maxsize (lru_file_cache w) ->
  exists l',
    move_cache_entry partial_old partial_new w = (Ok tt, with_lru l' w) /\
    LRU_get partial_new l' = Some size /\
    LRU_get partial_old l' = None /\
    filesize_counter l' = filesize_counter (lru_file_cache w).
Proof.
  intros Hnd Hget Hne Hfit.
  set (od1 := OD.remove partial_new (items (lru_file_cache w))
              ++ [(partial_new, size)]).
  set (l1 := {| maxsize := maxsize (lru_file_cache w);
                filesize_counter := filesize_counter (lru_file_cache w) + size;
                data_dir := data_dir (lru_file_cache w);
                items := od1 |}).
  assert (LRU_setitem partial_new size (lru_file_cache w, outside w)
          = (Ok tt, (l1, outside w))) as Hset.
  { rewrite (setitem_unfold partial_new size _ _ Hnd).
    cbn [evict_loop fst snd filesize_counter maxsize].
    destruct (Z.gtb_spec (filesize_counter (lru_file_cache w) + size)
                (maxsize (lru_file_cache w))); [lia | reflexivity]. }
  assert (NoDup (OD.keys (items l1))) as Hnd1
    by (apply setitem_keys_distinct; exact Hnd).
  assert (LRU_get partial_old l1 = Some size) as Hget1.
  { unfold LRU_get, l1, od1. cbn [items].
    rewrite ODMore.lookup_app_ne, ODMore.lookup_remove_ne by assumption.
    exact Hget. }
  exists {| maxsize := maxsize l1;
            filesize_counter := filesize_counter l1 - size;
            data_dir := data_dir l1;
            items := OD.remove partial_old (items l1) |}.
  split; [|split; [|split]].
  - unfold move_cache_entry, bind, cache_get, on_cache, on_lru.
    rewrite Hget. cbn [fst snd]. rewrite Hset.
    cbn [fst snd lru_file_cache outside with_lru with_outside].
    rewrite (delitem_present l1 partial_old size Hnd1 Hget1).
    cbn [fst snd]. destruct w; reflexivity.
  - unfold LRU_get. cbn [items].
    rewrite ODMore.lookup_remove_ne by congruence.
    unfold od1. apply ODFacts.lookup_app_last.
    apply ODFacts.remove_key_gone. exact Hnd.
  - unfold LRU_get. cbn [items]. apply ODFacts.lookup_None.
    apply ODFacts.remove_key_gone. exact Hnd1.
  - cbn [filesize_counter l1]. unfold l1. cbn [filesize_counter]. lia.
Qed.

End RenameMore.

(** X19: [rename] calls [os.rename] before it updates anything: when the
    source is a file of the tree, the destination is in the tree, and
    [os.rename] raises, [rename] raises the same error and the tree, the
    LRU and the submitted tasks are as before. *)
Theorem rename_failing_os_rename_changes_nothing :
  forall (D : Type) (HOS : OS D) (w : world D) (old_path new_path : string)
         (size : Z) (v : value) (e : exn) (d' : D),
    getFromDict (dir_structure w) (snd (split_path_all old_path))
      = Ok (VInt size) ->
    getFromDict (dir_structure w) (snd (split_path_all new_path)) = Ok v ->
    v <> VNone ->
    os_rename (os_path_join (self_data_dir w) (strip_slash old_path))
              (os_path_join (self_data_dir w) (strip_slash new_path))
              (outside w) = (Raise e, d') ->
    rename old_path new_path w = (Raise e, with_outside d' w).
Proof.
  intros D HOS w old_path new_path size v e d' Hold Hnew Hv Hos.
  unfold rename.
  destruct (split_path_all old_path) as [partial_old all_paths_old].
  destruct (split_path_all new_path) as [partial_new all_paths_new].
  cbn [fst snd] in *.
  rewrite (bind_ok _ _ w w true (isfile_of_int w all_paths_old size Hold)).
  assert (exists b, _isfile all_paths_new w = (Ok b, w)) as [b Hisnew].
  { unfold _isfile, bind, tree_get, ret. rewrite Hnew.
    destruct v; [congruence | |]; cbn [is_dict is_int]; [rewrite Hnew|]; eauto. }
  erewrite bind_ok; cycle 1.
  { erewrite bind_ok; [|unfold tree_get; rewrite Hold; reflexivity].
    cbn [is_None negb]. erewrite bind_ok; [|exact Hisnew]. reflexivity. }
  unfold _full_path at 1. erewrite bind_ok; [|reflexivity].
  unfold _full_path at 1. erewrite bind_ok; [|reflexivity].
  erewrite bind_raise; [reflexivity|].
  unfold sys. rewrite Hos. reflexivity.
Qed.

(** A disk on which every [os.rename] is refused. *)
Definition read_only_os : OS Disk.t :=
  {| os_remove := Disk.remove;
     os_rename := fun _ _ d => (Raise (OSError 30), d);
     os_open := Disk.open;
     os_close := Disk.close;
     os_lseek := Disk.lseek;
     os_read := Disk.read;
     os_write := Disk.write;
     os_lstat := Disk.lstat;
     os_stat := Disk.lstat;
     os_path_exists := Disk.path_exists;
     os_mkdir := Disk.mkdir;
     os_walk := Disk.walk;
     touch := Disk.touch_file;
     shutil_copy := Disk.copy;
     subprocess_run := Disk.subprocess;
     csv_writerow := Disk.writerow;
     csv_read := Disk.read_rows;
     pre_git_ops := Disk.pre;
     post_git_ops := Disk.post |}.

Lemma rename_failing_os_rename_changes_nothing_witness :
  @rename Disk.t read_only_os "/a/b" "/a/c" world_b_and_c
    = (Raise (OSError 30), with_outside (outside world_b_and_c) world_b_and_c).
Proof.
  apply (rename_failing_os_rename_changes_nothing Disk.t read_only_os
           world_b_and_c "/a/b" "/a/c" 5 (VInt 7)).
  - reflexivity.
  - reflexivity.
  - discriminate.
  - reflexivity.
Defined.

(** X20: [rename] of a file onto another file of the tree, when
    [os.rename] succeeds: it returns; the destination has the size of the
    source in the tree and the source is gone from it; one rename task
    with [destination_file_exists] is submitted; an LRU entry of the
    source, if there is one and it fits without eviction, is moved to
    the destination with the counter unchanged, and without one the LRU
    is as before. *)
Theorem rename_file_onto_existing_file :
  forall (D : Type) (HOS : OS D) (w : world D) (old_path new_path : string)
         (size size' : Z) (d' : D),
    let partial_old := fst (split_path_all old_path) in
    let all_paths_old := snd (split_path_all old_path) in
    let partial_new := fst (split_path_all new_path) in
    let all_paths_new := snd (split_path_all new_path) in
    getFromDict (dir_structure w) all_paths_old = Ok (VInt size) ->
    getFromDict (dir_structure w) all_paths_new = Ok (VInt size') ->
    TreeFacts.diverge all_paths_old all_paths_new = true ->
    os_rename (os_path_join (self_data_dir w) (strip_slash old_path))
              (os_path_join (self_data_dir w) (strip_slash new_path))
              (outside w) = (Ok tt, d') ->
    NoDup (OD.keys (items (lru_file_cache w))) ->
    match LRU_get partial_old (lru_file_cache w) with
    | Some cached =>
        filesize_counter (lru_file_cache w) + cached
          <= maxsize (lru_file_cache w)
    | None => True
    end ->
    let w' := snd (rename old_path new_path w) in
    fst (rename old_path new_path w) = Ok tt /\
    getFromDict (dir_structure w') all_paths_new = Ok (VInt size) /\
    getFromDict (dir_structure w') all_paths_old = Ok VNone /\
    submitted w' =
      submitted w
      ++ [T_git_rename_branch (strip_slash partial_old)
            (strip_slash partial_new) true] /\
    match LRU_get partial_old (lru_file_cache w) with
    | Some cached =>
        LRU_get partial_new (lru_file_cache w') = Some cached /\
        LRU_get partial_old (lru_file_cache w') = None /\
        filesize_counter (lru_file_cache w')
          = filesize_counter (lru_file_cache w)
    | None => lru_file_cache w' = lru_file_cache w
    end.
Proof.
  intros D HOS w old_path new_path size size' d' partial_old all_paths_old
    partial_new all_paths_new Hold Hnew Hdiv Hos Hnd Hfit.
  assert (partial_old <> partial_new) as Hne.
  { subst partial_old partial_new all_paths_old all_paths_new.
    unfold split_path_all in *. cbn [fst snd] in *. intros Heq.
    rewrite Heq, diverge_irrefl in Hdiv. discriminate. }
  assert (exists l' t',
            rename old_path new_path w =
              (Ok tt,
               with_submitted
                 (submitted w
                  ++ [T_git_rename_branch (strip_slash partial_old)
                        (strip_slash partial_new) true])
                 (with_lru l'
                    (with_dir_structure t' (with_outside d' w)))) /\
            getFromDict t' all_paths_new = Ok (VInt size) /\
            getFromDict t' all_paths_old = Ok VNone /\
            match LRU_get partial_old (lru_file_cache w) with
            | Some cached =>
                LRU_get partial_new l' = Some cached /\
                LRU_get partial_old l' = None /\
                filesize_counter l' = filesize_counter (lru_file_cache w)
            | None => l' = lru_file_cache w
            end) as (l' & t' & Hrun & Hnew' & Hold' & Hlru').
  { subst partial_old partial_new all_paths_old all_paths_new.
    unfold rename.
    destruct (split_path_all old_path) as [partial_old all_paths_old].
    destruct (split_path_all new_path) as [partial_new all_paths_new].
    cbn [fst snd] in *.
    set (w1 := with_outside d' w).
    destruct (move_tree_entry_onto_existing w1 all_paths_old all_paths_new
                size (VInt size') Hold Hnew ltac:(discriminate) Hdiv)
      as (t' & Hmove & Hnew' & Hold').
    set (w2 := with_dir_structure t' w1) in *.
    assert (exists l',
              move_cache_entry partial_old partial_new w2
                = (Ok tt, with_lru l' w2) /\
              match LRU_get partial_old (lru_file_cache w) with
              | Some cached =>
                  LRU_get partial_new l' = Some cached /\
                  LRU_get partial_old l' = None /\
                  filesize_counter l' = filesize_counter (lru_file_cache w)
              | None => l' = lru_file_cache w
              end) as (l' & Hcache & Hl').
    { destruct (LRU_get partial_old (lru_file_cache w)) as [cached|] eqn:Hget.
      - destruct (move_cache_entry_present w2 partial_old partial_new cached
                    Hnd Hget Hne Hfit) as (l' & Hm & H1 & H2 & H3).
        exists l'. auto.
      - exists (lru_file_cache w). split; [|reflexivity].
        unfold move_cache_entry, bind, cache_get.
        change (lru_file_cache w2) with (lru_file_cache w). rewrite Hget.
        unfold ret. destruct w; reflexivity. }
    assert (rename_run :
              (old_is_file <~ _isfile all_paths_old;;
               destination_file_exists <~
                 (if old_is_file : bool
                  then node <~ tree_get all_paths_old;;
                       (if negb (is_None node)
                        then new_is_file <~ _isfile all_paths_new;;
                             ret (if new_is_file : bool then true else false)
                        else ret false)
                  else ret false);;
               full_old <~ _full_path old_path;;
               full_new <~ _full_path new_path;;
               sys (os_rename full_old full_new);;;
               old_is_file0 <~ _isfile all_paths_old;;
               (if old_is_file0 : bool
                then move_tree_entry all_paths_old all_paths_new false;;;
                     move_cache_entry partial_old partial_new;;;
                     rename_branch partial_old partial_new
                       destination_file_exists;;; ret tt
                else walk <~ sys (os_walk full_new);;
                     rename_walk walk full_new partial_old partial_new
                       all_paths_old all_paths_new)) w
              = (Ok tt,
                 with_submitted
                   (submitted w
                    ++ [T_git_rename_branch (strip_slash partial_old)
                          (strip_slash partial_new) true])
                   (with_lru l' w2))).
    { rewrite (bind_ok _ _ w w true (isfile_of_int w all_paths_old size Hold)).
      erewrite bind_ok; cycle 1.
      { erewrite bind_ok; [|unfold tree_get; rewrite Hold; reflexivity].
        cbn [is_None negb].
        erewrite bind_ok; [|exact (isfile_of_int w all_paths_new size' Hnew)].
        reflexivity. }
      unfold _full_path at 1. erewrite bind_ok; [|reflexivity].
      unfold _full_path at 1. erewrite bind_ok; [|reflexivity].
      erewrite bind_ok; [|unfold sys; rewrite Hos; reflexivity].
      fold w1.
      rewrite (bind_ok _ _ w1 w1 true (isfile_of_int w1 all_paths_old size Hold)).
      erewrite bind_ok; [|exact Hmove]. fold w2.
      erewrite bind_ok; [|exact Hcache].
      unfold rename_branch, bind, submit, ret. reflexivity. }
    rewrite rename_run.
    exists l', t'. repeat split; assumption. }
  cbv zeta. rewrite Hrun.
  cbn [fst snd submitted lru_file_cache dir_structure with_submitted with_lru
         with_dir_structure].
  split; [reflexivity|]. split; [exact Hnew'|]. split; [exact Hold'|].
  split; [reflexivity|].
  destruct (LRU_get partial_old (lru_file_cache w)); [exact Hlru'|].
  exact Hlru'.
Qed.

Lemma rename_file_onto_existing_file_witness :
  let w := world_b_and_c in
  let w' := snd (rename "/a/b" "/a/c" w) in
  fst (rename "/a/b" "/a/c" w) = Ok tt /\
  getFromDict (dir_structure w') (snd (split_path_all "/a/c")) = Ok (VInt 5) /\
  getFromDict (dir_structure w') (snd (split_path_all "/a/b")) = Ok VNone /\
  submitted w' =
    submitted w
    ++ [T_git_rename_branch (strip_slash (fst (split_path_all "/a/b")))
          (strip_slash (fst (split_path_all "/a/c"))) true] /\
  match LRU_get (fst (split_path_all "/a/b")) (lru_file_cache w) with
  | Some cached =>
      LRU_get (fst (split_path_all "/a/c")) (lru_file_cache w') = Some cached /\
      LRU_get (fst (split_path_all "/a/b")) (lru_file_cache w') = None /\
      filesize_counter (lru_file_cache w') = filesize_counter (lru_file_cache w)
  | None => lru_file_cache w' = lru_file_cache w
  end.
Proof.
  apply (rename_file_onto_existing_file _ _ world_b_and_c "/a/b" "/a/c" 5 7
           (Disk.with_files
              {[ "/home/u/.evilgitfs/datadir/a/c" := [1; 2; 3; 4; 5] ]}
              Disk.empty)).
  - reflexivity.
  - reflexivity.
  - reflexivity.
  - vm_compute. reflexivity.
  - compute_done.
  - vm_compute. discriminate.
Defined.

(** ** Extra properties: the start-up *)

(** The key lists of the rows of a manifest. *)
Definition manifest_keys (rows : list (list string)) : list (list string) :=
  map (fun row => snd (split_path_all (hd EmptyString row))) rows.

(** No two key lists are equal or one a prefix of the other. *)
Fixpoint pairwise_diverge (paths : list (list string)) : Prop :=
  match paths with
  | [] => True
  | p :: rest =>
      Forall (fun q => TreeFacts.diverge p q = true) rest /\
      pairwise_diverge rest
  end.

Section BootFacts.
Context {D : Type} `{OS D} `{OSMore D}.

(** One turn of the loop over the rows, when it does not raise. *)
Lemma main_load_filelist_step (row : list string) (rows : list (list string))
    (w w' : world D) :
  main_load_filelist (row :: rows) w = (Ok tt, w') ->
  exists filepath branchname filesize size t1,
    row = [filepath; branchname; filesize] /\
    py_int filesize = Ok size /\
    nested_set (dir_structure w) (snd (split_path_all filepath)) (VInt size)
      = Ok t1 /\
    main_load_filelist rows
      (with_remote_file_size (remote_file_size w + size)
         (with_dir_structure t1 w)) = (Ok tt, w').
Proof.
  cbn [main_load_filelist].
  destruct row as [|filepath [|branchname [|filesize [|extra row]]]];
    try (unfold raise; discriminate).
  destruct (split_path_all filepath) as [partial all_paths] eqn:Hsplit.
  unfold bind, lift, on_tree, tree_step.
  destruct (py_int filesize) as [size|e] eqn:Hint; [|discriminate].
  destruct (nested_set (dir_structure w) all_paths (VInt size)) as [t1|e]
    eqn:Hset; [|discriminate].
  cbn [remote_file_size with_dir_structure].
  intros Hrest.
  exists filepath, branchname, filesize, size, t1.
  rewrite Hsplit. cbn [snd]. repeat split; assumption.
Qed.

Lemma main_load_filelist_keeps (rows : list (list string)) :
  forall (w w' : world D) (p : list string),
    main_load_filelist rows w = (Ok tt, w') ->
    Forall (fun q => TreeFacts.diverge p q = true) (manifest_keys rows) ->
    getFromDict (dir_structure w') p = getFromDict (dir_structure w) p.
Proof.
  induction rows as [|row rows IH]; intros w w' p Hrun Hdiv.
  - injection Hrun as <-. reflexivity.
  - destruct (main_load_filelist_step row rows w w' Hrun)
      as (fp & br & fs & size & t1 & -> & Hint & Hset & Hrest).
    cbn [manifest_keys map hd] in Hdiv.
    apply Forall_cons in Hdiv as [Hhere Hlater].
    rewrite (IH _ w' p Hrest Hlater).
    cbn [dir_structure with_remote_file_size with_dir_structure].
    apply (TreeFacts.nested_set_frame _ _ _ _ p Hset).
    rewrite TreeFacts.diverge_sym. exact Hhere.
Qed.

Lemma main_load_filelist_leaves (rows : list (list string)) :
  forall (w w' : world D),
    main_load_filelist rows w = (Ok tt, w') ->
    pairwise_diverge (manifest_keys rows) ->
    forall filepath branchname filesize,
      In [filepath; branchname; filesize] rows ->
      exists size,
        py_int filesize = Ok size /\
        getFromDict (dir_structure w') (snd (split_path_all filepath))
          = Ok (VInt size).
Proof.
  induction rows as [|row rows IH]; intros w w' Hrun Hpair fp br fs Hin;
    [destruct Hin|].
  destruct (main_load_filelist_step row rows w w' Hrun)
    as (fp0 & br0 & fs0 & size & t1 & -> & Hint & Hset & Hrest).
  cbn [manifest_keys map hd pairwise_diverge] in Hpair.
  destruct Hpair as [Hhere Hlater].
  destruct Hin as [Heq|Hin].
  - injection Heq as <- <- <-. exists size. split; [exact Hint|].
    rewrite (main_load_filelist_keeps rows _ w' _ Hrest Hhere).
    cbn [dir_structure with_remote_file_size with_dir_structure].
    apply (getFromDict_nested_set _ _ _ _ Hset). discriminate.
  - apply (IH _ w' Hrest Hlater fp br fs Hin).
Qed.

End BootFacts.

(** X21: when the loop of [main] over the rows of the manifest returns,
    and no two rows have the same path or a path that is a directory of
    another, every row [(path, branch, size)] has its leaf in the tree:
    the lookup of the components of [path] gives [int(size)]. *)
Theorem main_load_filelist_loads_every_record :
  forall (D : Type) (rows : list (list string)) (w w' : world D),
    main_load_filelist rows w = (Ok tt, w') ->
    pairwise_diverge (manifest_keys rows) ->
    forall filepath branchname filesize,
      In [filepath; branchname; filesize] rows ->
      exists size,
        py_int filesize = Ok size /\
        getFromDict (dir_structure w') (snd (split_path_all filepath))
          = Ok (VInt size).
Proof.
  intros D rows w w' Hrun Hpair filepath branchname filesize Hin.
  apply (main_load_filelist_leaves rows w w' Hrun Hpair
           filepath branchname filesize Hin).
Qed.

(** A manifest with three records. *)
Definition manifest_3 : list (list string) :=
  [ ["a/b"; path_hash_of "a/b"; "5"];
    ["a/c"; path_hash_of "a/c"; "7"];
    ["notes.txt"; path_hash_of "notes.txt"; "12"] ].

Lemma main_load_filelist_loads_every_record_witness :
  exists size,
    py_int "7" = Ok size /\
    getFromDict
      (dir_structure (snd (main_load_filelist manifest_3 fresh_world)))
      (snd (split_path_all "a/c")) = Ok (VInt size).
Proof.
  apply (main_load_filelist_loads_every_record Disk.t manifest_3 fresh_world
           (snd (main_load_filelist manifest_3 fresh_world))
           ltac:(vm_compute; reflexivity)
           ltac:(vm_compute; repeat constructor)
           "a/c" (path_hash_of "a/c") "7").
  right. left. reflexivity.
Defined.

Module ODMore2.

Lemma lookup_app_r (k : string) (a b : OD.t) :
  k ∉ OD.keys a -> OD.lookup k (a ++ b) = OD.lookup k b.
Proof.
  induction a as [|[x v] a IH]; simpl; [reflexivity|].
  rewrite not_elem_of_cons. intros [Hne Hrest].
  destruct (String.eqb_spec x k); [congruence | auto].
Qed.

Lemma lookup_app_l (k : string) (v : Z) (a b : OD.t) :
  OD.lookup k a = Some v -> OD.lookup k (a ++ b) = Some v.
Proof.
  induction a as [|[x v'] a IH]; simpl; [discriminate|].
  destruct (String.eqb x k); auto.
Qed.

End ODMore2.

Section SeedFacts.
Context {D : Type} `{OS D} `{OSMore D}.

(** An assignment adds its key and nothing else: every other key found
    afterwards was there before, with the same size. *)
Lemma setitem_adds_only_its_key (self : LRU) (d : D) (key k : string)
    (value s : Z) :
  NoDup (OD.keys (items self)) ->
  LRU_get k (fst (snd (LRU_setitem key value (self, d)))) = Some s ->
  (k = key /\ s = value) \/ LRU_get k self = Some s.
Proof.
  intros Hnd Hget.
  rewrite (setitem_unfold key value self d Hnd) in Hget.
  pose proof (setitem_keys_distinct key value (items self) Hnd) as Hnd1.
  destruct (evict_loop_drops_oldest
              (S (length (OD.remove key (items self) ++ [(key, value)])))
              (maxsize self) (filesize_counter self + value) (data_dir self)
              (OD.remove key (items self)) key value d Hnd1)
    as (c' & evicted & od' & r & d' & Hsplit & Hrun).
  rewrite Hrun in Hget. unfold LRU_get in *. cbn [fst snd items] in Hget.
  rewrite Hsplit in Hnd1.
  rewrite ODFacts.keys_app, ODFacts.keys_app in Hnd1.
  apply NoDup_app in Hnd1 as (Hnd2 & Hdis & _).
  apply NoDup_app in Hnd2 as (_ & Hdis2 & _).
  destruct (decide (k = key)) as [->|Hne].
  - left. split; [reflexivity|].
    rewrite ODFacts.lookup_app_last in Hget; [congruence|].
    intros Hin. apply (Hdis key); [apply elem_of_app; right; exact Hin|].
    simpl. apply list_elem_of_here.
  - right. rewrite ODMore.lookup_app_ne in Hget by assumption.
    rewrite <- (ODMore.lookup_remove_ne k key (items self) Hne), Hsplit.
    rewrite ODMore2.lookup_app_r; [exact Hget|].
    intros Hin. apply (Hdis2 k Hin).
    eapply ODFacts.lookup_Some_elem. exact Hget.
Qed.

(** What the seeding of the LRU may add. *)
Definition seeded_from (w : world D) (files : list string) (partial : string)
    (all_paths : list string) (k : string) (s : Z) : Prop :=
  exists file,
    In file files /\ k = os_path_join partial file /\
    getFromDict (dir_structure w) (all_paths ++ [file]) = Ok (VInt s).

Lemma main_seed_files_admits (files : list string) :
  forall (partial : string) (all_paths : list string) (w : world D),
    NoDup (OD.keys (items (lru_file_cache w))) ->
    let w' := snd (main_seed_files files partial all_paths w) in
    dir_structure w' = dir_structure w /\
    NoDup (OD.keys (items (lru_file_cache w'))) /\
    forall k s,
      LRU_get k (lru_file_cache w') = Some s ->
      LRU_get k (lru_file_cache w) = Some s \/
      seeded_from w files partial all_paths k s.
Proof.
  induction files as [|file files IH]; intros partial all_paths w Hnd.
  - cbn. auto.
  - cbv zeta. cbn [main_seed_files].
    assert (exists r w1,
              except_KeyError
                (filesize <~ tree_get (all_paths ++ [file]);;
                 match filesize with
                 | VNone => ret tt
                 | VInt n => on_cache (LRU_setitem (os_path_join partial file) n)
                 | VDict _ => raise TypeError
                 end) w = (r, w1) /\
              dir_structure w1 = dir_structure w /\
              NoDup (OD.keys (items (lru_file_cache w1))) /\
              forall k s,
                LRU_get k (lru_file_cache w1) = Some s ->
                LRU_get k (lru_file_cache w) = Some s \/
                (k = os_path_join partial file /\
                 getFromDict (dir_structure w) (all_paths ++ [file])
                   = Ok (VInt s))) as (r & w1 & Hstep & Htree & Hnd1 & Hkeys).
    { unfold except_KeyError, bind, tree_get, ret, raise.
      destruct (getFromDict (dir_structure w) (all_paths ++ [file]))
        as [[|n|dsub]|e] eqn:Hget.
      - exists (Ok tt), w. auto.
      - unfold on_cache.
        pose proof (setitem_stores (os_path_join partial file) n
                      (lru_file_cache w) (outside w) Hnd) as [_ Hnd1].
        pose proof (fun k s =>
                      setitem_adds_only_its_key (lru_file_cache w) (outside w)
                        (os_path_join partial file) k n s Hnd) as Hadd.
        destruct (LRU_setitem (os_path_join partial file) n
                    (lru_file_cache w, outside w)) as [r [l d1]].
        cbn [fst snd] in *.
        exists (match r with Raise KeyError => Ok tt | other => other end),
               (with_outside d1 (with_lru l w)).
        split; [destruct r as [[]|[]]; reflexivity|].
        split; [reflexivity|]. split; [exact Hnd1|].
        intros k s Hk. cbn [lru_file_cache with_outside with_lru] in Hk.
        destruct (Hadd k s Hk) as [[-> ->]|Hbefore]; auto.
      - exists (Raise TypeError), w. auto.
      - exists (match e with KeyError => Ok tt | _ => Raise e end), w.
        split; [destruct e; reflexivity | auto]. }
    destruct r as [[]|e];
      [rewrite (bind_ok _ _ _ _ _ Hstep) | rewrite (bind_raise _ _ _ _ _ Hstep)].
    + destruct (IH partial all_paths w1 Hnd1) as (Htree' & Hnd' & Hkeys').
      split; [congruence|]. split; [exact Hnd'|].
      intros k s Hk. destruct (Hkeys' k s Hk) as [Hin1|(f & Hf & -> & Hleaf)].
      * destruct (Hkeys k s Hin1) as [Hbefore|[-> Hleaf]]; [auto|].
        right. exists file. split; [left; reflexivity | auto].
      * right. exists f. split; [right; exact Hf|].
        split; [reflexivity | rewrite <- Htree; exact Hleaf].
    + cbn [snd]. split; [exact Htree|]. split; [exact Hnd1|].
      intros k s Hk. destruct (Hkeys k s Hk) as [Hbefore|[-> Hleaf]]; [auto|].
      right. exists file. split; [left; reflexivity | auto].
Qed.

End SeedFacts.

(** X22: the loop of [main] that seeds the LRU from the files of one
    directory of the cache admits tracked files only: it leaves the tree
    as it is, and every key of the LRU afterwards was there before with
    the same size or is [os.path.join(partial, file)] for a [file] of the
    directory whose components name a file leaf of that size.  A file
    that is not in the tree is never admitted. *)
Theorem main_seed_files_admits_only_tracked_files :
  forall (D : Type) (HOS : OS D) (files : list string) (partial : string)
         (all_paths : list string) (w : world D),
    NoDup (OD.keys (items (lru_file_cache w))) ->
    let w' := snd (main_seed_files files partial all_paths w) in
    dir_structure w' = dir_structure w /\
    forall k s,
      LRU_get k (lru_file_cache w') = Some s ->
      LRU_get k (lru_file_cache w) = Some s \/
      exists file,
        In file files /\ k = os_path_join partial file /\
        getFromDict (dir_structure w) (all_paths ++ [file]) = Ok (VInt s).
Proof.
  intros D HOS files partial all_paths w Hnd.
  destruct (main_seed_files_admits files partial all_paths w Hnd)
    as (Htree & _ & Hkeys).
  split; [exact Htree | exact Hkeys].
Qed.

Lemma main_seed_files_admits_only_tracked_files_witness :
  let w' := snd (main_seed_files ["b"; "stale"] "a" ["a"] world_dir_with_b) in
  dir_structure w' = dir_structure world_dir_with_b /\
  forall k s,
    LRU_get k (lru_file_cache w') = Some s ->
    LRU_get k (lru_file_cache world_dir_with_b) = Some s \/
    exists file,
      In file ["b"; "stale"] /\ k = os_path_join "a" file /\
      getFromDict (dir_structure world_dir_with_b) (["a"] ++ [file])
        = Ok (VInt s).
Proof.
  apply (main_seed_files_admits_only_tracked_files _ _ ["b"; "stale"] "a"
           ["a"] world_dir_with_b).
  compute_done.
Defined.
